(** * WALKOFF worker node: a shallow embedding of
      [walkoff/multiprocessedexecutor/worker.py]

    The development follows the layout of the Python module:

    - Python preliminaries (exceptions, values, insertion-ordered dicts);
    - the wire codec ([convert_to_protobuf] and its helpers);
    - [WorkflowResultsHandler.handle_event];
    - the generator [WorkflowReceiver.receive_workflows];
    - the [Worker] class: registry, dispatch body, control handling and
      the signal bridge;
    - an interleaving semantics of the scheduler loop and the pool threads.

    Library calls whose code is not part of the module (json, NaCl,
    protobuf parsing, the execution database, the workflow interpreter)
    are Section variables or oracles carried by the state. *)

From Stdlib Require Import ZArith Lia.
From stdpp Require Import base tactics option list strings pretty.

Set Default Proof Using "Type".

(** ** Python preliminaries *)

(** The exception classes that the modelled paths can raise. *)
Inductive exn :=
| KeyError | AttributeError | TypeError | ValueError
| CryptoError | DecodeError | ZMQError | SQLAlchemyError
| InvalidArgument | StopIteration | RuntimeError.

#[global] Instance exn_eq_dec : EqDecision exn.
Proof. solve_decision. Defined.

(** The outcome of a Python call: a value, or a raised exception. *)
Inductive res (A : Type) :=
| Ok (a : A)
| Raise (e : exn).
Arguments Ok {A} a.
Arguments Raise {A} e.

#[global] Instance res_ret : MRet res := fun _ a => Ok a.
#[global] Instance res_bind : MBind res := fun _ _ f m =>
  match m with Ok a => f a | Raise e => Raise e end.
#[global] Instance res_fmap : FMap res := fun _ _ f m =>
  match m with Ok a => Ok (f a) | Raise e => Raise e end.

Definition is_ok {A} (r : res A) : bool :=
  match r with Ok _ => true | Raise _ => false end.

(** Methods mutate [self]: a method is a function from the state before
    the call to its outcome and the state after it. A raised exception
    keeps the mutations made before it. *)
Definition py (S A : Type) : Type := S -> res A * S.

#[global] Instance py_ret {S} : MRet (py S) := fun _ a s => (Ok a, s).
#[global] Instance py_bind {S} : MBind (py S) := fun _ _ f m s =>
  match m s with
  | (Ok a, s') => f a s'
  | (Raise e, s') => (Raise e, s')
  end.

Definition raise {S A} (e : exn) : py S A := fun s => (Raise e, s).
Definition lift {S A} (r : res A) : py S A := fun s => (r, s).
Definition gets {S A} (f : S -> A) : py S A := fun s => (Ok (f s), s).
Definition modify {S} (f : S -> S) : py S unit := fun s => (Ok (), f s).

(** Python values that reach the codec: JSON-like data, and opaque objects
    (anything else; [repr] stands for the object itself). *)
#[local] Unset Elimination Schemes.
Inductive pyval :=
| PyNone
| PyBool (b : bool)
| PyInt (n : Z)
| PyStr (s : string)
| PyList (l : list pyval)
| PyDict (d : list (string * pyval))
| PyObject (repr : string).
#[local] Set Elimination Schemes.

(** [isinstance(val, string_types)] *)
Definition is_string (v : pyval) : bool :=
  match v with PyStr _ => true | _ => false end.

(** [val is not None] *)
Definition is_not_None (v : pyval) : bool :=
  match v with PyNone => false | _ => true end.

(** *** Insertion-ordered dictionaries

    [self.workflows] is a Python dict; its iteration order matters to
    [__get_workflow_by_execution_id], so it is an association list in
    insertion order. *)
Module PyDict.
Section dict.
Context {K V : Type} `{EqDecision K}.

Definition t := list (K * V).

Definition empty : t := [].

(** [d[k]], [None] standing for [KeyError] *)
Fixpoint get (k : K) (d : t) : option V :=
  match d with
  | [] => None
  | (k', v) :: d' => if decide (k' = k) then Some v else get k d'
  end.

(** [d[k] = v]: an existing key keeps its position, a new key goes last *)
Fixpoint set (k : K) (v : V) (d : t) : t :=
  match d with
  | [] => [(k, v)]
  | (k', v') :: d' =>
      if decide (k' = k) then (k, v) :: d' else (k', v') :: set k v d'
  end.

(** the dict after [d.pop(k)]: no entry under [k] is left *)
Definition remove (k : K) (d : list (K * V)) : list (K * V) :=
  filter (fun p : K * V => p.1 <> k) d.

(** [d.pop(k)]: the value and the remaining dict, or [KeyError] *)
Definition pop (k : K) (d : t) : res (V * t) :=
  match get k d with
  | Some v => Ok (v, remove k d)
  | None => Raise KeyError
  end.

Definition keys (d : t) : list K := d.*1.
Definition values (d : t) : list V := d.*2.
Definition len (d : t) : nat := length d.

End dict.
Arguments t : clear implicits.
End PyDict.

(** ** The wire codec *)

(** *** Execution elements and events *)

(** [walkoff.events.EventType], as far as the codec tells the members
    apart. *)
Module EventType.
Inductive t :=
| workflow | action | branch | condition | transform | conditonalexpression
| controller.
End EventType.

#[global] Instance EventType_eq_dec : EqDecision EventType.t.
Proof. solve_decision. Defined.

(** A member of the enum [walkoff.events.WalkoffEvent]: its member name
    and its [event_type]. *)
Record WalkoffEvent := {
  event_name : string;
  event_type : EventType.t
}.

#[global] Instance WalkoffEvent_eq_dec : EqDecision WalkoffEvent.
Proof. solve_decision. Defined.

(** The four members the module names. *)
Definition ConsoleLog := {| event_name := "ConsoleLog"; event_type := EventType.action |}.
Definition SendMessage := {| event_name := "SendMessage"; event_type := EventType.action |}.
Definition TriggerActionAwaitingData :=
  {| event_name := "TriggerActionAwaitingData"; event_type := EventType.action |}.
Definition WorkflowPaused :=
  {| event_name := "WorkflowPaused"; event_type := EventType.workflow |}.

(** [walkoff.executiondb.argument.Argument]: the three attributes read by
    [getattr]; [PyNone] is Python's [None]. *)
Record Argument := {
  arg_name : string;
  value : pyval;
  reference : pyval;
  selection : pyval
}.

Inductive arg_field := f_value | f_reference | f_selection.

Definition getattr (a : Argument) (f : arg_field) : pyval :=
  match f with
  | f_value => value a
  | f_reference => reference a
  | f_selection => selection a
  end.

(** An action, as the codec reads it. [act_id] and [act_execution_id] are
    already text ([str(sender.id)]). *)
Record Action := {
  act_name : string;
  act_id : string;
  act_execution_id : string;
  act_app_name : string;
  act_action_name : string;
  act_device_id : option Z;
  arguments : list Argument
}.

(** A [Workflow] row, as the worker uses it. [_execution_id] is [None]
    until the dispatch body assigns it. *)
Record Workflow := {
  wf_name : string;
  wf_id : string;
  _execution_id : option string;
  wf_start : string;
  executing_action : Action;
  _accumulator : list (string * pyval);
  branch_counters : list (string * pyval);
  _instance_repo : pyval
}.

Definition get_execution_id (w : Workflow) : option string := _execution_id w.

(** [str(x)] for an optional identifier *)
Definition str_opt (o : option string) : string :=
  match o with Some s => s | None => "None" end.

(** Branches, conditions, transforms and conditional expressions: an id
    and, for some, an [app_name] attribute. *)
Record Element := {
  el_id : string;
  el_app_name : option string
}.

(** The dict sent with [SendMessage]. *)
Record UserMessage := {
  um_subject : option string;
  um_body : option pyval
}.

(** The [sender] of a signal. *)
Inductive Sender :=
| SenderWorkflow (w : Workflow)
| SenderAction (a : Action)
| SenderElement (e : Element)
| SenderMessage (m : UserMessage).

(** [sender.id] *)
Definition sender_id (s : Sender) : res string :=
  match s with
  | SenderWorkflow w => Ok (wf_id w)
  | SenderAction a => Ok (act_id a)
  | SenderElement e => Ok (el_id e)
  | SenderMessage _ => Raise AttributeError
  end.

(** the attributes of an action; any other sender lacks some of them *)
Definition as_action (s : Sender) : res Action :=
  match s with
  | SenderAction a => Ok a
  | _ => Raise AttributeError
  end.

(** The keyword arguments of a signal. [event] is always sent; the others
    are present or absent. *)
Record kwargs := {
  kw_event : WalkoffEvent;
  kw_data : option pyval;
  kw_level : option pyval;
  kw_message : option string;
  kw_users : option (list Z);
  kw_roles : option (list Z);
  kw_requires_reauth : option bool
}.

(** *** The protobuf messages of [data.proto]

    Scalar fields are optional: [None] is an unset field. *)

Inductive MessageType :=
| WORKFLOWPACKET | ACTIONPACKET | USERMESSAGE | LOGMESSAGE | GENERALPACKET.

Record WorkflowSender := {
  ws_name : option string;
  ws_id : option string;
  ws_execution_id : option string
}.

Record WorkflowPacket := {
  wp_sender : WorkflowSender;
  wp_additional_data : option string
}.

Record ArgumentProto := {
  ap_arg_name : option string;
  ap_arg_value : option string;
  ap_arg_reference : option string;
  ap_arg_selection : option string
}.

Record ActionSender := {
  as_name : option string;
  as_id : option string;
  as_execution_id : option string;
  as_app_name : option string;
  as_action_name : option string;
  as_device_id : option Z;
  as_arguments : list ArgumentProto
}.

Record ActionPacket := {
  ap_sender : ActionSender;
  ap_workflow : WorkflowSender;
  ap_additional_data : option string
}.

Record GeneralSender := {
  gs_id : option string;
  gs_app_name : option string
}.

Record GeneralPacket := {
  gp_sender : GeneralSender;
  gp_workflow : WorkflowSender
}.

Record UserMessagePacket := {
  mp_subject : option string;
  mp_body : option string;
  mp_workflow : WorkflowSender;
  mp_users : list Z;
  mp_roles : list Z;
  mp_requires_reauth : option bool
}.

Record LoggingPacket := {
  lp_name : option string;
  lp_app_name : option string;
  lp_action_name : option string;
  lp_level : option string;
  lp_message : option string;
  lp_workflow : WorkflowSender
}.

Record Message := {
  msg_event_name : option string;
  msg_type : option MessageType;
  workflow_packet : WorkflowPacket;
  action_packet : ActionPacket;
  message_packet : UserMessagePacket;
  logging_packet : LoggingPacket;
  general_packet : GeneralPacket
}.

(** Freshly constructed messages: nothing set. *)
Definition new_WorkflowSender : WorkflowSender :=
  {| ws_name := None; ws_id := None; ws_execution_id := None |}.
Definition new_ArgumentProto : ArgumentProto :=
  {| ap_arg_name := None; ap_arg_value := None;
     ap_arg_reference := None; ap_arg_selection := None |}.
Definition new_ActionSender : ActionSender :=
  {| as_name := None; as_id := None; as_execution_id := None;
     as_app_name := None; as_action_name := None; as_device_id := None;
     as_arguments := [] |}.
Definition new_Message : Message :=
  {| msg_event_name := None; msg_type := None;
     workflow_packet :=
       {| wp_sender := new_WorkflowSender; wp_additional_data := None |};
     action_packet :=
       {| ap_sender := new_ActionSender; ap_workflow := new_WorkflowSender;
          ap_additional_data := None |};
     message_packet :=
       {| mp_subject := None; mp_body := None;
          mp_workflow := new_WorkflowSender; mp_users := []; mp_roles := [];
          mp_requires_reauth := None |};
     logging_packet :=
       {| lp_name := None; lp_app_name := None; lp_action_name := None;
          lp_level := None; lp_message := None;
          lp_workflow := new_WorkflowSender |};
     general_packet :=
       {| gp_sender := {| gs_id := None; gs_app_name := None |};
          gp_workflow := new_WorkflowSender |} |}.

(** Assignments to the fields of a [Message]. *)
Definition set_event_name (n : string) (p : Message) : Message :=
  {| msg_event_name := Some n; msg_type := msg_type p;
     workflow_packet := workflow_packet p; action_packet := action_packet p;
     message_packet := message_packet p; logging_packet := logging_packet p;
     general_packet := general_packet p |}.
Definition set_type (t : MessageType) (p : Message) : Message :=
  {| msg_event_name := msg_event_name p; msg_type := Some t;
     workflow_packet := workflow_packet p; action_packet := action_packet p;
     message_packet := message_packet p; logging_packet := logging_packet p;
     general_packet := general_packet p |}.
Definition set_workflow_packet (w : WorkflowPacket) (p : Message) : Message :=
  {| msg_event_name := msg_event_name p; msg_type := msg_type p;
     workflow_packet := w; action_packet := action_packet p;
     message_packet := message_packet p; logging_packet := logging_packet p;
     general_packet := general_packet p |}.
Definition set_action_packet (a : ActionPacket) (p : Message) : Message :=
  {| msg_event_name := msg_event_name p; msg_type := msg_type p;
     workflow_packet := workflow_packet p; action_packet := a;
     message_packet := message_packet p; logging_packet := logging_packet p;
     general_packet := general_packet p |}.
Definition set_message_packet (m : UserMessagePacket) (p : Message) : Message :=
  {| msg_event_name := msg_event_name p; msg_type := msg_type p;
     workflow_packet := workflow_packet p; action_packet := action_packet p;
     message_packet := m; logging_packet := logging_packet p;
     general_packet := general_packet p |}.
Definition set_logging_packet (l : LoggingPacket) (p : Message) : Message :=
  {| msg_event_name := msg_event_name p; msg_type := msg_type p;
     workflow_packet := workflow_packet p; action_packet := action_packet p;
     message_packet := message_packet p; logging_packet := l;
     general_packet := general_packet p |}.
Definition set_general_packet (g : GeneralPacket) (p : Message) : Message :=
  {| msg_event_name := msg_event_name p; msg_type := msg_type p;
     workflow_packet := workflow_packet p; action_packet := action_packet p;
     message_packet := message_packet p; logging_packet := logging_packet p;
     general_packet := g |}.

(** [setattr(arg, field, s)] *)
Definition setattr (arg : ArgumentProto) (f : arg_field) (s : string)
  : ArgumentProto :=
  match f with
  | f_value =>
      {| ap_arg_name := ap_arg_name arg; ap_arg_value := Some s;
         ap_arg_reference := ap_arg_reference arg;
         ap_arg_selection := ap_arg_selection arg |}
  | f_reference =>
      {| ap_arg_name := ap_arg_name arg; ap_arg_value := ap_arg_value arg;
         ap_arg_reference := Some s;
         ap_arg_selection := ap_arg_selection arg |}
  | f_selection =>
      {| ap_arg_name := ap_arg_name arg; ap_arg_value := ap_arg_value arg;
         ap_arg_reference := ap_arg_reference arg;
         ap_arg_selection := Some s |}
  end.

(** reading a field of the wire argument back *)
Definition wire_field (arg : ArgumentProto) (f : arg_field) : option string :=
  match f with
  | f_value => ap_arg_value arg
  | f_reference => ap_arg_reference arg
  | f_selection => ap_arg_selection arg
  end.

Definition bytes := list Byte.byte.

(** *** Integer fields

    Python integers are unbounded; an integer field of a protobuf message
    is not. The runtime checks an integer when it is assigned to a field
    or appended to a repeated field, and raises [ValueError] when it is
    outside the range of the field's declared type. *)
Inductive int_type := int32 | int64 | uint32 | uint64.

Definition in_range (t : int_type) (v : Z) : bool :=
  match t with
  | int32 => bool_decide (- 2 ^ 31 ≤ v < 2 ^ 31)%Z
  | int64 => bool_decide (- 2 ^ 63 ≤ v < 2 ^ 63)%Z
  | uint32 => bool_decide (0 ≤ v < 2 ^ 32)%Z
  | uint64 => bool_decide (0 ≤ v < 2 ^ 64)%Z
  end.

(** [field = v] on an integer field of type [t] *)
Definition set_int (t : int_type) (v : Z) : res Z :=
  if in_range t v then Ok v else Raise ValueError.

(** [field.extend(vs)] on a repeated integer field of type [t] *)
Definition extend (t : int_type) (field vs : list Z) : res (list Z) :=
  if forallb (in_range t) vs then Ok (field ++ vs) else Raise ValueError.

(** The declared types of the integer fields that the module assigns:
    [ActionSender.device_id], [UserMessagePacket.users] and
    [UserMessagePacket.roles]. They are fixed by the generated module
    [walkoff.proto.build.data_pb2]. *)
Class data_pb2 := {
  device_id_type : int_type;
  users_type : int_type;
  roles_type : int_type
}.

(** *** The conversion functions *)

Section codec.

Context `{!data_pb2}.

(** [json.dumps] and [str], from the Python library. *)
Variable json_dumps : pyval -> res string.
Variable py_str : pyval -> string.
(** [Message.SerializeToString], from the protobuf runtime. *)
Variable SerializeToString : Message -> bytes.

Definition add_workflow_to_proto (packet : WorkflowSender) (workflow : Workflow)
  : WorkflowSender :=
  {| ws_name := Some (wf_name workflow);
     ws_id := Some (wf_id workflow);
     ws_execution_id := Some (str_opt (get_execution_id workflow)) |}.

(** The test [if 'data' is not None] compares the string literal, not the
    parameter [data]; it is embedded as written. *)
Definition convert_workflow_to_proto
    (packet : Message) (sender : Workflow) (data : pyval) : res Message :=
  let packet := set_type WORKFLOWPACKET packet in
  let workflow_packet := workflow_packet packet in
  additional_data ←
    (if is_not_None (PyStr "data")
     then Some <$> json_dumps data
     else Ok (wp_additional_data workflow_packet));
  Ok (set_workflow_packet
        {| wp_sender := add_workflow_to_proto (wp_sender workflow_packet) sender;
           wp_additional_data := additional_data |}
        packet).

(** The last assignment is to an integer field: it raises [ValueError]
    when the device id, or the [-1] that stands for none, is out of the
    field's range. *)
Definition add_sender_to_action_packet_proto
    (action_packet : ActionPacket) (sender : Action) : res ActionPacket :=
  device_id ←
    set_int device_id_type
      (match act_device_id sender with
       | Some d => d
       | None => (-1)%Z
       end);
  Ok {| ap_sender :=
          {| as_name := Some (act_name sender);
             as_id := Some (act_id sender);
             as_execution_id := Some (act_execution_id sender);
             as_app_name := Some (act_app_name sender);
             as_action_name := Some (act_action_name sender);
             as_device_id := Some device_id;
             as_arguments := as_arguments (ap_sender action_packet) |};
        ap_workflow := ap_workflow action_packet;
        ap_additional_data := ap_additional_data action_packet |}.

(** One pass of the inner loop of [add_arguments_to_action_proto]:
    the branches are, in order, [val is None], a string, and the
    [try]/[except (ValueError, TypeError)] around [json.dumps]. *)
Definition add_argument_field
    (argument : Argument) (arg : ArgumentProto) (field : arg_field)
  : res ArgumentProto :=
  let val := getattr argument field in
  match val with
  | PyNone => Ok arg
  | PyStr s => Ok (setattr arg field s)
  | _ =>
      match json_dumps val with
      | Ok s => Ok (setattr arg field s)
      | Raise ValueError | Raise TypeError => Ok (setattr arg field (py_str val))
      | Raise e => Raise e
      end
  end.

(** [for field in ('value', 'reference', 'selection')] *)
Fixpoint add_argument_fields
    (argument : Argument) (fields : list arg_field) (arg : ArgumentProto)
  : res ArgumentProto :=
  match fields with
  | [] => Ok arg
  | field :: fields' =>
      arg' ← add_argument_field argument arg field;
      add_argument_fields argument fields' arg'
  end.

(** [arg = action_packet.sender.arguments.add()] followed by the
    assignments to [arg] *)
Definition add_argument (argument : Argument) : res ArgumentProto :=
  let arg :=
    {| ap_arg_name := Some (arg_name argument);
       ap_arg_value := ap_arg_value new_ArgumentProto;
       ap_arg_reference := ap_arg_reference new_ArgumentProto;
       ap_arg_selection := ap_arg_selection new_ArgumentProto |} in
  add_argument_fields argument [f_value; f_reference; f_selection] arg.

Definition append_argument (arg : ArgumentProto) (action_packet : ActionPacket)
  : ActionPacket :=
  let s := ap_sender action_packet in
  {| ap_sender :=
       {| as_name := as_name s; as_id := as_id s;
          as_execution_id := as_execution_id s;
          as_app_name := as_app_name s; as_action_name := as_action_name s;
          as_device_id := as_device_id s;
          as_arguments := as_arguments s ++ [arg] |};
     ap_workflow := ap_workflow action_packet;
     ap_additional_data := ap_additional_data action_packet |}.

(** [for argument in sender.arguments] *)
Fixpoint add_arguments_loop
    (action_packet : ActionPacket) (args : list Argument) : res ActionPacket :=
  match args with
  | [] => Ok action_packet
  | argument :: args' =>
      arg ← add_argument argument;
      add_arguments_loop (append_argument arg action_packet) args'
  end.

Definition add_arguments_to_action_proto
    (action_packet : ActionPacket) (sender : Action) : res ActionPacket :=
  add_arguments_loop action_packet (arguments sender).

(** As in [convert_workflow_to_proto], the guard tests the literal. *)
Definition convert_action_to_proto
    (packet : Message) (sender : Sender) (workflow : Workflow) (data : pyval)
  : res Message :=
  let packet := set_type ACTIONPACKET packet in
  let action_packet := action_packet packet in
  additional_data ←
    (if is_not_None (PyStr "data")
     then Some <$> json_dumps data
     else Ok (ap_additional_data action_packet));
  let action_packet :=
    {| ap_sender := ap_sender action_packet;
       ap_workflow := ap_workflow action_packet;
       ap_additional_data := additional_data |} in
  sender ← as_action sender;
  action_packet ← add_sender_to_action_packet_proto action_packet sender;
  action_packet ← add_arguments_to_action_proto action_packet sender;
  Ok (set_action_packet
        {| ap_sender := ap_sender action_packet;
           ap_workflow :=
             add_workflow_to_proto (ap_workflow action_packet) workflow;
           ap_additional_data := ap_additional_data action_packet |}
        packet).

(** [d[k]] on keyword arguments and message dicts *)
Definition subscript {A} (o : option A) : res A :=
  match o with Some a => Ok a | None => Raise KeyError end.

Definition convert_send_message_to_protobuf
    (packet : Message) (message : Sender) (workflow : Workflow) (kw : kwargs)
  : res Message :=
  let packet := set_type USERMESSAGE packet in
  let message_packet := message_packet packet in
  m ← (match message with
       | SenderMessage m => Ok m
       | _ => Raise AttributeError
       end);
  let subject := default "" (um_subject m) in
  body ← subscript (um_body m);
  body ← json_dumps body;
  users ←
    (match kw_users kw with
     | Some users => extend users_type (mp_users message_packet) users
     | None => Ok (mp_users message_packet)
     end);
  roles ←
    (match kw_roles kw with
     | Some roles => extend roles_type (mp_roles message_packet) roles
     | None => Ok (mp_roles message_packet)
     end);
  Ok (set_message_packet
        {| mp_subject := Some subject;
           mp_body := Some body;
           mp_workflow :=
             add_workflow_to_proto (mp_workflow message_packet) workflow;
           mp_users := users;
           mp_roles := roles;
           mp_requires_reauth :=
             match kw_requires_reauth kw with
             | Some b => Some b
             | None => mp_requires_reauth message_packet
             end |}
        packet).

Definition convert_log_message_to_protobuf
    (packet : Message) (sender : Sender) (workflow : Workflow) (kw : kwargs)
  : res Message :=
  let packet := set_type LOGMESSAGE packet in
  let logging_packet := logging_packet packet in
  sender ← as_action sender;
  level ← subscript (kw_level kw);
  message ← subscript (kw_message kw);
  Ok (set_logging_packet
        {| lp_name := Some (act_name sender);
           lp_app_name := Some (act_app_name sender);
           lp_action_name := Some (act_action_name sender);
           lp_level := Some (py_str level);
           lp_message := Some message;
           lp_workflow :=
             add_workflow_to_proto (lp_workflow logging_packet) workflow |}
        packet).

(** [hasattr(sender, 'app_name')] together with the attribute read *)
Definition sender_app_name (s : Sender) : option string :=
  match s with
  | SenderAction a => Some (act_app_name a)
  | SenderElement e => el_app_name e
  | _ => None
  end.

Definition convert_branch_transform_condition_to_proto
    (packet : Message) (sender : Sender) (workflow : Workflow) : res Message :=
  let packet := set_type GENERALPACKET packet in
  let general_packet := general_packet packet in
  id ← sender_id sender;
  Ok (set_general_packet
        {| gp_sender :=
             {| gs_id := Some id;
                gs_app_name :=
                  match sender_app_name sender with
                  | Some n => Some n
                  | None => gs_app_name (gp_sender general_packet)
                  end |};
           gp_workflow :=
             add_workflow_to_proto (gp_workflow general_packet) workflow |}
        packet).

(** [data = kwargs['data'] if 'data' in kwargs else None] *)
Definition data_of (kw : kwargs) : pyval := default PyNone (kw_data kw).

(** The message built by [convert_to_protobuf], before serialization. *)
Definition convert_to_message
    (sender : Sender) (workflow : Workflow) (kw : kwargs) : res Message :=
  let event := kw_event kw in
  let data := data_of kw in
  let packet := new_Message in
  let packet := set_event_name (event_name event) packet in
  if decide (event_type event = EventType.workflow)
  then convert_workflow_to_proto packet workflow data
  else if decide (event_type event = EventType.action)
  then
    if decide (event = ConsoleLog)
    then convert_log_message_to_protobuf packet sender workflow kw
    else if decide (event = SendMessage)
    then convert_send_message_to_protobuf packet sender workflow kw
    else convert_action_to_proto packet sender workflow data
  else if decide (event_type event ∈
                    [EventType.branch; EventType.condition;
                     EventType.transform; EventType.conditonalexpression])
  then convert_branch_transform_condition_to_proto packet sender workflow
  else Ok packet.

Definition convert_to_protobuf
    (sender : Sender) (workflow : Workflow) (kw : kwargs) : res bytes :=
  packet ← convert_to_message sender workflow kw;
  let packet_bytes := SerializeToString packet in
  Ok packet_bytes.

End codec.

(** ** [WorkflowResultsHandler] *)

(** [walkoff.executiondb.saved_workflow.SavedWorkflow] *)
Record SavedWorkflow := {
  sw_workflow_execution_id : option string;
  sw_workflow_id : string;
  sw_accumulator : list (string * pyval);
  sw_app_instances : pyval
}.

(** Modelled from the spec: [SavedWorkflow.from_workflow] is defined
    outside this module. The specification describes the row as a
    snapshot of the workflow: its execution id, its accumulator and its
    app instances. *)
Definition from_workflow (w : Workflow) : SavedWorkflow :=
  {| sw_workflow_execution_id := get_execution_id w;
     sw_workflow_id := wf_id w;
     sw_accumulator := _accumulator w;
     sw_app_instances := _instance_repo w |}.

(** The execution database: the [Workflow] rows and the committed
    [SavedWorkflow] rows. *)
Record ExecutionDatabase := {
  db_workflows : list Workflow;
  db_saved_workflows : list SavedWorkflow
}.

(** The handler state: the frames pushed on [results_sock], the database,
    and the calls of [case_logger.log] that returned. *)
Record WorkflowResultsHandler := {
  results_sock : list bytes;
  execution_db : ExecutionDatabase;
  case_logger : list (WalkoffEvent * string * option pyval)
}.

Definition session_add (sw : SavedWorkflow) (h : WorkflowResultsHandler)
  : WorkflowResultsHandler :=
  {| results_sock := results_sock h;
     execution_db :=
       {| db_workflows := db_workflows (execution_db h);
          db_saved_workflows := db_saved_workflows (execution_db h) ++ [sw] |};
     case_logger := case_logger h |}.

Definition log_appended (entry : WalkoffEvent * string * option pyval)
    (h : WorkflowResultsHandler) : WorkflowResultsHandler :=
  {| results_sock := results_sock h;
     execution_db := execution_db h;
     case_logger := case_logger h ++ [entry] |}.

Definition sock_pushed (frame : bytes) (h : WorkflowResultsHandler)
  : WorkflowResultsHandler :=
  {| results_sock := results_sock h ++ [frame];
     execution_db := execution_db h;
     case_logger := case_logger h |}.

(** How the collaborators behave during one call: whether the database
    commit, the case logger and the socket raise, and with what. *)
Record Collaborators := {
  commit_raises : SavedWorkflow -> option exn;
  log_raises : WalkoffEvent -> string -> option pyval -> option exn;
  send_raises : bytes -> option exn
}.

Section results_handler.

Context `{!data_pb2}.
Variable json_dumps : pyval -> res string.
Variable py_str : pyval -> string.
Variable SerializeToString : Message -> bytes.
Variable env : Collaborators.

(** [self.execution_db.session.add(saved_workflow)] and [commit()] *)
Definition session_add_commit (sw : SavedWorkflow)
  : py WorkflowResultsHandler unit :=
  match commit_raises env sw with
  | Some e => raise e
  | None => modify (session_add sw)
  end.

(** [self.case_logger.log(event, sender_id, data)] *)
Definition case_logger_log
    (event : WalkoffEvent) (id : string) (data : option pyval)
  : py WorkflowResultsHandler unit :=
  match log_raises env event id data with
  | Some e => raise e
  | None => modify (log_appended (event, id, data))
  end.

(** [self.results_sock.send(packet_bytes)] *)
Definition results_sock_send (packet_bytes : bytes)
  : py WorkflowResultsHandler unit :=
  match send_raises env packet_bytes with
  | Some e => raise e
  | None => modify (sock_pushed packet_bytes)
  end.

Definition handle_event
    (workflow : Workflow) (sender : Sender) (kw : kwargs)
  : py WorkflowResultsHandler unit :=
  let event := kw_event kw in
  sender ←
    (if decide (event ∈ [TriggerActionAwaitingData; WorkflowPaused])
     then
       let saved_workflow := from_workflow workflow in
       session_add_commit saved_workflow;;
       mret sender
     else if decide (kw_event kw = ConsoleLog)
     then
       let action := executing_action workflow in
       mret (SenderAction action)
     else mret sender);
  packet_bytes ←
    lift (convert_to_protobuf json_dumps py_str SerializeToString
            sender workflow kw);
  id ← lift (sender_id sender);
  case_logger_log event id (kw_data kw);;
  results_sock_send packet_bytes.

End results_handler.

(** ** [WorkflowReceiver] *)

(** [ExecuteWorkflowMessage] of [data.proto]; an unset [start] reads as the
    empty string. *)
Record ExecuteWorkflowMessage := {
  em_workflow_id : string;
  em_workflow_execution_id : string;
  em_start : string;
  em_arguments : list ArgumentProto;
  em_resume : bool
}.

(** The tuple yielded by the generator:
    [(workflow_id, workflow_execution_id, start, start_arguments, resume)] *)
Record ExecuteRequest := {
  workflow_id : string;
  workflow_execution_id : string;
  start : string;
  start_arguments : list Argument;
  resume : bool
}.

(** The receiver: [self.exit], the list [request_queue] held by the cache
    (pushed at the head, popped at the tail), and whether the generator
    object of [receive_workflows] has already returned or raised. *)
Record WorkflowReceiver := {
  exit : bool;
  cache : list bytes;
  finished : bool
}.

(** [self.cache.rpop("request_queue")] *)
Definition rpop (queue : list bytes) : option bytes * list bytes :=
  match reverse queue with
  | [] => (None, queue)
  | frame :: rest => (Some frame, reverse rest)
  end.

Section workflow_receiver.

(** [Box(self.key, self.server_key).decrypt], from NaCl;
    [ExecuteWorkflowMessage.ParseFromString], from protobuf; and the
    constructor call [Argument] applied to the dict form of a wire
    argument. *)
Variable box_decrypt : bytes -> res bytes.
Variable ParseFromString : bytes -> res ExecuteWorkflowMessage.
Variable Argument_init : ArgumentProto -> res Argument.

(** [for arg in message.arguments: start_arguments.append(Argument(...))] *)
Fixpoint make_start_arguments (args : list ArgumentProto) : res (list Argument) :=
  match args with
  | [] => Ok []
  | arg :: args' =>
      a ← Argument_init arg;
      rest ← make_start_arguments args';
      Ok (a :: rest)
  end.

(** The body of the [if received_message is not None] branch, from
    [box.decrypt] to the yielded tuple. *)
Definition decode_request (received_message : bytes) : res ExecuteRequest :=
  dec_msg ← box_decrypt received_message;
  message ← ParseFromString dec_msg;
  let start := em_start message in
  start_arguments ← make_start_arguments (em_arguments message);
  Ok {| workflow_id := em_workflow_id message;
        workflow_execution_id := em_workflow_execution_id message;
        start := start;
        start_arguments := start_arguments;
        resume := em_resume message |}.

Definition set_cache (q : list bytes) (r : WorkflowReceiver) : WorkflowReceiver :=
  {| exit := exit r; cache := q; finished := finished r |}.
Definition set_finished (r : WorkflowReceiver) : WorkflowReceiver :=
  {| exit := exit r; cache := cache r; finished := true |}.
Definition shutdown (r : WorkflowReceiver) : WorkflowReceiver :=
  {| exit := true; cache := cache r; finished := finished r |}.

(** One [next()] on the generator returned by [receive_workflows]: it runs
    from the loop test to the next [yield]. [Ok None] is [yield None] and
    [Ok (Some r)] the yielded tuple. An exception raised in the body leaves
    the generator and finishes it; a finished generator raises
    [StopIteration]. *)
Definition receive_workflows_next
  : py WorkflowReceiver (option ExecuteRequest) :=
  fun self =>
  if finished self then (Raise StopIteration, self)
  else if exit self then (Raise StopIteration, set_finished self)
  else
    match rpop (cache self) with
    | (Some received_message, queue) =>
        let self := set_cache queue self in
        match decode_request received_message with
        | Ok request => (Ok (Some request), self)
        | Raise e => (Raise e, set_finished self)
        end
    | (None, _) => (Ok None, self)
    end.

(** A consumer that calls [next()] [n] times and keeps the tuples it is
    given, stopping at the first exception. *)
Fixpoint take_requests (n : nat) (self : WorkflowReceiver)
  : list ExecuteRequest * res unit * WorkflowReceiver :=
  match n with
  | 0 => ([], Ok (), self)
  | S n' =>
      match receive_workflows_next self with
      | (Ok item, self') =>
          let '(reqs, r, self'') := take_requests n' self' in
          (match item with Some req => req :: reqs | None => reqs end,
           r, self'')
      | (Raise e, self') => ([], Raise e, self')
      end
  end.

End workflow_receiver.

(** ** [Worker] *)

(** [threading.current_thread().name] *)
Definition thread_name := string.

Inductive WorkflowCommunicationMessageType := pause | abort.

Record WorkflowCommunicationMessageData := {
  wc_type : WorkflowCommunicationMessageType;
  wc_workflow_execution_id : string
}.

(** The calls worth observing, in the order they happen: the two registry
    mutations, and the calls into the workflow interpreter. *)
Inductive call :=
| Bind (t : thread_name) (w : Workflow)
| Release (t : thread_name)
| call_execute (w : Workflow) (start : string) (args : list Argument)
    (resume : bool)
| call_pause (w : Workflow)
| call_abort (w : Workflow).

Definition is_Bind (c : call) : bool :=
  match c with Bind _ _ => true | _ => false end.
Definition is_Release (c : call) : bool :=
  match c with Release _ => true | _ => false end.

(** The attributes of a [Worker] that the methods below read or write.
    [workflow_results_sender] owns the execution database, the object
    also reached as [walkoff.executiondb.execution_db]. A registry value
    is the workflow as it was bound; what the interpreter does to the
    object afterwards is not tracked. *)
Record Worker := {
  capacity : nat;
  thread_exit : bool;
  workflows : PyDict.t thread_name Workflow;
  workflow_receiver : WorkflowReceiver;
  workflow_results_sender : WorkflowResultsHandler;
  calls : list call
}.

Definition set_workflows (d : PyDict.t thread_name Workflow) (self : Worker)
  : Worker :=
  {| capacity := capacity self; thread_exit := thread_exit self;
     workflows := d;
     workflow_receiver := workflow_receiver self;
     workflow_results_sender := workflow_results_sender self;
     calls := calls self |}.
Definition set_workflow_receiver (r : WorkflowReceiver) (self : Worker)
  : Worker :=
  {| capacity := capacity self; thread_exit := thread_exit self;
     workflows := workflows self;
     workflow_receiver := r;
     workflow_results_sender := workflow_results_sender self;
     calls := calls self |}.
Definition set_workflow_results_sender (h : WorkflowResultsHandler)
    (self : Worker) : Worker :=
  {| capacity := capacity self; thread_exit := thread_exit self;
     workflows := workflows self;
     workflow_receiver := workflow_receiver self;
     workflow_results_sender := h;
     calls := calls self |}.
Definition record_call (c : call) (self : Worker) : Worker :=
  {| capacity := capacity self; thread_exit := thread_exit self;
     workflows := workflows self;
     workflow_receiver := workflow_receiver self;
     workflow_results_sender := workflow_results_sender self;
     calls := calls self ++ [c] |}.

(** The number of [Bind] and of [Release] calls made so far. *)
Definition binds (self : Worker) : nat := length (filter is_Bind (calls self)).
Definition releases (self : Worker) : nat :=
  length (filter is_Release (calls self)).

(** [len(self.workflows) >= self.capacity], under the lock *)
Definition __is_pool_at_capacity (self : Worker) : bool :=
  bool_decide (capacity self <= PyDict.len (workflows self)).

(** [session.query(Workflow).filter_by(id=workflow_id).first()] *)
Definition query_workflow (db : ExecutionDatabase) (id : string)
  : option Workflow :=
  List.find (fun w => bool_decide (wf_id w = id)) (db_workflows db).

(** [session.query(SavedWorkflow).filter_by(workflow_execution_id=...).first()] *)
Definition query_saved_workflow (db : ExecutionDatabase) (id : string)
  : option SavedWorkflow :=
  List.find (fun sw => bool_decide (sw_workflow_execution_id sw = Some id))
    (db_saved_workflows db).

(** [for branch in workflow.branches: if branch.id in acc: branch._counter = acc[branch.id]] *)
Definition restore_counters (acc : list (string * pyval))
    (branches : list (string * pyval)) : list (string * pyval) :=
  (fun b : string * pyval =>
     match PyDict.get b.1 acc with
     | Some c => (b.1, c)
     | None => b
     end) <$> branches.

(** The dispatch body up to the first critical section: the query, the
    assignment of [_execution_id], and the restoration of a resumed
    workflow. An attribute access on [None] (no such workflow, or no saved
    state) raises [AttributeError]. *)
Definition load_workflow (db : ExecutionDatabase) (request : ExecuteRequest)
  : res Workflow :=
  match query_workflow db (workflow_id request) with
  | None => Raise AttributeError
  | Some workflow =>
      if resume request then
        match query_saved_workflow db (workflow_execution_id request) with
        | None => Raise AttributeError
        | Some saved_state =>
            Ok {| wf_name := wf_name workflow;
                  wf_id := wf_id workflow;
                  _execution_id := Some (workflow_execution_id request);
                  wf_start := wf_start workflow;
                  executing_action := executing_action workflow;
                  _accumulator := sw_accumulator saved_state;
                  branch_counters :=
                    restore_counters (sw_accumulator saved_state)
                      (branch_counters workflow);
                  _instance_repo := sw_app_instances saved_state |}
        end
      else
        Ok {| wf_name := wf_name workflow;
              wf_id := wf_id workflow;
              _execution_id := Some (workflow_execution_id request);
              wf_start := wf_start workflow;
              executing_action := executing_action workflow;
              _accumulator := _accumulator workflow;
              branch_counters := branch_counters workflow;
              _instance_repo := _instance_repo workflow |}
  end.

(** [with self._lock: self.workflows[name] = workflow] *)
Definition registry_bind (t : thread_name) (w : Workflow) (self : Worker)
  : Worker :=
  record_call (Bind t w) (set_workflows (PyDict.set t w (workflows self)) self).

(** [with self._lock: self.workflows.pop(name)] *)
Definition registry_release (t : thread_name) : py Worker unit :=
  fun self =>
  match PyDict.pop t (workflows self) with
  | Ok (_, d) => (Ok (), record_call (Release t) (set_workflows d self))
  | Raise e => (Raise e, self)
  end.

(** [start if start else workflow.start]: the empty string is false *)
Definition start_or_default (start : string) (w : Workflow) : string :=
  if decide (start = "") then wf_start w else start.

(** How a call of [workflow.execute] that returns came to return. *)
Inductive exit_path := Completed | Paused | Aborted.

Section worker.

Context `{!data_pb2}.
Variable json_dumps : pyval -> res string.
Variable py_str : pyval -> string.
Variable SerializeToString : Message -> bytes.
Variable env : Collaborators.
(** The workflow interpreter: [workflow.execute(...)] returns (having
    completed, paused or aborted) or raises. *)
Variable workflow_execute :
  Workflow -> string -> list Argument -> bool -> res exit_path.

(** [execute_workflow_worker], run by the pool thread named [t]. *)
Definition execute_workflow_worker (t : thread_name) (request : ExecuteRequest)
  : py Worker unit :=
  db ← gets (fun self => execution_db (workflow_results_sender self));
  workflow ← lift (load_workflow db request);
  modify (registry_bind t workflow);;
  let start := start_or_default (start request) workflow in
  modify (record_call
            (call_execute workflow start (start_arguments request)
               (resume request)));;
  _ ← lift (workflow_execute workflow start (start_arguments request)
              (resume request));
  registry_release t.

(** [__get_workflow_by_execution_id]: the first registry value, in
    iteration order, whose execution id is the one asked for. *)
Definition __get_workflow_by_execution_id (self : Worker)
    (workflow_execution_id : string) : option Workflow :=
  List.find
    (fun w => bool_decide (get_execution_id w = Some workflow_execution_id))
    (PyDict.values (workflows self)).

(** [if workflow:] holds for every workflow found: the lookup returns a
    [Workflow] object or [None]. *)
Definition _handle_workflow_control_communication
    (message : WorkflowCommunicationMessageData) : py Worker unit :=
  fun self =>
  match __get_workflow_by_execution_id self (wc_workflow_execution_id message) with
  | Some workflow =>
      match wc_type message with
      | pause => (Ok (), record_call (call_pause workflow) self)
      | abort => (Ok (), record_call (call_abort workflow) self)
      end
  | None => (Ok (), self)
  end.

(** [self.workflows[threading.currentThread().name]], under the lock *)
Definition _get_current_workflow (t : thread_name) : py Worker Workflow :=
  fun self =>
  match PyDict.get t (workflows self) with
  | Some w => (Ok w, self)
  | None => (Raise KeyError, self)
  end.

(** a method call on [self.workflow_results_sender] *)
Definition with_results_sender {A} (m : py WorkflowResultsHandler A)
  : py Worker A :=
  fun self =>
  let '(r, h) := m (workflow_results_sender self) in
  (r, set_workflow_results_sender h self).

(** [on_data_sent], the receiver of [CommonWorkflowSignal], on the thread
    named [t] that sends the signal. *)
Definition on_data_sent (t : thread_name) (sender : Sender) (kw : kwargs)
  : py Worker unit :=
  workflow ← _get_current_workflow t;
  with_results_sender
    (handle_event json_dumps py_str SerializeToString env workflow sender kw).

End worker.

(** ** The worker process as interleaved threads

    The main thread runs the loop of [Worker.receive_workflows]; the
    threads of [ThreadPoolExecutor(max_workers=self.capacity)] run
    [execute_workflow_worker]; the communication thread handles control
    messages. Every [with self._lock] block is one atomic step, and a
    schedule is the list of the steps taken, in order. *)

(** Where a pool thread stands in [execute_workflow_worker]. *)
Inductive thread_state :=
| Idle
| Loading (request : ExecuteRequest)
| Binding (request : ExecuteRequest) (w : Workflow)
| Executing
| Releasing.

Record System := {
  worker : Worker;
  scheduler_alive : bool;
  work_queue : list ExecuteRequest;
  pool : PyDict.t thread_name thread_state
}.

Definition set_worker (w : Worker) (s : System) : System :=
  {| worker := w; scheduler_alive := scheduler_alive s;
     work_queue := work_queue s; pool := pool s |}.
Definition set_scheduler_dead (s : System) : System :=
  {| worker := worker s; scheduler_alive := false;
     work_queue := work_queue s; pool := pool s |}.
Definition set_work_queue (q : list ExecuteRequest) (s : System) : System :=
  {| worker := worker s; scheduler_alive := scheduler_alive s;
     work_queue := q; pool := pool s |}.
Definition set_thread (t : thread_name) (st : thread_state) (s : System)
  : System :=
  {| worker := worker s; scheduler_alive := scheduler_alive s;
     work_queue := work_queue s; pool := PyDict.set t st (pool s) |}.

(** The steps of a schedule.

    - [Enqueue]: a client pushes a frame on the request queue.
    - [Scheduler]: one iteration of the loop of [Worker.receive_workflows].
    - [Spawn t]: the executor starts a thread named [t]; it does so only
      while it has fewer than [max_workers] threads, and thread names are
      not reused.
    - [Take t]: the idle pool thread [t] takes the oldest submitted call.
    - [Load t]: [execute_workflow_worker] up to the first lock (the
      queries and the restoration); an exception ends the call.
    - [DoBind t]: the first [with self._lock] block, and the entry into
      [workflow.execute].
    - [ExecuteReturns t], [ExecuteRaises t]: [workflow.execute] returns,
      or raises and ends the call.
    - [DoRelease t]: the second [with self._lock] block.
    - [Control message]: the communication thread handles a workflow
      control message.
    - [Signal t sender kw]: [CommonWorkflowSignal] is sent on the thread
      named [t], which runs [on_data_sent] there. *)
Inductive action :=
| Enqueue (frame : bytes)
| Scheduler
| Spawn (t : thread_name)
| Take (t : thread_name)
| Load (t : thread_name)
| DoBind (t : thread_name)
| ExecuteReturns (t : thread_name)
| ExecuteRaises (t : thread_name)
| DoRelease (t : thread_name)
| Control (message : WorkflowCommunicationMessageData)
| Signal (t : thread_name) (sender : Sender) (kw : kwargs).

Section interleaving.

Context `{!data_pb2}.
Variable json_dumps : pyval -> res string.
Variable py_str : pyval -> string.
Variable SerializeToString : Message -> bytes.
Variable env : Collaborators.
Variable box_decrypt : bytes -> res bytes.
Variable ParseFromString : bytes -> res ExecuteWorkflowMessage.
Variable Argument_init : ArgumentProto -> res Argument.

(** A client pushes a frame on the request queue ([lpush]). *)
Definition enqueue (frame : bytes) (s : System) : System :=
  let r := workflow_receiver (worker s) in
  set_worker (set_workflow_receiver (set_cache (frame :: cache r) r) (worker s)) s.

(** [self.threadpool.submit(self.execute_workflow_worker, *workflow_data)] *)
Definition submit (workflow_data : ExecuteRequest) (s : System) : System :=
  set_work_queue (work_queue s ++ [workflow_data]) s.

(** One iteration of the loop of [Worker.receive_workflows]. An exception
    out of [next(workflow_generator)] leaves the loop. *)
Definition receive_workflows_iteration (s : System) : System :=
  if __is_pool_at_capacity (worker s) then s
  else
    let '(r, receiver) :=
      receive_workflows_next box_decrypt ParseFromString Argument_init
        (workflow_receiver (worker s)) in
    let s := set_worker (set_workflow_receiver receiver (worker s)) s in
    match r with
    | Ok (Some workflow_data) => submit workflow_data s
    | Ok None => s
    | Raise _ => set_scheduler_dead s
    end.

(** The effect of a step, or [None] when the step cannot be taken in [s]. *)
Definition step (a : action) (s : System) : option System :=
  match a with
  | Enqueue frame => Some (enqueue frame s)
  | Scheduler =>
      if scheduler_alive s && negb (thread_exit (worker s))
      then Some (receive_workflows_iteration s)
      else None
  | Spawn t =>
      if decide ((t ∉ PyDict.keys (pool s))
                 ∧ (PyDict.len (pool s) < capacity (worker s)))
      then Some (set_thread t Idle s)
      else None
  | Take t =>
      match PyDict.get t (pool s), work_queue s with
      | Some Idle, request :: rest =>
          Some (set_thread t (Loading request) (set_work_queue rest s))
      | _, _ => None
      end
  | Load t =>
      match PyDict.get t (pool s) with
      | Some (Loading request) =>
          let db := execution_db (workflow_results_sender (worker s)) in
          match load_workflow db request with
          | Ok w => Some (set_thread t (Binding request w) s)
          | Raise _ => Some (set_thread t Idle s)
          end
      | _ => None
      end
  | DoBind t =>
      match PyDict.get t (pool s) with
      | Some (Binding request w) =>
          let start := start_or_default (start request) w in
          Some (set_thread t Executing
                  (set_worker
                     (record_call
                        (call_execute w start (start_arguments request)
                           (resume request))
                        (registry_bind t w (worker s)))
                     s))
      | _ => None
      end
  | ExecuteReturns t =>
      match PyDict.get t (pool s) with
      | Some Executing => Some (set_thread t Releasing s)
      | _ => None
      end
  | ExecuteRaises t =>
      match PyDict.get t (pool s) with
      | Some Executing => Some (set_thread t Idle s)
      | _ => None
      end
  | DoRelease t =>
      match PyDict.get t (pool s) with
      | Some Releasing =>
          Some (set_thread t Idle
                  (set_worker (registry_release t (worker s)).2 s))
      | _ => None
      end
  | Control message =>
      Some (set_worker
              (_handle_workflow_control_communication message (worker s)).2 s)
  | Signal t sender kw =>
      Some (set_worker
              (on_data_sent json_dumps py_str SerializeToString env
                 t sender kw (worker s)).2 s)
  end.

(** The state after a schedule, when every step of it can be taken. *)
Fixpoint run (schedule : list action) (s : System) : option System :=
  match schedule with
  | [] => Some s
  | a :: schedule' =>
      match step a s with
      | Some s' => run schedule' s'
      | None => None
      end
  end.

End interleaving.

(** The process after [Worker.__init__] has set up its attributes: an
    empty registry, no pool thread yet. *)
Definition init (capacity : nat) (db : ExecutionDatabase) (queue : list bytes)
  : System :=
  {| worker :=
       {| capacity := capacity;
          thread_exit := false;
          workflows := PyDict.empty;
          workflow_receiver :=
            {| exit := false; cache := queue; finished := false |};
          workflow_results_sender :=
            {| results_sock := []; execution_db := db; case_logger := [] |};
          calls := [] |};
     scheduler_alive := true;
     work_queue := [];
     pool := PyDict.empty |}.

(** ** Stand-ins for the library calls, used in the examples

    The theorems below hold for every behaviour of the library calls;
    closed examples need some behaviour to run on. *)
Module Sample.

(** [json.dumps] on [None], booleans and integers; every other value
    stands for an object that is not JSON serializable. *)
Definition json_dumps (v : pyval) : res string :=
  match v with
  | PyNone => Ok "null"
  | PyBool true => Ok "true"
  | PyBool false => Ok "false"
  | PyInt n => Ok (pretty n)
  | _ => Raise TypeError
  end.

(** [str] *)
Definition py_str (v : pyval) : string :=
  match v with
  | PyNone => "None"
  | PyBool true => "True"
  | PyBool false => "False"
  | PyInt n => pretty n
  | PyStr s => s
  | PyObject repr => repr
  | PyList _ => "[...]"
  | PyDict _ => "{...}"
  end.

(** A serialization that keeps the event name only. *)
Definition SerializeToString (m : Message) : bytes :=
  String.list_byte_of_string (default "" (msg_event_name m)).

(** A box that opens the frames starting with byte 01. *)
Definition box_decrypt (frame : bytes) : res bytes :=
  match frame with
  | Byte.x01 :: payload => Ok payload
  | _ => Raise CryptoError
  end.

(** A request whose first payload byte is the workflow id and whose
    remaining bytes are the execution id. *)
Definition ParseFromString (payload : bytes) : res ExecuteWorkflowMessage :=
  match payload with
  | [] => Raise DecodeError
  | b :: rest =>
      Ok {| em_workflow_id := String.string_of_list_byte [b];
            em_workflow_execution_id := String.string_of_list_byte rest;
            em_start := "";
            em_arguments := [];
            em_resume := false |}
  end.

Definition Argument_init (a : ArgumentProto) : res Argument :=
  match ap_arg_name a with
  | Some n =>
      Ok {| arg_name := n;
            value := from_option PyStr PyNone (ap_arg_value a);
            reference := from_option PyStr PyNone (ap_arg_reference a);
            selection := from_option PyStr PyNone (ap_arg_selection a) |}
  | None => Raise InvalidArgument
  end.

(** A schema whose integer fields are signed and 32 bits wide. *)
#[global] Instance schema : data_pb2 :=
  {| device_id_type := int32; users_type := int32; roles_type := int32 |}.

(** Collaborators that never fail. *)
Definition reliable : Collaborators :=
  {| commit_raises := fun _ => None;
     log_raises := fun _ _ _ => None;
     send_raises := fun _ => None |}.

(** A sealed frame for workflow [wf] and execution id [id]. *)
Definition sealed (wf : Byte.byte) (id : string) : bytes :=
  Byte.x01 :: wf :: String.list_byte_of_string id.

Definition garbage : bytes := [Byte.xff; Byte.x00].

Definition an_action : Action :=
  {| act_name := "act"; act_id := "n1"; act_execution_id := "x1";
     act_app_name := "app"; act_action_name := "run";
     act_device_id := None; arguments := [] |}.

(** The row of workflow [a] in the database. *)
Definition workflow_a : Workflow :=
  {| wf_name := "wf-a"; wf_id := "a"; _execution_id := None;
     wf_start := "n1"; executing_action := an_action;
     _accumulator := []; branch_counters := []; _instance_repo := PyNone |}.

Definition db : ExecutionDatabase :=
  {| db_workflows := [workflow_a]; db_saved_workflows := [] |}.

End Sample.

(** * Properties *)

(** ** Lists *)

Lemma submseteq_NoDup {A} (l k : list A) : l ⊆+ k -> NoDup k -> NoDup l.
Proof.
  intros (l' & Hperm & Hsub)%submseteq_sublist_r Hk.
  rewrite Hperm. eapply sublist_NoDup; [exact Hk | exact Hsub].
Qed.

(** ** Dictionaries *)
Section dict_facts.
Context {K V : Type} `{EqDecision K}.
Implicit Types (d : PyDict.t K V) (k : K) (v : V).

Lemma get_set_eq k v d : PyDict.get k (PyDict.set k v d) = Some v.
Proof.
  induction d as [|[k' v'] d IH]; csimpl.
  - by rewrite decide_True.
  - destruct (decide (k' = k)) as [->|Hne]; csimpl.
    + by rewrite decide_True.
    + by rewrite decide_False.
Qed.

Lemma get_set_ne k k' v d :
  k <> k' -> PyDict.get k' (PyDict.set k v d) = PyDict.get k' d.
Proof.
  intros Hne. induction d as [|[k0 v0] d IH]; csimpl.
  - by rewrite decide_False.
  - destruct (decide (k0 = k)) as [->|Hne0]; csimpl.
    + by rewrite !decide_False.
    + by rewrite IH.
Qed.

Lemma get_remove_eq k d : PyDict.get k (PyDict.remove k d) = None.
Proof.
  unfold PyDict.remove. induction d as [|[k' v'] d IH]; [done|].
  rewrite filter_cons. simpl. destruct (decide (k' <> k)); csimpl; [|done].
  by rewrite decide_False.
Qed.

Lemma get_None k d : PyDict.get k d = None <-> k ∉ PyDict.keys d.
Proof.
  unfold PyDict.keys. induction d as [|[k' v'] d IH]; csimpl.
  - split; [intros _; apply not_elem_of_nil | done].
  - rewrite not_elem_of_cons. destruct (decide (k' = k)) as [->|Hne].
    + split; [done | by intros [? _]].
    + rewrite IH. split; [by intros ? | by intros [_ ?]].
Qed.


Lemma get_Some_key k v d : PyDict.get k d = Some v -> k ∈ PyDict.keys d.
Proof.
  intros Hget. destruct (decide (k ∈ PyDict.keys d)) as [|Hn]; [done|].
  apply get_None in Hn. congruence.
Qed.

Lemma keys_set k v d :
  PyDict.keys (PyDict.set k v d) =
  if decide (k ∈ PyDict.keys d) then PyDict.keys d else PyDict.keys d ++ [k].
Proof.
  unfold PyDict.keys. induction d as [|[k' v'] d IH]; csimpl.
  - done.
  - destruct (decide (k' = k)) as [->|Hne]; csimpl.
    + rewrite decide_True; [done | left].
    + rewrite IH. destruct (decide (k ∈ d.*1)) as [Hin|Hnin].
      * rewrite decide_True; [done | by right].
      * rewrite decide_False; [done|].
        rewrite not_elem_of_cons. naive_solver.
Qed.

Lemma keys_remove_sublist k d :
  PyDict.keys (PyDict.remove k d) `sublist_of` PyDict.keys d.
Proof.
  unfold PyDict.keys, PyDict.remove. apply fmap_sublist, sublist_filter.
Qed.

Lemma values_remove_sublist k d :
  PyDict.values (PyDict.remove k d) `sublist_of` PyDict.values d.
Proof.
  unfold PyDict.values, PyDict.remove. apply fmap_sublist, sublist_filter.
Qed.

Lemma values_set_submseteq k v d :
  PyDict.values (PyDict.set k v d) ⊆+ v :: PyDict.values d.
Proof.
  unfold PyDict.values. induction d as [|[k' v'] d IH]; csimpl; [done|].
  destruct (decide (k' = k)); csimpl.
  - apply submseteq_skip, submseteq_cons. done.
  - rewrite (Permutation_swap v' v). by apply submseteq_skip.
Qed.

Lemma NoDup_keys_set k v d :
  NoDup (PyDict.keys d) -> NoDup (PyDict.keys (PyDict.set k v d)).
Proof.
  intros Hnd. rewrite keys_set. case_decide; [done|].
  apply NoDup_app. split_and!; [done | | apply NoDup_singleton].
  intros x Hx ->%list_elem_of_singleton. done.
Qed.

Lemma NoDup_keys_remove k d :
  NoDup (PyDict.keys d) -> NoDup (PyDict.keys (PyDict.remove k d)).
Proof. intros Hnd. eapply sublist_NoDup; [done | apply keys_remove_sublist]. Qed.

End dict_facts.

(** ** The wire codec *)

Section codec_facts.

Variable json_dumps : pyval -> res string.
Variable py_str : pyval -> string.

(** The text that the specification asks for on the wire, for one
    attribute of an argument: nothing for [None], a string as it is, and
    for any other value its JSON text or, failing that, its string form. *)
Definition spec_field_text (v : pyval) : option string :=
  match v with
  | PyNone => None
  | PyStr s => Some s
  | _ => Some (match json_dumps v with Ok j => j | Raise _ => py_str v end)
  end.

Definition spec_argument (a : Argument) : ArgumentProto :=
  {| ap_arg_name := Some (arg_name a);
     ap_arg_value := spec_field_text (value a);
     ap_arg_reference := spec_field_text (reference a);
     ap_arg_selection := spec_field_text (selection a) |}.

(** What the specification claims of a call: it returns a packet that
    holds every argument of the sender, in order and under its name,
    each attribute with the text above. *)
Definition keeps_every_argument
    (action_packet : ActionPacket) (sender : Action) : Prop :=
  exists ap',
    add_arguments_to_action_proto json_dumps py_str action_packet sender = Ok ap'
    /\ length (as_arguments (ap_sender ap')) =
       length (as_arguments (ap_sender action_packet))
       + length (arguments sender)
    /\ forall i argument,
         arguments sender !! i = Some argument ->
         exists arg,
           as_arguments (ap_sender ap')
             !! (length (as_arguments (ap_sender action_packet)) + i) = Some arg
           /\ ap_arg_name arg = Some (arg_name argument)
           /\ forall field,
                wire_field arg field =
                match getattr argument field with
                | PyNone => None
                | PyStr s => Some s
                | val =>
                    Some (match json_dumps val with
                          | Ok text => text
                          | Raise _ => py_str val
                          end)
                end.

(** [json.dumps] is called on the attributes that are neither [None] nor
    strings. *)
Definition encoded (v : pyval) : bool := is_not_None v && negb (is_string v).

(** [except (ValueError, TypeError)] *)
Definition caught (e : exn) : bool :=
  match e with ValueError | TypeError => true | _ => false end.

(** The exception that leaves the [try] statement for an attribute, and
    the first one that does so among the attributes of an argument. *)
Definition escapes (v : pyval) : option exn :=
  if encoded v
  then match json_dumps v with
       | Raise e => if caught e then None else Some e
       | Ok _ => None
       end
  else None.

Definition argument_escapes (a : Argument) : option exn :=
  match escapes (value a), escapes (reference a), escapes (selection a) with
  | Some e, _, _ | None, Some e, _ | None, None, Some e => Some e
  | None, None, None => None
  end.

Lemma escapes_not_caught v e : escapes v = Some e -> caught e = false.
Proof.
  unfold escapes. destruct (encoded v); [|done].
  destruct (json_dumps v) as [|e']; [done|].
  destruct (caught e') eqn:Hcaught; [done|]. by intros [= <-].
Qed.

Lemma escapes_None v :
  escapes v = None <->
  (encoded v = true -> forall e, json_dumps v = Raise e -> caught e = true).
Proof.
  unfold escapes. destruct (encoded v); [|done].
  destruct (json_dumps v) as [|e']; [done|].
  destruct (caught e') eqn:Hcaught.
  - split; [|done]. by intros _ _ e [= <-].
  - split; [done|]. intros Hall. specialize (Hall eq_refl e' eq_refl).
    congruence.
Qed.

Lemma argument_escapes_not_caught a e :
  argument_escapes a = Some e -> caught e = false.
Proof.
  unfold argument_escapes.
  destruct (escapes (value a)) eqn:Hv, (escapes (reference a)) eqn:Hr,
    (escapes (selection a)) eqn:Hs; intros [= <-];
    eauto using escapes_not_caught.
Qed.

Lemma argument_escapes_None a :
  argument_escapes a = None <-> forall field, escapes (getattr a field) = None.
Proof.
  unfold argument_escapes. split.
  - destruct (escapes (value a)) eqn:Hv, (escapes (reference a)) eqn:Hr,
      (escapes (selection a)) eqn:Hs; try done. by intros _ [].
  - intros Hall.
    pose proof (Hall f_value) as Hv. pose proof (Hall f_reference) as Hr.
    pose proof (Hall f_selection) as Hs. cbn [getattr] in Hv, Hr, Hs.
    by rewrite Hv, Hr, Hs.
Qed.

Lemma add_argument_field_cases argument arg field :
  add_argument_field json_dumps py_str argument arg field =
  match escapes (getattr argument field) with
  | Some e => Raise e
  | None =>
      Ok (match spec_field_text (getattr argument field) with
          | Some s => setattr arg field s
          | None => arg
          end)
  end.
Proof.
  unfold add_argument_field, escapes, spec_field_text.
  destruct (getattr argument field) eqn:Hval; try done; cbn;
    destruct (json_dumps _) as [j|[]] eqn:Hj; done.
Qed.

Lemma add_argument_cases argument :
  add_argument json_dumps py_str argument =
  match argument_escapes argument with
  | Some e => Raise e
  | None => Ok (spec_argument argument)
  end.
Proof.
  unfold add_argument, argument_escapes. cbn [add_argument_fields].
  rewrite add_argument_field_cases. cbn [getattr].
  destruct (escapes (value argument)); [done|]. cbn [mbind res_bind].
  rewrite add_argument_field_cases. cbn [getattr].
  destruct (escapes (reference argument)); [done|]. cbn [mbind res_bind].
  rewrite add_argument_field_cases. cbn [getattr].
  destruct (escapes (selection argument)); [done|]. cbn [mbind res_bind].
  unfold spec_argument. destruct argument as [n v r s]; cbn.
  by destruct (spec_field_text v), (spec_field_text r), (spec_field_text s).
Qed.

Lemma add_arguments_loop_spec action_packet args :
  Forall (fun a => argument_escapes a = None) args ->
  exists ap',
    add_arguments_loop json_dumps py_str action_packet args = Ok ap'
    /\ as_arguments (ap_sender ap') =
       as_arguments (ap_sender action_packet) ++ (spec_argument <$> args)
    /\ ap_workflow ap' = ap_workflow action_packet
    /\ ap_additional_data ap' = ap_additional_data action_packet.
Proof.
  intros Hsafe. revert action_packet.
  induction Hsafe as [|a args Ha _ IH]; intros action_packet;
    cbn [add_arguments_loop].
  - exists action_packet. by rewrite app_nil_r.
  - rewrite add_argument_cases, Ha. cbn [mbind res_bind].
    destruct (IH (append_argument (spec_argument a) action_packet))
      as (ap' & -> & Hargs & Hwf & Hdata).
    exists ap'. split_and!; [done | | done | done].
    rewrite Hargs. cbn. by rewrite <- app_assoc.
Qed.

Lemma add_arguments_loop_raises action_packet args a e :
  a ∈ args -> argument_escapes a = Some e ->
  exists e',
    add_arguments_loop json_dumps py_str action_packet args = Raise e'
    /\ caught e' = false.
Proof.
  intros Hin Hesc. revert action_packet.
  induction args as [|a0 args IH]; intros action_packet;
    [by apply elem_of_nil in Hin|].
  cbn [add_arguments_loop]. rewrite add_argument_cases.
  destruct (argument_escapes a0) as [e0|] eqn:Ha0.
  - exists e0. split; [done|]. by eapply argument_escapes_not_caught.
  - cbn [mbind res_bind]. apply elem_of_cons in Hin as [->|Hin];
      [congruence|]. by apply IH.
Qed.

Lemma caught_spec e : caught e = true <-> e = ValueError \/ e = TypeError.
Proof. destruct e; cbn; split; auto; try done; by intros [|]. Qed.

End codec_facts.

(** [json.dumps] as on the values of the examples, except that it runs
    out of stack on a list: [RecursionError], a [RuntimeError]. *)
Definition json_dumps_of_bounded_depth (v : pyval) : res string :=
  match v with
  | PyList _ => Raise RuntimeError
  | _ => Sample.json_dumps v
  end.

(** An action with two arguments, the second of them a nested list. *)
Definition action_with_a_nested_argument : Action :=
  {| act_name := "act"; act_id := "n1"; act_execution_id := "x1";
     act_app_name := "app"; act_action_name := "run";
     act_device_id := None;
     arguments :=
       [ {| arg_name := "a"; value := PyStr "text"; reference := PyNone;
            selection := PyNone |};
         {| arg_name := "b"; value := PyList [PyList [PyList []]];
            reference := PyNone; selection := PyNone |} ] |}.

(** C9, as stated, fails: the [except] clause names [ValueError] and
    [TypeError] only. When [json.dumps] raises anything else, the string
    form is not used; the exception leaves the function, and with the
    packet every argument is lost. *)
Lemma keeps_every_argument_counterexample :
  add_arguments_to_action_proto json_dumps_of_bounded_depth Sample.py_str
    (action_packet new_Message) action_with_a_nested_argument
  = Raise RuntimeError
  /\ ~ keeps_every_argument json_dumps_of_bounded_depth Sample.py_str
         (action_packet new_Message) action_with_a_nested_argument.
Proof.
  split; [reflexivity|].
  intros (ap' & Hrun & _). vm_compute in Hrun. discriminate Hrun.
Qed.

(** C9, amended. [json.dumps] is called on the attributes [value],
    [reference] and [selection] of an argument that are neither [None]
    nor strings. When each of these calls returns, or raises [ValueError]
    or [TypeError], every argument of the sender is attached to the action
    packet, in order and under its name, and none is dropped: [None]
    leaves the field unset, a string is passed through unchanged, any
    other value is JSON-encoded, and when [json.dumps] has failed the
    string form of the value is used. When one of these calls raises an
    exception of another class, there is no fallback: the function raises
    an exception that is neither [ValueError] nor [TypeError], and no
    packet is returned. *)
Theorem add_arguments_to_action_proto_keeps_arguments_or_raises
    (json_dumps : pyval -> res string) (py_str : pyval -> string)
    (action_packet : ActionPacket) (sender : Action) :
  ((forall argument field e,
      argument ∈ arguments sender ->
      encoded (getattr argument field) = true ->
      json_dumps (getattr argument field) = Raise e ->
      e = ValueError \/ e = TypeError) ->
   keeps_every_argument json_dumps py_str action_packet sender)
  /\ (forall argument field e,
        argument ∈ arguments sender ->
        encoded (getattr argument field) = true ->
        json_dumps (getattr argument field) = Raise e ->
        e <> ValueError -> e <> TypeError ->
        exists e',
          add_arguments_to_action_proto json_dumps py_str action_packet sender
          = Raise e'
          /\ e' <> ValueError /\ e' <> TypeError).
Proof.
  unfold add_arguments_to_action_proto. split.
  - intros Hjson.
    destruct (add_arguments_loop_spec json_dumps py_str action_packet
                (arguments sender)) as (ap' & Hrun & Hargs & _ & _).
    { apply Forall_forall. intros argument Hin.
      apply argument_escapes_None. intros field.
      apply escapes_None. intros Henc e He.
      apply caught_spec. by eapply Hjson. }
    exists ap'. split; [done|]. rewrite Hargs. split.
    + by rewrite length_app, length_fmap.
    + intros i argument Hi. exists (spec_argument json_dumps py_str argument).
      split_and!.
      * rewrite lookup_app_r by lia.
        replace (_ + i - _) with i by lia.
        by rewrite list_lookup_fmap, Hi.
      * done.
      * intros []; cbn; unfold spec_field_text;
          by destruct argument as [n [] [] []].
  - intros argument field e Hin Henc He Hv Ht.
    destruct (argument_escapes json_dumps argument) as [e0|] eqn:Hesc.
    + destruct (add_arguments_loop_raises json_dumps py_str action_packet
                  (arguments sender) argument e0 Hin Hesc)
        as (e' & Hrun & Hcaught).
      exists e'. split; [done|].
      split; intros ->; discriminate Hcaught.
    + exfalso.
      pose proof (proj1 (argument_escapes_None json_dumps argument) Hesc field)
        as Hfield.
      pose proof (proj1 (escapes_None json_dumps _) Hfield Henc e He)
        as Hcaught.
      apply caught_spec in Hcaught as [->| ->]; done.
Qed.

Lemma sample_json_contract v e :
  Sample.json_dumps v = Raise e -> e = ValueError \/ e = TypeError.
Proof.
  destruct v as [|[]| | | | |]; cbn; intros [=]; subst; auto.
Qed.

(** An action with a string, an integer and an object among its argument
    attributes. *)
Definition sample_action_with_arguments : Action :=
  {| act_name := "act"; act_id := "n1"; act_execution_id := "x1";
     act_app_name := "app"; act_action_name := "run";
     act_device_id := None;
     arguments :=
       [ {| arg_name := "a"; value := PyStr "text"; reference := PyNone;
            selection := PyNone |};
         {| arg_name := "b"; value := PyInt 7; reference := PyStr "n0";
            selection := PyObject "<object>" |} ] |}.

Lemma add_arguments_to_action_proto_keeps_arguments_or_raises_witness :
  (exists ap',
     add_arguments_to_action_proto Sample.json_dumps Sample.py_str
       (action_packet new_Message) sample_action_with_arguments = Ok ap'
     /\ as_arguments (ap_sender ap') =
        [ {| ap_arg_name := Some "a"; ap_arg_value := Some "text";
             ap_arg_reference := None; ap_arg_selection := None |};
          {| ap_arg_name := Some "b"; ap_arg_value := Some "7";
             ap_arg_reference := Some "n0";
             ap_arg_selection := Some "<object>" |} ])
  /\ (exists e',
        add_arguments_to_action_proto json_dumps_of_bounded_depth Sample.py_str
          (action_packet new_Message) action_with_a_nested_argument = Raise e'
        /\ e' <> ValueError /\ e' <> TypeError).
Proof.
  split.
  - destruct (proj1 (add_arguments_to_action_proto_keeps_arguments_or_raises
                       Sample.json_dumps Sample.py_str
                       (action_packet new_Message)
                       sample_action_with_arguments))
      as (ap' & Hrun & _).
    { intros argument field e _ _. apply sample_json_contract. }
    exists ap'. split; [exact Hrun|].
    vm_compute in Hrun. injection Hrun as <-. reflexivity.
  - apply (proj2 (add_arguments_to_action_proto_keeps_arguments_or_raises
                    json_dumps_of_bounded_depth Sample.py_str
                    (action_packet new_Message)
                    action_with_a_nested_argument)
             {| arg_name := "b"; value := PyList [PyList [PyList []]];
                reference := PyNone; selection := PyNone |}
             f_value RuntimeError).
    + apply list_elem_of_further, list_elem_of_here.
    + reflexivity.
    + reflexivity.
    + discriminate.
    + discriminate.
Defined.

(** A workflow event and an action event, sent without a [data] keyword. *)
Definition sample_kwargs (event : WalkoffEvent) (data : option pyval) : kwargs :=
  {| kw_event := event; kw_data := data; kw_level := None; kw_message := None;
     kw_users := None; kw_roles := None; kw_requires_reauth := None |}.

Definition WorkflowExecutionStart : WalkoffEvent :=
  {| event_name := "WorkflowExecutionStart"; event_type := EventType.workflow |}.
Definition ActionStarted : WalkoffEvent :=
  {| event_name := "ActionStarted"; event_type := EventType.action |}.

(** C6. The code at the failing input: a workflow event and an action
    event sent without [data] are converted to packets whose
    [additional_data] is set, to the JSON text of [None]. *)
Theorem additional_data_set_without_data :
  (wp_additional_data ∘ workflow_packet) <$>
    convert_to_message Sample.json_dumps Sample.py_str
      (SenderWorkflow Sample.workflow_a) Sample.workflow_a
      (sample_kwargs WorkflowExecutionStart None)
  = Ok (Some "null")
  /\
  (ap_additional_data ∘ action_packet) <$>
    convert_to_message Sample.json_dumps Sample.py_str
      (SenderAction Sample.an_action) Sample.workflow_a
      (sample_kwargs ActionStarted None)
  = Ok (Some "null").
Proof. split; reflexivity. Qed.

(** For every [json.dumps] and every data, supplied or not, a converted
    workflow packet has [additional_data] set. *)
Lemma convert_workflow_to_proto_sets_additional_data
    (json_dumps : pyval -> res string) packet sender data packet' :
  convert_workflow_to_proto json_dumps packet sender data = Ok packet' ->
  exists text,
    json_dumps data = Ok text
    /\ wp_additional_data (workflow_packet packet') = Some text.
Proof.
  unfold convert_workflow_to_proto. cbn.
  destruct (json_dumps data) as [text|e]; cbn; [|done].
  intros [= <-]. by exists text.
Qed.

(** ** [WorkflowResultsHandler.handle_event] *)

(** Running a method: unfold the sequencing of [py]. *)
Ltac py_simpl :=
  unfold mbind, mret, py_bind, py_ret, raise, modify, lift, gets;
  cbn beta iota.

Section results_handler_facts.

Context `{!data_pb2}.
Variable json_dumps : pyval -> res string.
Variable py_str : pyval -> string.
Variable SerializeToString : Message -> bytes.
Variable env : Collaborators.

(** The sender after the [if]/[elif] at the head of [handle_event]. *)
Definition effective_sender (workflow : Workflow) (sender : Sender)
    (kw : kwargs) : Sender :=
  if decide (kw_event kw ∈ [TriggerActionAwaitingData; WorkflowPaused])
  then sender
  else if decide (kw_event kw = ConsoleLog)
  then SenderAction (executing_action workflow)
  else sender.

(** The specification's failure isolation for one call: the call does not
    raise, and unless the send itself fails the encoded event is pushed on
    the results socket. *)
Definition failure_isolation
    (workflow : Workflow) (sender : Sender) (kw : kwargs)
    (h : WorkflowResultsHandler) : Prop :=
  let '(r, h') :=
    handle_event json_dumps py_str SerializeToString env workflow sender kw h in
  r = Ok ()
  /\ forall frame,
       convert_to_protobuf json_dumps py_str SerializeToString
         (effective_sender workflow sender kw) workflow kw = Ok frame ->
       send_raises env frame = None ->
       results_sock h' = results_sock h ++ [frame].

Lemma handle_event_unfold workflow sender kw h :
  handle_event json_dumps py_str SerializeToString env workflow sender kw h =
  let event := kw_event kw in
  let sender' := effective_sender workflow sender kw in
  match
    (if decide (event ∈ [TriggerActionAwaitingData; WorkflowPaused])
     then commit_raises env (from_workflow workflow) else None)
  with
  | Some e => (Raise e, h)
  | None =>
      let h1 :=
        if decide (event ∈ [TriggerActionAwaitingData; WorkflowPaused])
        then session_add (from_workflow workflow) h else h in
      match convert_to_protobuf json_dumps py_str SerializeToString
              sender' workflow kw with
      | Raise e => (Raise e, h1)
      | Ok packet_bytes =>
          match sender_id sender' with
          | Raise e => (Raise e, h1)
          | Ok id =>
              match log_raises env event id (kw_data kw) with
              | Some e => (Raise e, h1)
              | None =>
                  let h2 := log_appended (event, id, kw_data kw) h1 in
                  match send_raises env packet_bytes with
                  | Some e => (Raise e, h2)
                  | None => (Ok (), sock_pushed packet_bytes h2)
                  end
              end
          end
      end
  end.
Proof.
  unfold handle_event, effective_sender, session_add_commit, case_logger_log,
    results_sock_send.
  destruct (decide (kw_event kw ∈ _)) as [Hin|Hnin];
    [destruct (commit_raises env _)
    |destruct (decide (kw_event kw = ConsoleLog))]; py_simpl; try done;
    (destruct (convert_to_protobuf _ _ _ _ _ _); py_simpl; [|done]);
    (destruct (sender_id _); py_simpl; [|done]);
    (destruct (log_raises env _ _ _); py_simpl; [done|]);
    by destruct (send_raises env _).
Qed.

End results_handler_facts.
(** Collaborators of which one fails: the commit, the case logger, or the
    socket. *)
Definition commit_fails : Collaborators :=
  {| commit_raises := fun _ => Some SQLAlchemyError;
     log_raises := fun _ _ _ => None;
     send_raises := fun _ => None |}.
Definition log_fails : Collaborators :=
  {| commit_raises := fun _ => None;
     log_raises := fun _ _ _ => Some RuntimeError;
     send_raises := fun _ => None |}.
Definition send_fails : Collaborators :=
  {| commit_raises := fun _ => None;
     log_raises := fun _ _ _ => None;
     send_raises := fun _ => Some ZMQError |}.

Definition new_handler : WorkflowResultsHandler :=
  {| results_sock := []; execution_db := Sample.db; case_logger := [] |}.

(** C4, as stated, fails: with a commit that raises while [WorkflowPaused]
    is handled, with a case logger that raises, and with a send that
    raises, [handle_event] raises and nothing is sent. *)
Lemma failure_isolation_counterexample :
  ~ failure_isolation Sample.json_dumps Sample.py_str Sample.SerializeToString
      commit_fails Sample.workflow_a (SenderWorkflow Sample.workflow_a)
      (sample_kwargs WorkflowPaused None) new_handler
  /\ ~ failure_isolation Sample.json_dumps Sample.py_str
         Sample.SerializeToString
         log_fails Sample.workflow_a (SenderWorkflow Sample.workflow_a)
         (sample_kwargs WorkflowExecutionStart None) new_handler
  /\ ~ failure_isolation Sample.json_dumps Sample.py_str
         Sample.SerializeToString
         send_fails Sample.workflow_a (SenderWorkflow Sample.workflow_a)
         (sample_kwargs WorkflowExecutionStart None) new_handler.
Proof.
  split_and!; intros H; vm_compute in H; destruct H as [[=] _].
Qed.

(** C4, amended. [handle_event] runs its steps in order (persist the
    snapshot for the two pausing events, encode, append to the case log,
    send) and stops at the first one that raises: the exception reaches
    the caller and the later steps are skipped. The event is pushed on the
    results socket exactly when every step before the send and the send
    itself succeed; whenever the call raises, nothing is pushed. *)
Theorem handle_event_stops_at_first_failure `{!data_pb2}
    (json_dumps : pyval -> res string) (py_str : pyval -> string)
    (SerializeToString : Message -> bytes) (env : Collaborators)
    (workflow : Workflow) (sender : Sender) (kw : kwargs)
    (h : WorkflowResultsHandler) :
  let event := kw_event kw in
  let sender' := effective_sender workflow sender kw in
  let encoded :=
    convert_to_protobuf json_dumps py_str SerializeToString sender' workflow kw in
  let commit :=
    if decide (event ∈ [TriggerActionAwaitingData; WorkflowPaused])
    then commit_raises env (from_workflow workflow) else None in
  let r :=
    (handle_event json_dumps py_str SerializeToString env
       workflow sender kw h).1 in
  let h' :=
    (handle_event json_dumps py_str SerializeToString env
       workflow sender kw h).2 in
  (r = Ok () <->
     exists frame id,
       commit = None /\ encoded = Ok frame /\ sender_id sender' = Ok id
       /\ log_raises env event id (kw_data kw) = None
       /\ send_raises env frame = None)
  /\ (r = Ok () ->
      exists frame, encoded = Ok frame
                    /\ results_sock h' = results_sock h ++ [frame])
  /\ (forall e, r = Raise e -> results_sock h' = results_sock h)
  /\ (forall e, commit = Some e -> r = Raise e /\ h' = h)
  /\ (forall e frame id,
        commit = None -> encoded = Ok frame -> sender_id sender' = Ok id ->
        log_raises env event id (kw_data kw) = Some e ->
        r = Raise e /\ results_sock h' = results_sock h
        /\ case_logger h' = case_logger h)
  /\ (forall e frame id,
        commit = None -> encoded = Ok frame -> sender_id sender' = Ok id ->
        log_raises env event id (kw_data kw) = None ->
        send_raises env frame = Some e ->
        r = Raise e /\ results_sock h' = results_sock h).
Proof.
  intros event sender' encoded commit r h'. subst r h'.
  rewrite handle_event_unfold. cbv zeta.
  fold event sender' encoded. fold commit.
  assert (Hsock : forall sw, results_sock (session_add sw h) = results_sock h)
    by done.
  destruct commit as [e0|] eqn:Hcommit; [|destruct encoded as [frame|e1] eqn:Henc;
    [destruct (sender_id sender') as [id|e2] eqn:Hid;
     [destruct (log_raises env event id (kw_data kw)) as [e3|] eqn:Hlog;
      [|destruct (send_raises env frame) as [e4|] eqn:Hsend]|]|]];
    cbn; split_and!;
    try (split; [intros ?|intros (? & ? & ? & ? & ? & ? & ?)]);
    intros; simplify_eq;
    try (case_decide; rewrite ?Hsock; done);
    try (repeat split; try case_decide; rewrite ?Hsock; congruence).
  - by exists frame, id.
  - exists frame. split; [done|]. by case_decide.
Qed.

Lemma handle_event_stops_at_first_failure_witness :
  (handle_event Sample.json_dumps Sample.py_str Sample.SerializeToString
     log_fails Sample.workflow_a (SenderWorkflow Sample.workflow_a)
     (sample_kwargs WorkflowExecutionStart None) new_handler).1
  = Raise RuntimeError
  /\ results_sock
       (handle_event Sample.json_dumps Sample.py_str Sample.SerializeToString
          log_fails Sample.workflow_a (SenderWorkflow Sample.workflow_a)
          (sample_kwargs WorkflowExecutionStart None) new_handler).2
     = results_sock new_handler.
Proof.
  pose proof (handle_event_stops_at_first_failure
                Sample.json_dumps Sample.py_str Sample.SerializeToString
                log_fails Sample.workflow_a (SenderWorkflow Sample.workflow_a)
                (sample_kwargs WorkflowExecutionStart None) new_handler)
    as (_ & _ & _ & _ & Hlog & _).
  destruct (Hlog RuntimeError
              (String.list_byte_of_string "WorkflowExecutionStart") "a")
    as (Hr & Hsock & _); [reflexivity..|].
  split; [exact Hr | exact Hsock].
Defined.

(** ** [WorkflowReceiver.receive_workflows] *)

(** A running receiver whose queue will pop the frames of [batch] in
    order. *)
Definition receiver_on (batch : list bytes) (finished : bool)
  : WorkflowReceiver :=
  {| exit := false; cache := reverse batch; finished := finished |}.

Lemma rpop_reverse_cons frame batch :
  rpop (reverse (frame :: batch)) = (Some frame, reverse batch).
Proof. unfold rpop. by rewrite reverse_involutive. Qed.

Lemma rpop_nil : rpop [] = (None, []).
Proof. done. Qed.

Section workflow_receiver_facts.

Variable box_decrypt : bytes -> res bytes.
Variable ParseFromString : bytes -> res ExecuteWorkflowMessage.
Variable Argument_init : ArgumentProto -> res Argument.

#[local] Abbreviation decode :=
  (decode_request box_decrypt ParseFromString Argument_init).
#[local] Abbreviation next :=
  (receive_workflows_next box_decrypt ParseFromString Argument_init).
#[local] Abbreviation take :=
  (take_requests box_decrypt ParseFromString Argument_init).

(** The specification's poison isolation for a batch: the intake does not
    stop, and yields as many requests as there are frames that decrypt. *)
Definition poison_isolation (batch : list bytes) : Prop :=
  let '(requests, r, _) :=
    take (length batch) (receiver_on batch false) in
  r = Ok ()
  /\ length requests = length (filter (fun f => is_ok (box_decrypt f)) batch).

Lemma next_on_good frame batch request :
  decode frame = Ok request ->
  next (receiver_on (frame :: batch) false) =
  (Ok (Some request), receiver_on batch false).
Proof.
  intros Hdec. unfold receive_workflows_next, receiver_on. cbn [exit cache finished].
  by rewrite rpop_reverse_cons, Hdec.
Qed.

Lemma next_on_bad frame batch e :
  decode frame = Raise e ->
  next (receiver_on (frame :: batch) false) =
  (Raise e, receiver_on batch true).
Proof.
  intros Hdec. unfold receive_workflows_next, receiver_on. cbn [exit cache finished].
  by rewrite rpop_reverse_cons, Hdec.
Qed.

Lemma next_on_finished (self : WorkflowReceiver) :
  finished self = true ->
  next self = (Raise StopIteration, self).
Proof. intros Hfin. unfold receive_workflows_next. by rewrite Hfin. Qed.

Lemma take_requests_good good requests n tail :
  Forall2 (fun f r => decode f = Ok r) good requests ->
  take (length good + n) (receiver_on (good ++ tail) false) =
  let '(requests', r, self) := take n (receiver_on tail false) in
  (requests ++ requests', r, self).
Proof.
  induction 1 as [|frame request good requests Hdec _ IH]; cbn [length app plus].
  - by destruct (take n _) as [[??]?].
  - cbn [take_requests]. rewrite (next_on_good _ _ _ Hdec), IH.
    by destruct (take n _) as [[??]?].
Qed.

End workflow_receiver_facts.

(** Two sealed frames around a frame that does not decrypt. *)
Definition poisoned_batch : list bytes :=
  [Sample.sealed Byte.x61 "e1"; Sample.garbage; Sample.sealed Byte.x61 "e2"].

(** C1, as stated, fails: of the batch [valid; garbage; valid] one request
    is yielded, not two, and the third [next()] call is never reached
    because the second raises [CryptoError]. *)
Lemma poison_isolation_counterexample :
  ~ poison_isolation Sample.box_decrypt Sample.ParseFromString
      Sample.Argument_init poisoned_batch.
Proof. intros H. vm_compute in H. destruct H as [[=] _]. Qed.

(** C1, amended. The intake has no handler around [box.decrypt]: it yields
    one request per frame as long as the frames decode, so a batch in which
    every frame decodes yields exactly as many requests as it has frames.
    At the first frame that fails to decrypt (or to parse) the exception
    leaves the generator: the requests yielded are those of the frames
    before it, nothing is counted, the frames after it stay on the queue,
    and every later [next()] raises [StopIteration]. *)
Theorem receive_workflows_stops_at_first_poisoned_frame
    (box_decrypt : bytes -> res bytes)
    (ParseFromString : bytes -> res ExecuteWorkflowMessage)
    (Argument_init : ArgumentProto -> res Argument) :
  let decode := decode_request box_decrypt ParseFromString Argument_init in
  let take := take_requests box_decrypt ParseFromString Argument_init in
  (forall batch requests,
     Forall2 (fun f r => decode f = Ok r) batch requests ->
     take (length batch) (receiver_on batch false)
     = (requests, Ok (), receiver_on [] false)
     /\ length requests = length batch)
  /\ (forall good bad rest requests e,
        Forall2 (fun f r => decode f = Ok r) good requests ->
        decode bad = Raise e ->
        take (length (good ++ bad :: rest))
          (receiver_on (good ++ bad :: rest) false)
        = (requests, Raise e, receiver_on rest true)
        /\ length requests = length good
        /\ forall n,
             take (S n) (receiver_on rest true)
             = ([], Raise StopIteration, receiver_on rest true))
  /\ (forall frame e, box_decrypt frame = Raise e -> decode frame = Raise e).
Proof.
  intros decode take. split_and!.
  - intros batch requests Hgood. split; [|by erewrite <- Forall2_length].
    pose proof (take_requests_good box_decrypt ParseFromString Argument_init
                  batch requests 0 [] Hgood) as Htake.
    rewrite Nat.add_0_r, app_nil_r in Htake. cbn in Htake.
    by rewrite app_nil_r in Htake.
  - intros good bad rest requests e Hgood Hbad.
    split_and!; [|by erewrite <- Forall2_length|].
    + rewrite length_app. cbn [length].
      rewrite (take_requests_good box_decrypt ParseFromString Argument_init
                 good requests _ _ Hgood).
      cbn [take_requests]. rewrite (next_on_bad _ _ _ _ _ _ Hbad).
      by rewrite app_nil_r.
    + intros n. subst take. cbn [take_requests].
      by rewrite next_on_finished.
  - intros frame e Hbox. subst decode. unfold decode_request.
    by rewrite Hbox.
Qed.

Lemma receive_workflows_stops_at_first_poisoned_frame_witness :
  take_requests Sample.box_decrypt Sample.ParseFromString Sample.Argument_init
    3 (receiver_on poisoned_batch false)
  = ([ {| workflow_id := "a"; workflow_execution_id := "e1"; start := "";
          start_arguments := []; resume := false |} ],
     Raise CryptoError,
     receiver_on [Sample.sealed Byte.x61 "e2"] true).
Proof.
  pose proof (receive_workflows_stops_at_first_poisoned_frame
                Sample.box_decrypt Sample.ParseFromString Sample.Argument_init)
    as (_ & Hbad & _).
  refine (proj1 (Hbad [Sample.sealed Byte.x61 "e1"] Sample.garbage
                   [Sample.sealed Byte.x61 "e2"] _ CryptoError _ _)).
  - repeat constructor.
  - reflexivity.
Defined.

(** ** [Worker]: the dispatch body *)

Lemma binds_record_call c self :
  binds (record_call c self) = binds self + (if is_Bind c then 1 else 0).
Proof.
  unfold binds, record_call. cbn [calls].
  rewrite filter_app, length_app. by destruct c.
Qed.

Lemma releases_record_call c self :
  releases (record_call c self)
  = releases self + (if is_Release c then 1 else 0).
Proof.
  unfold releases, record_call. cbn [calls].
  rewrite filter_app, length_app. by destruct c.
Qed.

Lemma binds_set_workflows d self : binds (set_workflows d self) = binds self.
Proof. done. Qed.

Lemma releases_set_workflows d self :
  releases (set_workflows d self) = releases self.
Proof. done. Qed.

(** The specification's slot balance across one run of the dispatch
    body: as many [Bind] calls as [Release] calls were added. *)
Definition slot_balance (before after : Worker) : Prop :=
  binds after + releases before = releases after + binds before.

(** The specification's handling of an unknown workflow id: the dispatch
    body returns without raising and has published an event. *)
Definition not_found_handled (before : Worker) (result : res () * Worker)
  : Prop :=
  result.1 = Ok ()
  /\ length (results_sock (workflow_results_sender result.2))
     = S (length (results_sock (workflow_results_sender before))).

(** A fresh worker of capacity 2 over the sample database, and requests
    for the workflow [a], which is in the database, and for [b], which is
    not. *)
Definition new_worker : Worker := worker (init 2 Sample.db []).

Definition request_a (execution_id : string) : ExecuteRequest :=
  {| workflow_id := "a"; workflow_execution_id := execution_id; start := "";
     start_arguments := []; resume := false |}.
Definition request_b : ExecuteRequest :=
  {| workflow_id := "b"; workflow_execution_id := "e9"; start := "";
     start_arguments := []; resume := false |}.

(** Interpreters: one whose [execute] raises, one whose [execute] returns
    after an abort. *)
Definition execute_raises
  : Workflow -> string -> list Argument -> bool -> res exit_path :=
  fun _ _ _ _ => Raise RuntimeError.
Definition execute_aborted
  : Workflow -> string -> list Argument -> bool -> res exit_path :=
  fun _ _ _ _ => Ok Aborted.

(** C2, as stated, fails: when [workflow.execute] raises, the entry bound
    before the call is never released and stays in the registry. *)
Lemma slot_balance_counterexample :
  let after :=
    (execute_workflow_worker execute_raises "t1" (request_a "e1") new_worker).2 in
  ~ slot_balance new_worker after
  /\ binds after = 1 /\ releases after = 0
  /\ is_Some (PyDict.get "t1" (workflows after)).
Proof.
  cbv zeta. split_and!; [|reflexivity..|vm_compute; eauto].
  intros H. vm_compute in H. discriminate H.
Qed.

(** C2, amended. For every dispatched request whose [workflow.execute]
    call returns (the workflow having completed, paused or aborted), the
    registry entry inserted before the call is removed after it: one
    [Bind] and one [Release] are made, in this order around the call, and
    the thread has no entry left. *)
Theorem execute_workflow_worker_releases_when_execute_returns
    (workflow_execute :
       Workflow -> string -> list Argument -> bool -> res exit_path)
    (t : thread_name) (request : ExecuteRequest) (self : Worker)
    (workflow : Workflow) (path : exit_path) :
  load_workflow (execution_db (workflow_results_sender self)) request
  = Ok workflow ->
  workflow_execute workflow (start_or_default (start request) workflow)
    (start_arguments request) (resume request) = Ok path ->
  let result := execute_workflow_worker workflow_execute t request self in
  result.1 = Ok ()
  /\ calls result.2
     = calls self
       ++ [Bind t workflow;
           call_execute workflow (start_or_default (start request) workflow)
             (start_arguments request) (resume request);
           Release t]
  /\ binds result.2 = S (binds self)
  /\ releases result.2 = S (releases self)
  /\ slot_balance self result.2
  /\ PyDict.get t (workflows result.2) = None.
Proof.
  intros Hload Hexec result.
  assert (Hresult :
    result =
    (Ok (),
     record_call (Release t)
       (set_workflows (PyDict.remove t (PyDict.set t workflow (workflows self)))
          (record_call
             (call_execute workflow
                (start_or_default (start request) workflow)
                (start_arguments request) (resume request))
             (registry_bind t workflow self))))).
  { subst result. unfold execute_workflow_worker. py_simpl.
    rewrite Hload. cbn beta iota. rewrite Hexec. cbn beta iota.
    unfold registry_release, PyDict.pop. cbn [workflows record_call registry_bind set_workflows].
    by rewrite get_set_eq. }
  rewrite Hresult. cbn [fst snd].
  assert (Hb : binds (snd result) = S (binds self)).
  { rewrite Hresult. cbn [snd]. unfold registry_bind.
    rewrite binds_record_call, binds_set_workflows, binds_record_call,
      binds_record_call, binds_set_workflows.
    cbn [is_Bind]. lia. }
  assert (Hr : releases (snd result) = S (releases self)).
  { rewrite Hresult. cbn [snd]. unfold registry_bind.
    rewrite releases_record_call, releases_set_workflows,
      releases_record_call, releases_record_call, releases_set_workflows.
    cbn [is_Release]. lia. }
  rewrite Hresult in Hb, Hr. cbn [snd] in Hb, Hr.
  split_and!; [done | | done | done | |].
  - cbn. by rewrite <- !app_assoc.
  - unfold slot_balance. rewrite Hb, Hr. lia.
  - cbn [workflows record_call set_workflows]. apply get_remove_eq.
Qed.

Lemma execute_workflow_worker_releases_when_execute_returns_witness :
  let result :=
    execute_workflow_worker execute_aborted "t1" (request_a "e1") new_worker in
  result.1 = Ok () /\ binds result.2 = 1 /\ releases result.2 = 1
  /\ PyDict.get "t1" (workflows result.2) = None.
Proof.
  destruct (execute_workflow_worker_releases_when_execute_returns
              execute_aborted "t1" (request_a "e1") new_worker
              {| wf_name := "wf-a"; wf_id := "a"; _execution_id := Some "e1";
                 wf_start := "n1"; executing_action := Sample.an_action;
                 _accumulator := []; branch_counters := [];
                 _instance_repo := PyNone |}
              Aborted)
    as (Hr & _ & Hb & Hrel & _ & Hget); [reflexivity | reflexivity |].
  cbv zeta. split_and!; [exact Hr | exact Hb | exact Hrel | exact Hget].
Defined.

(** C5, as stated, fails: a request for a workflow id that is not in the
    database makes the dispatch body raise, and no event is published. *)
Lemma not_found_handled_counterexample :
  ~ not_found_handled new_worker
      (execute_workflow_worker execute_aborted "t1" request_b new_worker).
Proof. intros [H _]. vm_compute in H. discriminate H. Qed.

(** C5, amended. For every dispatched request whose [workflow_id] is not
    found in the execution database, the dispatch body raises
    [AttributeError] at the assignment to [workflow._execution_id], before
    the registry is touched: nothing is bound or released, no event is
    published, and the worker is left as it was. *)
Theorem execute_workflow_worker_raises_when_not_found
    (workflow_execute :
       Workflow -> string -> list Argument -> bool -> res exit_path)
    (t : thread_name) (request : ExecuteRequest) (self : Worker) :
  query_workflow (execution_db (workflow_results_sender self))
    (workflow_id request) = None ->
  execute_workflow_worker workflow_execute t request self
  = (Raise AttributeError, self).
Proof.
  intros Hquery. unfold execute_workflow_worker, load_workflow. py_simpl.
  by rewrite Hquery.
Qed.

Lemma execute_workflow_worker_raises_when_not_found_witness :
  execute_workflow_worker execute_aborted "t1" request_b new_worker
  = (Raise AttributeError, new_worker).
Proof.
  apply (execute_workflow_worker_raises_when_not_found
           execute_aborted "t1" request_b new_worker).
  reflexivity.
Defined.

(** ** [Worker]: control messages and the signal bridge *)

(** The interpreter call made for a control message of the given kind. *)
Definition control_call (kind : WorkflowCommunicationMessageType)
    (w : Workflow) : call :=
  match kind with
  | pause => call_pause w
  | abort => call_abort w
  end.

Lemma get_workflow_by_execution_id_Some self id w :
  __get_workflow_by_execution_id self id = Some w ->
  w ∈ PyDict.values (workflows self) /\ get_execution_id w = Some id.
Proof.
  unfold __get_workflow_by_execution_id.
  intros [Hin Hid]%List.find_some. split.
  - by apply list_elem_of_In.
  - by apply bool_decide_eq_true in Hid.
Qed.

Lemma get_workflow_by_execution_id_None self id :
  __get_workflow_by_execution_id self id = None ->
  forall w, w ∈ PyDict.values (workflows self) -> get_execution_id w <> Some id.
Proof.
  unfold __get_workflow_by_execution_id. intros Hfind w Hin%list_elem_of_In.
  pose proof (List.find_none _ _ Hfind w Hin) as Hid. cbn beta in Hid.
  by apply bool_decide_eq_false in Hid.
Qed.

Lemma NoDup_fmap_eq {A B} (f : A -> B) (l : list A) x y :
  NoDup (f <$> l) -> x ∈ l -> y ∈ l -> f x = f y -> x = y.
Proof.
  induction l as [|a l IH]; csimpl; [by intros _ ?%elem_of_nil|].
  intros [Hnotin Hnd]%NoDup_cons [->|Hx]%elem_of_cons [->|Hy]%elem_of_cons Hf;
    [done | | | by apply IH].
  - destruct Hnotin. rewrite Hf. by apply list_elem_of_fmap_2.
  - destruct Hnotin. rewrite <- Hf. by apply list_elem_of_fmap_2.
Qed.

(** C8. A control message whose execution id is that of a registry entry
    makes the worker call [pause()] (kind [pause]) or [abort()] (kind
    [abort]) once, on a bound workflow with that execution id, and change
    nothing else; when the execution ids in the registry are distinct this
    is the one entry with the id. A control message whose execution id is
    in no registry entry returns without error and leaves the worker as it
    was. *)
Theorem workflow_control_reaches_the_bound_workflow
    (self : Worker) (message : WorkflowCommunicationMessageData) :
  let id := wc_workflow_execution_id message in
  let result := _handle_workflow_control_communication message self in
  result.1 = Ok ()
  /\ ((exists w, w ∈ PyDict.values (workflows self)
                 /\ get_execution_id w = Some id) ->
      exists workflow,
        workflow ∈ PyDict.values (workflows self)
        /\ get_execution_id workflow = Some id
        /\ result.2 = record_call (control_call (wc_type message) workflow) self
        /\ (NoDup (get_execution_id <$> PyDict.values (workflows self)) ->
            forall w, w ∈ PyDict.values (workflows self) ->
                      get_execution_id w = Some id -> w = workflow))
  /\ ((forall w, w ∈ PyDict.values (workflows self) ->
                 get_execution_id w <> Some id) ->
      result.2 = self).
Proof.
  intros id result. subst result.
  unfold _handle_workflow_control_communication. fold id.
  destruct (__get_workflow_by_execution_id self id) as [workflow|] eqn:Hfind.
  - apply get_workflow_by_execution_id_Some in Hfind as [Hin Hid].
    split_and!.
    + by destruct (wc_type message).
    + intros _. exists workflow. split_and!; [done | done | | ].
      * by destruct (wc_type message).
      * intros Hnd w Hw Hwid.
        apply (NoDup_fmap_eq get_execution_id _ _ _ Hnd Hw Hin). congruence.
    + intros Hnone. by destruct (Hnone workflow Hin).
  - pose proof (get_workflow_by_execution_id_None _ _ Hfind) as Hnone.
    split_and!; [done | | done].
    intros (w & Hw & Hwid). by destruct (Hnone w Hw).
Qed.

(** A worker with the workflow [a] bound, under execution id [e2], by the
    thread [t1]. *)
Definition bound_workflow : Workflow :=
  {| wf_name := "wf-a"; wf_id := "a"; _execution_id := Some "e2";
     wf_start := "n1"; executing_action := Sample.an_action;
     _accumulator := []; branch_counters := []; _instance_repo := PyNone |}.

Definition worker_running_e2 : Worker :=
  registry_bind "t1" bound_workflow new_worker.

Lemma workflow_control_reaches_the_bound_workflow_witness :
  (_handle_workflow_control_communication
     {| wc_type := abort; wc_workflow_execution_id := "e2" |}
     worker_running_e2).2
  = record_call (call_abort bound_workflow) worker_running_e2
  /\ (_handle_workflow_control_communication
        {| wc_type := abort; wc_workflow_execution_id := "e-other" |}
        worker_running_e2).2
     = worker_running_e2.
Proof.
  split.
  - destruct (workflow_control_reaches_the_bound_workflow worker_running_e2
                {| wc_type := abort; wc_workflow_execution_id := "e2" |})
      as (_ & Hfound & _).
    destruct Hfound as (w & Hin & _ & Hcall & _).
    + exists bound_workflow. split; [|reflexivity].
      vm_compute. apply list_elem_of_here.
    + vm_compute in Hin. apply list_elem_of_singleton in Hin. subst w.
      exact Hcall.
  - destruct (workflow_control_reaches_the_bound_workflow worker_running_e2
                {| wc_type := abort; wc_workflow_execution_id := "e-other" |})
      as (_ & _ & Habsent).
    apply Habsent. intros w Hin.
    vm_compute in Hin. apply list_elem_of_singleton in Hin. subst w.
    vm_compute. discriminate.
Defined.

(** C10. The signal bridge finds the emitting workflow by looking the
    name of the current thread up in the registry. When the thread has an
    entry, [on_data_sent] hands that workflow to [handle_event]; when it
    has none (a thread that never bound a workflow, or one whose entry has
    been removed by the release), both [_get_current_workflow] and
    [on_data_sent] raise [KeyError] and change nothing. So [on_data_sent]
    returns normally only on a thread that has a workflow bound. *)
Theorem on_data_sent_needs_a_bound_thread `{!data_pb2}
    (json_dumps : pyval -> res string) (py_str : pyval -> string)
    (SerializeToString : Message -> bytes) (env : Collaborators)
    (t : thread_name) (sender : Sender) (kw : kwargs) (self : Worker) :
  let bridge :=
    on_data_sent json_dumps py_str SerializeToString env t sender kw in
  match PyDict.get t (workflows self) with
  | Some workflow =>
      _get_current_workflow t self = (Ok workflow, self)
      /\ bridge self
         = with_results_sender
             (handle_event json_dumps py_str SerializeToString env
                workflow sender kw) self
  | None =>
      _get_current_workflow t self = (Raise KeyError, self)
      /\ bridge self = (Raise KeyError, self)
  end
  /\ ((bridge self).1 = Ok () -> is_Some (PyDict.get t (workflows self)))
  /\ (forall self',
        registry_release t self = (Ok (), self') ->
        bridge self' = (Raise KeyError, self')).
Proof.
  intros bridge.
  assert (Hnone : forall s, PyDict.get t (workflows s) = None ->
                            bridge s = (Raise KeyError, s)).
  { intros s Hs. subst bridge. unfold on_data_sent, _get_current_workflow.
    py_simpl. by rewrite Hs. }
  split_and!.
  - destruct (PyDict.get t (workflows self)) as [workflow|] eqn:Hget.
    + split.
      * unfold _get_current_workflow. by rewrite Hget.
      * subst bridge. unfold on_data_sent, _get_current_workflow. py_simpl.
        by rewrite Hget.
    + split; [|by apply Hnone].
      unfold _get_current_workflow. by rewrite Hget.
  - destruct (PyDict.get t (workflows self)) eqn:Hget; [by eexists|].
    by rewrite (Hnone self Hget).
  - intros self' Hrel. apply Hnone.
    unfold registry_release in Hrel.
    destruct (PyDict.pop t (workflows self)) as [[w d]|] eqn:Hpop; [|done].
    injection Hrel as <-. cbn [workflows record_call set_workflows].
    unfold PyDict.pop in Hpop.
    destruct (PyDict.get t (workflows self)); [|done].
    injection Hpop as _ <-. apply get_remove_eq.
Qed.

Lemma on_data_sent_needs_a_bound_thread_witness :
  on_data_sent Sample.json_dumps Sample.py_str Sample.SerializeToString
    Sample.reliable "t1" (SenderWorkflow bound_workflow)
    (sample_kwargs WorkflowExecutionStart None)
    (registry_release "t1" worker_running_e2).2
  = (Raise KeyError, (registry_release "t1" worker_running_e2).2).
Proof.
  pose proof (on_data_sent_needs_a_bound_thread
                Sample.json_dumps Sample.py_str Sample.SerializeToString
                Sample.reliable "t1" (SenderWorkflow bound_workflow)
                (sample_kwargs WorkflowExecutionStart None)
                worker_running_e2) as (_ & _ & Hreleased).
  apply Hreleased. reflexivity.
Defined.

(** ** The interleaving semantics: what a step can change *)

Lemma keys_set_thread t st s :
  t ∈ PyDict.keys (pool s) ->
  PyDict.keys (pool (set_thread t st s)) = PyDict.keys (pool s).
Proof.
  intros Hin. unfold set_thread. cbn [pool].
  by rewrite keys_set, decide_True.
Qed.

Lemma registry_release_workflows t self :
  workflows (registry_release t self).2 = workflows self
  \/ workflows (registry_release t self).2 = PyDict.remove t (workflows self).
Proof.
  unfold registry_release, PyDict.pop.
  destruct (PyDict.get t (workflows self)); [by right | by left].
Qed.

Lemma registry_release_capacity t self :
  capacity (registry_release t self).2 = capacity self.
Proof.
  unfold registry_release. by destruct (PyDict.pop t (workflows self)) as [[??]|].
Qed.

Lemma registry_release_results_sender t self :
  workflow_results_sender (registry_release t self).2
  = workflow_results_sender self.
Proof.
  unfold registry_release. by destruct (PyDict.pop t (workflows self)) as [[??]|].
Qed.

Lemma registry_release_receiver t self :
  workflow_receiver (registry_release t self).2 = workflow_receiver self.
Proof.
  unfold registry_release. by destruct (PyDict.pop t (workflows self)) as [[??]|].
Qed.

Lemma control_frame message self :
  let self' := (_handle_workflow_control_communication message self).2 in
  workflows self' = workflows self /\ capacity self' = capacity self
  /\ workflow_results_sender self' = workflow_results_sender self
  /\ workflow_receiver self' = workflow_receiver self.
Proof.
  unfold _handle_workflow_control_communication.
  destruct (__get_workflow_by_execution_id _ _); [|done].
  by destruct (wc_type message).
Qed.

Section signal_frame.

Context `{!data_pb2}.
Variable json_dumps : pyval -> res string.
Variable py_str : pyval -> string.
Variable SerializeToString : Message -> bytes.
Variable env : Collaborators.

Lemma handle_event_db_workflows workflow sender kw h :
  db_workflows
    (execution_db
       (handle_event json_dumps py_str SerializeToString env
          workflow sender kw h).2)
  = db_workflows (execution_db h).
Proof.
  rewrite handle_event_unfold. cbv zeta.
  repeat (case_match; try done).
Qed.

Lemma on_data_sent_frame t sender kw self :
  let self' :=
    (on_data_sent json_dumps py_str SerializeToString env t sender kw self).2 in
  workflows self' = workflows self /\ capacity self' = capacity self
  /\ db_workflows (execution_db (workflow_results_sender self'))
     = db_workflows (execution_db (workflow_results_sender self))
  /\ workflow_receiver self' = workflow_receiver self.
Proof.
  unfold on_data_sent, _get_current_workflow. py_simpl.
  destruct (PyDict.get t (workflows self)) as [w|]; [|done].
  unfold with_results_sender.
  pose proof (handle_event_db_workflows w sender kw
                (workflow_results_sender self)) as Hdb.
  destruct (handle_event _ _ _ _ _ _ _ _) as [r h]. cbn in *. done.
Qed.

End signal_frame.

(** ** The capacity of the registry *)

(** Every registry key is the name of a pool thread, the pool threads have
    distinct names, and there are at most [capacity] of them. *)
Definition pool_invariant (s : System) : Prop :=
  NoDup (PyDict.keys (pool s))
  /\ PyDict.len (pool s) <= capacity (worker s)
  /\ NoDup (PyDict.keys (workflows (worker s)))
  /\ PyDict.keys (workflows (worker s)) ⊆ PyDict.keys (pool s).

Lemma pool_invariant_init capacity db queue :
  pool_invariant (init capacity db queue).
Proof.
  unfold pool_invariant, init. cbn.
  split_and!; [apply NoDup_nil_2 | lia | apply NoDup_nil_2 | done].
Qed.

Lemma pool_invariant_len s :
  pool_invariant s ->
  PyDict.len (workflows (worker s)) <= capacity (worker s).
Proof.
  intros (Hpool & Hlen & Hkeys & Hsub).
  unfold PyDict.len, PyDict.keys in *.
  rewrite <- (length_fmap fst (workflows (worker s))).
  etrans; [|exact Hlen].
  rewrite <- (length_fmap fst (pool s)).
  apply submseteq_length, NoDup_submseteq; [done|]. apply Hsub.
Qed.

(** The invariant depends on the pool keys, the capacity and the
    registry only. *)
Lemma pool_invariant_frame s s' :
  PyDict.keys (pool s') = PyDict.keys (pool s) ->
  capacity (worker s') = capacity (worker s) ->
  workflows (worker s') = workflows (worker s) ->
  pool_invariant s -> pool_invariant s'.
Proof.
  unfold pool_invariant, PyDict.len, PyDict.keys.
  intros Hpool Hcap Hwf (? & Hlen & ? & ?).
  rewrite Hwf, Hcap, Hpool.
  split_and!; try done.
  rewrite <- (length_fmap fst (pool s')), Hpool, length_fmap. done.
Qed.

Section capacity_facts.

Context `{!data_pb2}.
Variable json_dumps : pyval -> res string.
Variable py_str : pyval -> string.
Variable SerializeToString : Message -> bytes.
Variable env : Collaborators.
Variable box_decrypt : bytes -> res bytes.
Variable ParseFromString : bytes -> res ExecuteWorkflowMessage.
Variable Argument_init : ArgumentProto -> res Argument.

#[local] Abbreviation step1 :=
  (step json_dumps py_str SerializeToString env
     box_decrypt ParseFromString Argument_init).
#[local] Abbreviation run1 :=
  (run json_dumps py_str SerializeToString env
     box_decrypt ParseFromString Argument_init).

Lemma receive_workflows_iteration_frame s :
  let s' :=
    receive_workflows_iteration box_decrypt ParseFromString Argument_init s in
  pool s' = pool s
  /\ capacity (worker s') = capacity (worker s)
  /\ workflows (worker s') = workflows (worker s)
  /\ workflow_results_sender (worker s') = workflow_results_sender (worker s).
Proof.
  unfold receive_workflows_iteration.
  destruct (__is_pool_at_capacity (worker s)); [done|].
  destruct (receive_workflows_next _ _ _ _) as [[[req|]|e] receiver]; done.
Qed.

Lemma step_pool_invariant a s s' :
  step1 a s = Some s' -> pool_invariant s -> pool_invariant s'.
Proof.
  intros Hstep Hinv.
  destruct a as [frame| |t|t|t|t|t|t|t|message|t sender kw]; cbn in Hstep.
  - (* Enqueue *)
    injection Hstep as <-. by eapply (pool_invariant_frame s).
  - (* Scheduler *)
    destruct (_ && _); [|done]. injection Hstep as <-.
    destruct (receive_workflows_iteration_frame s) as (Hp & Hc & Hw & _).
    eapply (pool_invariant_frame s); [by rewrite Hp | done | done | done].
  - (* Spawn *)
    case_decide as Hspawn; [|done]. injection Hstep as <-.
    destruct Hspawn as [Hfresh Hroom].
    destruct Hinv as (Hpool & Hlen & Hkeys & Hsub).
    unfold pool_invariant, set_thread. cbn [pool worker].
    rewrite keys_set, decide_False by done.
    split_and!.
    + apply NoDup_app. split_and!; [done | | apply NoDup_singleton].
      by intros x Hx ->%list_elem_of_singleton.
    + unfold PyDict.len in *.
      rewrite <- (length_fmap fst). fold (PyDict.keys (PyDict.set t Idle (pool s))).
      rewrite keys_set, decide_False by done.
      rewrite length_app. unfold PyDict.keys. rewrite length_fmap. cbn. lia.
    + done.
    + intros x Hx. apply elem_of_app. left. by apply Hsub.
  - (* Take *)
    destruct (PyDict.get t (pool s)) as [[]|] eqn:Hget; try done.
    destruct (work_queue s) as [|request rest]; [done|].
    injection Hstep as <-.
    eapply (pool_invariant_frame s); [|done|done|done].
    apply (keys_set_thread t _ (set_work_queue rest s)).
    cbn. by eapply get_Some_key.
  - (* Load *)
    destruct (PyDict.get t (pool s)) as [[]|] eqn:Hget; try done.
    apply get_Some_key in Hget.
    destruct (load_workflow _ _); injection Hstep as <-;
      (eapply (pool_invariant_frame s); [by apply keys_set_thread|done|done|done]).
  - (* DoBind *)
    destruct (PyDict.get t (pool s)) as [[]|] eqn:Hget; try done.
    apply get_Some_key in Hget. injection Hstep as <-.
    destruct Hinv as (Hpool & Hlen & Hkeys & Hsub).
    unfold pool_invariant.
    rewrite (keys_set_thread t _ (set_worker _ s)) by done.
    cbn [pool worker set_thread set_worker workflows capacity record_call
           registry_bind set_workflows].
    split_and!; [done | | by apply NoDup_keys_set | ].
    + unfold PyDict.len in *. rewrite <- (length_fmap fst).
      fold (PyDict.keys (PyDict.set t Executing (pool s))).
      rewrite keys_set, decide_True by done.
      unfold PyDict.keys. by rewrite length_fmap.
    + rewrite keys_set. case_decide; [done|].
      intros x [Hx| ->%list_elem_of_singleton]%elem_of_app; [by apply Hsub|done].
  - (* ExecuteReturns *)
    destruct (PyDict.get t (pool s)) as [[]|] eqn:Hget; try done.
    apply get_Some_key in Hget. injection Hstep as <-.
    eapply (pool_invariant_frame s); [by apply keys_set_thread|done|done|done].
  - (* ExecuteRaises *)
    destruct (PyDict.get t (pool s)) as [[]|] eqn:Hget; try done.
    apply get_Some_key in Hget. injection Hstep as <-.
    eapply (pool_invariant_frame s); [by apply keys_set_thread|done|done|done].
  - (* DoRelease *)
    destruct (PyDict.get t (pool s)) as [[]|] eqn:Hget; try done.
    apply get_Some_key in Hget. injection Hstep as <-.
    destruct (registry_release_workflows t (worker s)) as [Hw|Hw].
    + eapply (pool_invariant_frame s); [| |exact Hw|done].
      * by apply (keys_set_thread t _ (set_worker _ s)).
      * cbn. apply registry_release_capacity.
    + destruct Hinv as (Hpool & Hlen & Hkeys & Hsub).
      unfold pool_invariant.
      rewrite (keys_set_thread t _ (set_worker _ s)) by done.
      cbn [pool worker set_thread set_worker].
      rewrite registry_release_capacity, Hw.
      split_and!; [done | | by apply NoDup_keys_remove | ].
      * unfold PyDict.len in *. rewrite <- (length_fmap fst).
        fold (PyDict.keys (PyDict.set t Idle (pool s))).
        rewrite keys_set, decide_True by done.
        unfold PyDict.keys. by rewrite length_fmap.
      * intros x Hx. apply Hsub.
        eapply elem_of_sublist; [exact Hx | apply keys_remove_sublist].
  - (* Control *)
    injection Hstep as <-.
    destruct (control_frame message (worker s)) as (Hw & Hc & _).
    by eapply (pool_invariant_frame s).
  - (* Signal *)
    injection Hstep as <-.
    destruct (on_data_sent_frame json_dumps py_str SerializeToString env
                t sender kw (worker s)) as (Hw & Hc & _).
    by eapply (pool_invariant_frame s).
Qed.

Lemma run_pool_invariant schedule s s' :
  run1 schedule s = Some s' -> pool_invariant s -> pool_invariant s'.
Proof.
  revert s. induction schedule as [|a schedule IH]; intros s; cbn.
  - by intros [= <-].
  - destruct (step1 a s) as [s1|] eqn:Hstep; [|done].
    intros Hrun Hinv. eapply IH; [done|]. by eapply step_pool_invariant.
Qed.

Lemma step_capacity a s s' :
  step1 a s = Some s' -> capacity (worker s') = capacity (worker s).
Proof.
  intros Hstep.
  destruct a as [frame| |t|t|t|t|t|t|t|message|t sender kw]; cbn in Hstep;
    repeat case_match; simplify_eq; try done.
  - by destruct (receive_workflows_iteration_frame s) as (_ & Hc & _).
  - cbn. apply registry_release_capacity.
  - by destruct (control_frame message (worker s)) as (_ & Hc & _).
  - by destruct (on_data_sent_frame json_dumps py_str SerializeToString env
                   t sender kw (worker s)) as (_ & Hc & _).
Qed.

Lemma run_capacity schedule s s' :
  run1 schedule s = Some s' -> capacity (worker s') = capacity (worker s).
Proof.
  revert s. induction schedule as [|a schedule IH]; intros s; cbn.
  - by intros [= <-].
  - destruct (step1 a s) as [s1|] eqn:Hstep; [|done].
    intros Hrun. rewrite (IH _ Hrun). by eapply step_capacity.
Qed.

End capacity_facts.

(** C3. Along every schedule of the scheduler loop, the pool threads and
    the communication thread, started from a fresh worker, the registry
    never holds more than [capacity] entries: its keys are names of pool
    threads, and the pool never has more than [capacity] threads. *)
Theorem registry_never_exceeds_capacity `{!data_pb2}
    (json_dumps : pyval -> res string) (py_str : pyval -> string)
    (SerializeToString : Message -> bytes) (env : Collaborators)
    (box_decrypt : bytes -> res bytes)
    (ParseFromString : bytes -> res ExecuteWorkflowMessage)
    (Argument_init : ArgumentProto -> res Argument)
    (capacity : nat) (db : ExecutionDatabase) (queue : list bytes)
    (schedule : list action) (s : System) :
  run json_dumps py_str SerializeToString env
    box_decrypt ParseFromString Argument_init
    schedule (init capacity db queue) = Some s ->
  PyDict.len (workflows (worker s)) <= capacity.
Proof.
  intros Hrun.
  pose proof (run_capacity _ _ _ _ _ _ _ _ _ _ Hrun) as Hcap.
  pose proof (run_pool_invariant _ _ _ _ _ _ _ _ _ _ Hrun
                (pool_invariant_init capacity db queue)) as Hinv.
  apply pool_invariant_len in Hinv. by rewrite Hcap in Hinv.
Qed.

(** A schedule in which three requests for one workflow are admitted by a
    worker of capacity 2 and two of them are bound. *)
Definition three_frames : list bytes :=
  [Sample.sealed Byte.x61 "e3"; Sample.sealed Byte.x61 "e2";
   Sample.sealed Byte.x61 "e1"].

Definition busy_schedule : list action :=
  [Scheduler; Scheduler; Scheduler; Spawn "t1"; Spawn "t2";
   Take "t1"; Take "t2"; Load "t1"; Load "t2"; DoBind "t1"; DoBind "t2";
   Scheduler].

Definition sample_run (schedule : list action) (s : System) : option System :=
  run Sample.json_dumps Sample.py_str Sample.SerializeToString Sample.reliable
    Sample.box_decrypt Sample.ParseFromString Sample.Argument_init schedule s.

Lemma registry_never_exceeds_capacity_witness :
  exists s,
    sample_run busy_schedule (init 2 Sample.db three_frames) = Some s
    /\ PyDict.len (workflows (worker s)) = 2
    /\ PyDict.len (workflows (worker s)) <= 2.
Proof.
  destruct (sample_run busy_schedule (init 2 Sample.db three_frames))
    as [s|] eqn:Hrun; [|vm_compute in Hrun; discriminate Hrun].
  exists s. split_and!; [reflexivity | |].
  - vm_compute in Hrun. injection Hrun as <-. reflexivity.
  - exact (registry_never_exceeds_capacity _ _ _ _ _ _ _ 2 Sample.db
             three_frames busy_schedule s Hrun).
Defined.

(** ** Execution ids in the registry *)

(** The execution ids held by the registry. *)
Definition registry_ids (d : PyDict.t thread_name Workflow)
  : list (option string) :=
  get_execution_id <$> PyDict.values d.

(** The specification's uniqueness of execution ids among the live
    entries. *)
Definition exec_ids_unique (self : Worker) : Prop :=
  NoDup (registry_ids (workflows self)).

(** The execution id that a pool thread holds and has not bound yet. *)
Definition pending_id (st : thread_state) : list (option string) :=
  match st with
  | Loading request => [Some (workflow_execution_id request)]
  | Binding _ w => [get_execution_id w]
  | _ => []
  end.

Definition pool_ids (p : PyDict.t thread_name thread_state)
  : list (option string) :=
  p ≫= fun e => pending_id e.2.

Definition queue_ids (q : list ExecuteRequest) : list (option string) :=
  (fun r => Some (workflow_execution_id r)) <$> q.

Lemma load_workflow_execution_id db request w :
  load_workflow db request = Ok w ->
  get_execution_id w = Some (workflow_execution_id request).
Proof.
  unfold load_workflow. repeat case_match; try done; by intros [= <-].
Qed.

Lemma registry_ids_set t w d :
  registry_ids (PyDict.set t w d) ⊆+ get_execution_id w :: registry_ids d.
Proof.
  unfold registry_ids.
  change (get_execution_id w :: (get_execution_id <$> PyDict.values d))
    with (get_execution_id <$> w :: PyDict.values d).
  apply fmap_submseteq, values_set_submseteq.
Qed.

Lemma registry_ids_remove t d :
  registry_ids (PyDict.remove t d) ⊆+ registry_ids d.
Proof.
  unfold registry_ids.
  apply fmap_submseteq, sublist_submseteq, values_remove_sublist.
Qed.

Lemma set_fresh {V} (t : thread_name) (v : V) (d : PyDict.t thread_name V) :
  t ∉ PyDict.keys d -> PyDict.set t v d = d ++ [(t, v)].
Proof.
  unfold PyDict.keys. induction d as [|[k v'] d IH]; csimpl; [done|].
  intros [Hne Hnotin]%not_elem_of_cons.
  rewrite decide_False by done. by rewrite IH.
Qed.

(** Replacing the state of a thread replaces its pending id. *)
Lemma pool_ids_set t st st0 p :
  PyDict.get t p = Some st0 ->
  exists l1 l2,
    pool_ids p = l1 ++ pending_id st0 ++ l2
    /\ pool_ids (PyDict.set t st p) = l1 ++ pending_id st ++ l2.
Proof.
  unfold pool_ids. induction p as [|[k v] p IH]; csimpl; [done|].
  destruct (decide (k = t)) as [->|Hne].
  - intros [= ->]. by exists [], (p ≫= fun e => pending_id e.2).
  - intros (l1 & l2 & Hp & Hset)%IH. csimpl.
    exists (pending_id v ++ l1), l2.
    rewrite Hp, Hset. by rewrite <- !app_assoc.
Qed.

Lemma rpop_Some queue frame queue' :
  rpop queue = (Some frame, queue') -> queue ≡ₚ frame :: queue'.
Proof.
  unfold rpop. destruct (reverse queue) as [|f rest] eqn:Hrev; [done|].
  intros [= <- <-]. rewrite <- (reverse_Permutation queue), Hrev.
  by rewrite reverse_Permutation.
Qed.

Lemma rpop_None queue queue' : rpop queue = (None, queue') -> queue' = queue.
Proof.
  unfold rpop. destruct (reverse queue); [by intros [= <-] | done].
Qed.

Lemma ids_mono {A} (F Q P R R' : list A) :
  R' ⊆+ R -> F ++ Q ++ P ++ R' ⊆+ F ++ Q ++ P ++ R.
Proof. intros HR. by do 3 apply submseteq_skips_l. Qed.

(** Reading a component of a state built by the setters. *)
Ltac sys_simpl :=
  cbn [worker work_queue pool scheduler_alive set_thread set_worker
         set_work_queue set_scheduler_dead workflows workflow_receiver
         workflow_results_sender capacity calls record_call registry_bind
         set_workflows set_workflow_receiver set_workflow_results_sender
         cache set_cache fst snd].

Section uniqueness_facts.

Context `{!data_pb2}.
Variable json_dumps : pyval -> res string.
Variable py_str : pyval -> string.
Variable SerializeToString : Message -> bytes.
Variable env : Collaborators.
Variable box_decrypt : bytes -> res bytes.
Variable ParseFromString : bytes -> res ExecuteWorkflowMessage.
Variable Argument_init : ArgumentProto -> res Argument.

#[local] Abbreviation step2 :=
  (step json_dumps py_str SerializeToString env
     box_decrypt ParseFromString Argument_init).
#[local] Abbreviation run2 :=
  (run json_dumps py_str SerializeToString env
     box_decrypt ParseFromString Argument_init).

(** The execution id carried by a frame, when the frame decodes. *)
Definition frame_id (frame : bytes) : option (option string) :=
  match decode_request box_decrypt ParseFromString Argument_init frame with
  | Ok request => Some (Some (workflow_execution_id request))
  | Raise _ => None
  end.

Definition frame_ids (frames : list bytes) : list (option string) :=
  omap frame_id frames.

(** The frames that the clients push during a schedule. *)
Definition enqueued (schedule : list action) : list bytes :=
  omap (fun a => match a with Enqueue frame => Some frame | _ => None end)
    schedule.

(** Every execution id present in the process: on the request queue, in
    the work queue of the pool, held by a thread, or in the registry. *)
Definition ids_in_flight (s : System) : list (option string) :=
  frame_ids (cache (workflow_receiver (worker s)))
  ++ queue_ids (work_queue s)
  ++ pool_ids (pool s)
  ++ registry_ids (workflows (worker s)).

Lemma frame_ids_cons frame frames :
  frame_ids (frame :: frames) =
  match decode_request box_decrypt ParseFromString Argument_init frame with
  | Ok request => Some (workflow_execution_id request) :: frame_ids frames
  | Raise _ => frame_ids frames
  end.
Proof.
  unfold frame_ids, frame_id. csimpl.
  by destruct (decode_request _ _ _ frame).
Qed.

Lemma ids_in_flight_frame s s' :
  cache (workflow_receiver (worker s')) = cache (workflow_receiver (worker s)) ->
  work_queue s' = work_queue s ->
  pool_ids (pool s') = pool_ids (pool s) ->
  workflows (worker s') = workflows (worker s) ->
  ids_in_flight s' = ids_in_flight s.
Proof. unfold ids_in_flight. by intros -> -> -> ->. Qed.

Lemma receive_workflows_iteration_ids s :
  ids_in_flight
    (receive_workflows_iteration box_decrypt ParseFromString Argument_init s)
  ≡ₚ ids_in_flight s.
Proof.
  unfold receive_workflows_iteration.
  destruct (__is_pool_at_capacity (worker s)); [done|].
  unfold receive_workflows_next.
  destruct (finished (workflow_receiver (worker s))); [done|].
  destruct (exit (workflow_receiver (worker s))); [done|].
  destruct (rpop (cache (workflow_receiver (worker s))))
    as [[frame|] queue] eqn:Hpop.
  - apply rpop_Some in Hpop.
    assert (Hids : frame_ids (cache (workflow_receiver (worker s)))
                   ≡ₚ frame_ids (frame :: queue)).
    { unfold frame_ids. by rewrite Hpop. }
    unfold ids_in_flight at 2. rewrite Hids, frame_ids_cons.
    destruct (decode_request _ _ _ frame) as [request|e] eqn:Hdec.
    + unfold ids_in_flight, submit, queue_ids.
      cbn [worker work_queue pool set_worker set_work_queue
             set_workflow_receiver workflow_receiver workflows cache set_cache].
      rewrite fmap_app. cbn [fmap list_fmap]. solve_Permutation.
    + done.
  - apply rpop_None in Hpop. subst queue. done.
Qed.

Lemma step_ids a s s' :
  step2 a s = Some s' ->
  ids_in_flight s' ⊆+ frame_ids (enqueued [a]) ++ ids_in_flight s.
Proof.
  intros Hstep.
  destruct a as [frame| |t|t|t|t|t|t|t|message|t sender kw]; cbn in Hstep.
  - (* Enqueue *)
    injection Hstep as <-. unfold ids_in_flight, enqueued. cbn.
    by destruct (frame_id frame).
  - (* Scheduler *)
    destruct (_ && _); [|done]. injection Hstep as <-. cbn.
    by rewrite receive_workflows_iteration_ids.
  - (* Spawn *)
    case_decide as Hspawn; [|done]. injection Hstep as <-.
    destruct Hspawn as [Hfresh _].
    unfold ids_in_flight. sys_simpl.
    rewrite set_fresh by done. unfold pool_ids.
    rewrite bind_app. cbn. by rewrite !app_nil_r.
  - (* Take *)
    destruct (PyDict.get t (pool s)) as [[]|] eqn:Hget; try done.
    destruct (work_queue s) as [|request rest] eqn:Hqueue; [done|].
    injection Hstep as <-.
    destruct (pool_ids_set t (Loading request) _ _ Hget)
      as (l1 & l2 & Hp & Hset).
    unfold ids_in_flight. sys_simpl. rewrite Hqueue, Hp, Hset. cbn.
    apply Permutation_submseteq. solve_Permutation.
  - (* Load *)
    destruct (PyDict.get t (pool s)) as [[|request| | |]|] eqn:Hget; try done.
    destruct (load_workflow _ request) as [w|e] eqn:Hload;
      injection Hstep as <-.
    + destruct (pool_ids_set t (Binding request w) _ _ Hget)
        as (l1 & l2 & Hp & Hset).
      unfold ids_in_flight. sys_simpl. rewrite Hp, Hset. cbn.
      by rewrite (load_workflow_execution_id _ _ _ Hload).
    + destruct (pool_ids_set t Idle _ _ Hget) as (l1 & l2 & Hp & Hset).
      unfold ids_in_flight. sys_simpl. rewrite Hp, Hset. cbn.
      solve_submseteq.
  - (* DoBind *)
    destruct (PyDict.get t (pool s)) as [[| |request w| |]|] eqn:Hget; try done.
    injection Hstep as <-.
    destruct (pool_ids_set t Executing _ _ Hget) as (l1 & l2 & Hp & Hset).
    unfold ids_in_flight. sys_simpl. rewrite Hp, Hset. cbn.
    etrans; [apply ids_mono, registry_ids_set|].
    apply Permutation_submseteq. solve_Permutation.
  - (* ExecuteReturns *)
    destruct (PyDict.get t (pool s)) as [[]|] eqn:Hget; try done.
    injection Hstep as <-.
    destruct (pool_ids_set t Releasing _ _ Hget) as (l1 & l2 & Hp & Hset).
    unfold ids_in_flight. sys_simpl. by rewrite Hp, Hset.
  - (* ExecuteRaises *)
    destruct (PyDict.get t (pool s)) as [[]|] eqn:Hget; try done.
    injection Hstep as <-.
    destruct (pool_ids_set t Idle _ _ Hget) as (l1 & l2 & Hp & Hset).
    unfold ids_in_flight. sys_simpl. by rewrite Hp, Hset.
  - (* DoRelease *)
    destruct (PyDict.get t (pool s)) as [[]|] eqn:Hget; try done.
    injection Hstep as <-.
    destruct (pool_ids_set t Idle _ _ Hget) as (l1 & l2 & Hp & Hset).
    unfold ids_in_flight. sys_simpl.
    rewrite registry_release_receiver, Hp, Hset. cbn.
    destruct (registry_release_workflows t (worker s)) as [-> | ->]; [done|].
    apply ids_mono, registry_ids_remove.
  - (* Control *)
    injection Hstep as <-. cbn.
    destruct (control_frame message (worker s)) as (Hw & _ & _ & Hr).
    rewrite (ids_in_flight_frame s); [done | | done | done | done].
    cbn. by rewrite Hr.
  - (* Signal *)
    injection Hstep as <-. cbn.
    destruct (on_data_sent_frame json_dumps py_str SerializeToString env
                t sender kw (worker s)) as (Hw & _ & _ & Hr).
    rewrite (ids_in_flight_frame s); [done | | done | done | done].
    cbn. by rewrite Hr.
Qed.

Lemma run_ids schedule s s' :
  run2 schedule s = Some s' ->
  ids_in_flight s' ⊆+ frame_ids (enqueued schedule) ++ ids_in_flight s.
Proof.
  revert s. induction schedule as [|a schedule IH]; intros s; cbn [run].
  - by intros [= <-].
  - destruct (step2 a s) as [s1|] eqn:Hstep; [|done].
    intros Hrun. etrans; [by apply IH|].
    etrans; [apply submseteq_skips_l, step_ids, Hstep|].
    change (a :: schedule) with ([a] ++ schedule).
    unfold enqueued, frame_ids. rewrite !omap_app.
    apply Permutation_submseteq. solve_Permutation.
Qed.

Lemma registry_ids_in_flight s :
  registry_ids (workflows (worker s)) ⊆+ ids_in_flight s.
Proof.
  unfold ids_in_flight. by do 3 apply submseteq_inserts_l.
Qed.

(** Whether the execution id of a frame is fresh in [s]: nothing in the
    process carries it. A frame that does not decode carries no id. *)
Definition fresh (frame : bytes) (s : System) : bool :=
  match frame_id frame with
  | Some id => bool_decide (id ∉ ids_in_flight s)
  | None => true
  end.

(** Whether every frame that the clients push during a schedule is fresh
    at the moment it is pushed. *)
Fixpoint enqueues_fresh_ids (schedule : list action) (s : System) : bool :=
  match schedule with
  | [] => true
  | a :: schedule' =>
      match a with Enqueue frame => fresh frame s | _ => true end
      && match step2 a s with
         | Some s' => enqueues_fresh_ids schedule' s'
         | None => true
         end
  end.

Lemma frame_ids_enqueue frame :
  frame_ids (enqueued [Enqueue frame])
  = match frame_id frame with Some id => [id] | None => [] end.
Proof. unfold frame_ids, enqueued. cbn. by destruct (frame_id frame). Qed.

Lemma step_fresh a s s' :
  NoDup (ids_in_flight s) ->
  match a with Enqueue frame => fresh frame s | _ => true end = true ->
  step2 a s = Some s' ->
  NoDup (ids_in_flight s').
Proof.
  intros Hnd Hfresh Hstep.
  eapply submseteq_NoDup; [by apply step_ids|].
  destruct a as [frame| | | | | | | | | |]; try done.
  rewrite frame_ids_enqueue. unfold fresh in Hfresh.
  destruct (frame_id frame) as [id|]; [|done].
  apply bool_decide_eq_true in Hfresh. by apply NoDup_cons.
Qed.

Lemma run_fresh schedule s s' :
  NoDup (ids_in_flight s) ->
  enqueues_fresh_ids schedule s = true ->
  run2 schedule s = Some s' ->
  NoDup (ids_in_flight s').
Proof.
  revert s.
  induction schedule as [|a schedule IH]; intros s Hnd;
    cbn [run enqueues_fresh_ids].
  - by intros _ [= <-].
  - intros [Hfresh Hrest]%andb_true_iff.
    destruct (step2 a s) as [s1|] eqn:Hstep; [|done].
    apply IH; [|done]. by eapply step_fresh.
Qed.

(** Frames that carry pairwise distinct execution ids are fresh when they
    are pushed, whatever the schedule. *)
Lemma distinct_frames_are_fresh schedule s s' :
  NoDup (frame_ids (enqueued schedule) ++ ids_in_flight s) ->
  run2 schedule s = Some s' ->
  enqueues_fresh_ids schedule s = true.
Proof.
  revert s.
  induction schedule as [|a schedule IH]; intros s;
    cbn [run enqueues_fresh_ids]; [done|].
  intros Hnd. destruct (step2 a s) as [s1|] eqn:Hstep; [|done].
  intros Hrun. apply andb_true_iff.
  assert (Hsplit : frame_ids (enqueued (a :: schedule))
                   = frame_ids (enqueued [a]) ++ frame_ids (enqueued schedule)).
  { change (a :: schedule) with ([a] ++ schedule).
    unfold enqueued, frame_ids. by rewrite !omap_app. }
  rewrite Hsplit in Hnd. split.
  - destruct a as [frame| | | | | | | | | |]; try done.
    rewrite frame_ids_enqueue in Hnd. unfold fresh.
    destruct (frame_id frame) as [id|]; [|done].
    apply bool_decide_eq_true. cbn in Hnd.
    apply NoDup_cons in Hnd as [Hnotin _].
    intros Hin. apply Hnotin, elem_of_app. by right.
  - apply IH; [|done].
    eapply submseteq_NoDup; [|exact Hnd].
    etrans; [apply submseteq_skips_l, step_ids, Hstep|].
    apply Permutation_submseteq. solve_Permutation.
Qed.

End uniqueness_facts.

(** Two frames carrying the same execution id, and a schedule that binds
    both requests. *)
Definition duplicate_frames : list bytes :=
  [Sample.sealed Byte.x61 "e1"; Sample.sealed Byte.x61 "e1"].

Definition duplicate_schedule : list action :=
  [Scheduler; Scheduler; Spawn "t1"; Spawn "t2"; Take "t1"; Take "t2";
   Load "t1"; Load "t2"; DoBind "t1"; DoBind "t2"].

(** C7, as stated, fails: nothing in the worker compares execution ids,
    so two requests that carry the same execution id are bound side by
    side. *)
Lemma exec_ids_unique_counterexample :
  exists s,
    sample_run duplicate_schedule (init 2 Sample.db duplicate_frames) = Some s
    /\ ~ exec_ids_unique (worker s).
Proof.
  eexists. split; [vm_compute; reflexivity|].
  intros Hnd. vm_compute in Hnd.
  apply NoDup_cons in Hnd as [Hnotin _]. apply Hnotin, list_elem_of_here.
Qed.

(** C7, amended. Provided that the frames waiting on the request queue at
    the start carry pairwise distinct execution ids, and that every frame
    pushed later carries an execution id that nothing in the process
    carries at that moment (no frame on the request queue, no submitted
    request, no pool thread, no registry entry), at every point of every
    schedule no two entries of the registry share a
    [workflow_execution_id]. An execution id may come back once it has
    left the process, as when a paused workflow is resumed after its
    entry was released. The worker itself never compares execution ids:
    it only never duplicates one. *)
Theorem exec_ids_unique_when_enqueued_ids_are_fresh `{!data_pb2}
    (json_dumps : pyval -> res string) (py_str : pyval -> string)
    (SerializeToString : Message -> bytes) (env : Collaborators)
    (box_decrypt : bytes -> res bytes)
    (ParseFromString : bytes -> res ExecuteWorkflowMessage)
    (Argument_init : ArgumentProto -> res Argument)
    (capacity : nat) (db : ExecutionDatabase) (queue : list bytes)
    (schedule : list action) (s : System) :
  NoDup (frame_ids box_decrypt ParseFromString Argument_init queue) ->
  enqueues_fresh_ids json_dumps py_str SerializeToString env
    box_decrypt ParseFromString Argument_init
    schedule (init capacity db queue) = true ->
  run json_dumps py_str SerializeToString env
    box_decrypt ParseFromString Argument_init
    schedule (init capacity db queue) = Some s ->
  exec_ids_unique (worker s).
Proof.
  intros Hdistinct Hfresh Hrun. unfold exec_ids_unique.
  eapply submseteq_NoDup; [apply registry_ids_in_flight|].
  eapply run_fresh; [|exact Hfresh|exact Hrun].
  unfold ids_in_flight, init. cbn. by rewrite app_nil_r.
Qed.

(** A parser that also reads the resume flag: a payload that starts with
    the byte 52 is a request to resume. *)
Definition ParseFromString_with_resume (payload : bytes)
  : res ExecuteWorkflowMessage :=
  match payload with
  | Byte.x52 :: rest =>
      (fun m =>
         {| em_workflow_id := em_workflow_id m;
            em_workflow_execution_id := em_workflow_execution_id m;
            em_start := em_start m;
            em_arguments := em_arguments m;
            em_resume := true |}) <$> Sample.ParseFromString rest
  | _ => Sample.ParseFromString payload
  end.

Definition resume_frame (wf : Byte.byte) (id : string) : bytes :=
  Byte.x01 :: Byte.x52 :: wf :: String.list_byte_of_string id.

(** Execution [e1] of workflow [a] runs, is paused and released; the
    client then asks to resume it, and the request is bound again. *)
Definition pause_and_resume_schedule : list action :=
  [Scheduler; Spawn "t1"; Take "t1"; Load "t1"; DoBind "t1";
   Signal "t1" (SenderWorkflow Sample.workflow_a)
     (sample_kwargs WorkflowPaused None);
   ExecuteReturns "t1"; DoRelease "t1";
   Enqueue (resume_frame Byte.x61 "e1");
   Scheduler; Take "t1"; Load "t1"; DoBind "t1"].

Lemma exec_ids_unique_when_enqueued_ids_are_fresh_witness :
  exists s,
    run Sample.json_dumps Sample.py_str Sample.SerializeToString
      Sample.reliable Sample.box_decrypt ParseFromString_with_resume
      Sample.Argument_init pause_and_resume_schedule
      (init 1 Sample.db [Sample.sealed Byte.x61 "e1"]) = Some s
    /\ frame_ids Sample.box_decrypt ParseFromString_with_resume
         Sample.Argument_init
         (enqueued pause_and_resume_schedule ++ [Sample.sealed Byte.x61 "e1"])
       = [Some "e1"; Some "e1"]
    /\ registry_ids (workflows (worker s)) = [Some "e1"]
    /\ exec_ids_unique (worker s).
Proof.
  destruct (run Sample.json_dumps Sample.py_str Sample.SerializeToString
              Sample.reliable Sample.box_decrypt ParseFromString_with_resume
              Sample.Argument_init pause_and_resume_schedule
              (init 1 Sample.db [Sample.sealed Byte.x61 "e1"]))
    as [s|] eqn:Hrun; [|vm_compute in Hrun; discriminate Hrun].
  exists s. split_and!; [reflexivity | reflexivity | |].
  - vm_compute in Hrun. injection Hrun as <-. reflexivity.
  - refine (exec_ids_unique_when_enqueued_ids_are_fresh _ _ _ _ _ _ _ 1
              Sample.db [Sample.sealed Byte.x61 "e1"]
              pause_and_resume_schedule s _ _ Hrun).
    + apply (bool_decide_unpack _). vm_compute. exact I.
    + vm_compute. reflexivity.
Defined.

(** * Further properties of the module *)

(** ** [convert_to_protobuf]: what a converted message holds *)

(** Running a call that returns or raises. *)
Ltac res_simpl :=
  unfold mbind, mret, fmap, res_bind, res_ret, res_fmap, subscript in *;
  cbn beta iota in *.

(** Closing a case on the event of a signal by what is known of it. *)
Ltac event_cases :=
  repeat match goal with
         | H : kw_event ?k = _ |- _ => rewrite H in *
         | H : _ ∈ _ :: _ |- _ => apply elem_of_cons in H as [H|H]
         | H : _ ∈ [] |- _ => by apply elem_of_nil in H
         end;
  try done; try congruence;
  try (exfalso;
       match goal with
       | H : ?x ∉ _, E : ?x = _ |- _ => apply H; rewrite E; by repeat constructor
       end).

(** [add_workflow_to_proto] applied to an unset descriptor. *)
Definition workflow_descriptor (w : Workflow) : WorkflowSender :=
  {| ws_name := Some (wf_name w);
     ws_id := Some (wf_id w);
     ws_execution_id := Some (str_opt (get_execution_id w)) |}.

Section conversion_facts.

Variable json_dumps : pyval -> res string.
Variable py_str : pyval -> string.

Lemma add_arguments_loop_keeps_sender action_packet args ap' :
  add_arguments_loop json_dumps py_str action_packet args = Ok ap' ->
  let s := ap_sender action_packet in
  let s' := ap_sender ap' in
  as_name s' = as_name s /\ as_id s' = as_id s
  /\ as_execution_id s' = as_execution_id s
  /\ as_app_name s' = as_app_name s /\ as_action_name s' = as_action_name s
  /\ as_device_id s' = as_device_id s
  /\ ap_workflow ap' = ap_workflow action_packet
  /\ ap_additional_data ap' = ap_additional_data action_packet.
Proof.
  revert action_packet.
  induction args as [|a args IH]; intros action_packet; cbn [add_arguments_loop].
  - by intros [= <-].
  - destruct (add_argument json_dumps py_str a) as [arg|e]; res_simpl; [|done].
    intros Hloop. apply IH in Hloop. exact Hloop.
Qed.

End conversion_facts.

(** X1. A converted message carries the member name of its event, and its
    type follows the event: workflow events give a workflow packet,
    [ConsoleLog] a log message, [SendMessage] a user message, every other
    action event an action packet, branch, condition, transform and
    conditional-expression events a general packet. An event of any other
    type is converted to a message that holds the event name and nothing
    else. *)
Theorem convert_to_message_type_follows_event `{!data_pb2}
    (json_dumps : pyval -> res string) (py_str : pyval -> string)
    (sender : Sender) (workflow : Workflow) (kw : kwargs) (packet : Message) :
  convert_to_message json_dumps py_str sender workflow kw = Ok packet ->
  let event := kw_event kw in
  msg_event_name packet = Some (event_name event)
  /\ (event_type event = EventType.workflow ->
      msg_type packet = Some WORKFLOWPACKET)
  /\ (event = ConsoleLog -> msg_type packet = Some LOGMESSAGE)
  /\ (event = SendMessage -> msg_type packet = Some USERMESSAGE)
  /\ (event_type event = EventType.action ->
      event <> ConsoleLog -> event <> SendMessage ->
      msg_type packet = Some ACTIONPACKET)
  /\ (event_type event ∈ [EventType.branch; EventType.condition;
                          EventType.transform;
                          EventType.conditonalexpression] ->
      msg_type packet = Some GENERALPACKET)
  /\ (event_type event = EventType.controller ->
      packet = set_event_name (event_name event) new_Message).
Proof.
  intros Hconv event. subst event. unfold convert_to_message in Hconv.
  repeat case_decide;
    unfold convert_workflow_to_proto, convert_log_message_to_protobuf,
      convert_send_message_to_protobuf, convert_action_to_proto,
      convert_branch_transform_condition_to_proto in Hconv;
    res_simpl;
    repeat match type of Hconv with
           | match ?x with _ => _ end = _ => destruct x; try done
           end;
    injection Hconv as <-;
    split_and!; intros; event_cases.
Qed.

Lemma convert_to_message_type_follows_event_witness :
  msg_type <$>
    convert_to_message Sample.json_dumps Sample.py_str
      (SenderAction Sample.an_action) Sample.workflow_a
      {| kw_event := ConsoleLog; kw_data := None;
         kw_level := Some (PyInt 20); kw_message := Some "started";
         kw_users := None; kw_roles := None; kw_requires_reauth := None |}
  = Ok (Some LOGMESSAGE).
Proof.
  destruct (convert_to_message Sample.json_dumps Sample.py_str
              (SenderAction Sample.an_action) Sample.workflow_a
              {| kw_event := ConsoleLog; kw_data := None;
                 kw_level := Some (PyInt 20); kw_message := Some "started";
                 kw_users := None; kw_roles := None;
                 kw_requires_reauth := None |}) as [packet|e] eqn:Hconv;
    [|vm_compute in Hconv; discriminate Hconv].
  destruct (convert_to_message_type_follows_event _ _ _ _ _ _ Hconv)
    as (_ & _ & Hlog & _).
  cbn. f_equal. apply Hlog. reflexivity.
Defined.

(** X2. Whatever its type, a converted message names the workflow it
    belongs to: the workflow descriptor of its packet holds the name, the
    id and the execution id of the workflow (the text [None] when the
    workflow has no execution id yet). *)
Theorem convert_to_message_names_the_workflow `{!data_pb2}
    (json_dumps : pyval -> res string) (py_str : pyval -> string)
    (sender : Sender) (workflow : Workflow) (kw : kwargs) (packet : Message) :
  convert_to_message json_dumps py_str sender workflow kw = Ok packet ->
  match msg_type packet with
  | Some WORKFLOWPACKET =>
      wp_sender (workflow_packet packet) = workflow_descriptor workflow
  | Some ACTIONPACKET =>
      ap_workflow (action_packet packet) = workflow_descriptor workflow
  | Some USERMESSAGE =>
      mp_workflow (message_packet packet) = workflow_descriptor workflow
  | Some LOGMESSAGE =>
      lp_workflow (logging_packet packet) = workflow_descriptor workflow
  | Some GENERALPACKET =>
      gp_workflow (general_packet packet) = workflow_descriptor workflow
  | None => packet = set_event_name (event_name (kw_event kw)) new_Message
  end.
Proof.
  intros Hconv. unfold convert_to_message in Hconv.
  repeat case_decide;
    unfold convert_workflow_to_proto, convert_log_message_to_protobuf,
      convert_send_message_to_protobuf, convert_action_to_proto,
      convert_branch_transform_condition_to_proto in Hconv;
    res_simpl;
    repeat match type of Hconv with
           | match ?x with _ => _ end = _ => destruct x; try done
           end;
    by injection Hconv as <-.
Qed.

Lemma convert_to_message_names_the_workflow_witness :
  (wp_sender ∘ workflow_packet) <$>
    convert_to_message Sample.json_dumps Sample.py_str
      (SenderWorkflow Sample.workflow_a) Sample.workflow_a
      (sample_kwargs WorkflowExecutionStart None)
  = Ok {| ws_name := Some "wf-a"; ws_id := Some "a";
          ws_execution_id := Some "None" |}.
Proof.
  destruct (convert_to_message Sample.json_dumps Sample.py_str
              (SenderWorkflow Sample.workflow_a) Sample.workflow_a
              (sample_kwargs WorkflowExecutionStart None))
    as [packet|e] eqn:Hconv; [|vm_compute in Hconv; discriminate Hconv].
  pose proof (convert_to_message_names_the_workflow _ _ _ _ _ _ Hconv) as Hwf.
  assert (Htype : msg_type packet = Some WORKFLOWPACKET).
  { vm_compute in Hconv. by injection Hconv as <-. }
  rewrite Htype in Hwf. cbn. by rewrite Hwf.
Defined.

Lemma add_arguments_loop_length
    (json_dumps : pyval -> res string) (py_str : pyval -> string)
    action_packet args ap' :
  add_arguments_loop json_dumps py_str action_packet args = Ok ap' ->
  length (as_arguments (ap_sender ap'))
  = length (as_arguments (ap_sender action_packet)) + length args.
Proof.
  revert action_packet.
  induction args as [|a args IH]; intros action_packet; cbn [add_arguments_loop].
  - intros [= <-]. cbn. lia.
  - destruct (add_argument json_dumps py_str a) as [arg|e]; res_simpl; [|done].
    intros Hloop. apply IH in Hloop. rewrite Hloop. cbn.
    rewrite length_app. cbn. lia.
Qed.

(** X3. The packet of an action event describes the action that sent it.
    The device id written is the action's, or -1 when the action has
    none. When the conversion succeeds, that number is in the range of
    the [device_id] field, the name, id, execution id, app and action name
    of the packet are those of the action, and there is one wire argument
    per argument of the action. When the number is out of the field's
    range, the assignment raises: once [json.dumps] has accepted the
    data, the conversion ends in [ValueError] and no packet is built. *)
Theorem action_packet_describes_its_sender `{!data_pb2}
    (json_dumps : pyval -> res string) (py_str : pyval -> string)
    (sender : Action) (workflow : Workflow) (kw : kwargs) :
  event_type (kw_event kw) = EventType.action ->
  kw_event kw <> ConsoleLog -> kw_event kw <> SendMessage ->
  let device_id := default (-1)%Z (act_device_id sender) in
  let result :=
    convert_to_message json_dumps py_str (SenderAction sender) workflow kw in
  (forall packet,
     result = Ok packet ->
     let s := ap_sender (action_packet packet) in
     in_range device_id_type device_id = true
     /\ as_name s = Some (act_name sender)
     /\ as_id s = Some (act_id sender)
     /\ as_execution_id s = Some (act_execution_id sender)
     /\ as_app_name s = Some (act_app_name sender)
     /\ as_action_name s = Some (act_action_name sender)
     /\ as_device_id s = Some device_id
     /\ length (as_arguments s) = length (arguments sender))
  /\ (forall text,
        json_dumps (data_of kw) = Ok text ->
        in_range device_id_type device_id = false ->
        result = Raise ValueError).
Proof.
  intros Hact Hlog Hsend device_id result. subst device_id result.
  unfold convert_to_message.
  rewrite decide_False, decide_True, !decide_False by congruence.
  unfold convert_action_to_proto, add_arguments_to_action_proto,
    add_sender_to_action_packet_proto, set_int.
  res_simpl. cbn [as_action].
  replace (match act_device_id sender with Some d => d | None => (-1)%Z end)
    with (default (-1)%Z (act_device_id sender))
    by by destruct (act_device_id sender).
  split.
  - intros packet Hconv.
    destruct (json_dumps _) as [text|e1]; [|done]. cbn in Hconv.
    destruct (in_range _ _); [|done]. cbn in Hconv.
    destruct (add_arguments_loop json_dumps py_str _ (arguments sender))
      as [ap'|e2] eqn:Hloop; [|done].
    injection Hconv as <-. cbn.
    pose proof (add_arguments_loop_length _ _ _ _ _ Hloop) as Hlen.
    apply add_arguments_loop_keeps_sender in Hloop
      as (Hn & Hi & He & Ha & Hc & Hd & _).
    cbn in *. rewrite Hn, Hi, He, Ha, Hc, Hd, Hlen.
    by split_and!.
  - intros text Hjson Hrange. cbn [is_not_None]. rewrite Hjson.
    cbn [action_packet new_Message set_type set_event_name ap_sender
           ap_workflow]. by rewrite Hrange.
Qed.

(** An action on a device whose id does not fit 32 bits. *)
Definition action_on_a_far_device : Action :=
  {| act_name := "act"; act_id := "n1"; act_execution_id := "x1";
     act_app_name := "app"; act_action_name := "run";
     act_device_id := Some (2 ^ 31)%Z; arguments := [] |}.

Lemma action_packet_describes_its_sender_witness :
  ((as_device_id ∘ ap_sender ∘ action_packet) <$>
     convert_to_message Sample.json_dumps Sample.py_str
       (SenderAction Sample.an_action) Sample.workflow_a
       (sample_kwargs ActionStarted None)
   = Ok (Some (-1)%Z))
  /\ convert_to_message Sample.json_dumps Sample.py_str
       (SenderAction action_on_a_far_device) Sample.workflow_a
       (sample_kwargs ActionStarted None)
     = Raise ValueError.
Proof.
  split.
  - destruct (convert_to_message Sample.json_dumps Sample.py_str
                (SenderAction Sample.an_action) Sample.workflow_a
                (sample_kwargs ActionStarted None))
      as [packet|e] eqn:Hconv; [|vm_compute in Hconv; discriminate Hconv].
    destruct (action_packet_describes_its_sender
                Sample.json_dumps Sample.py_str Sample.an_action
                Sample.workflow_a (sample_kwargs ActionStarted None))
      as [Hok _]; [reflexivity | discriminate | discriminate |].
    destruct (Hok packet Hconv) as (_ & _ & _ & _ & _ & _ & Hdev & _).
    cbn. by rewrite Hdev.
  - destruct (action_packet_describes_its_sender
                Sample.json_dumps Sample.py_str action_on_a_far_device
                Sample.workflow_a (sample_kwargs ActionStarted None))
      as [_ Hout]; [reflexivity | discriminate | discriminate |].
    apply (Hout "null"); reflexivity.
Defined.

(** X4. For a workflow event the conversion depends on the workflow and
    the data only, not on the sender of the signal; it succeeds exactly
    when [json.dumps] accepts the data, and then the packet carries the
    JSON text of the data. *)
Theorem workflow_event_packet_ignores_sender `{!data_pb2}
    (json_dumps : pyval -> res string) (py_str : pyval -> string)
    (sender sender' : Sender) (workflow : Workflow) (kw : kwargs) :
  event_type (kw_event kw) = EventType.workflow ->
  convert_to_message json_dumps py_str sender workflow kw
  = convert_to_message json_dumps py_str sender' workflow kw
  /\ match json_dumps (data_of kw) with
     | Ok text =>
         exists packet,
           convert_to_message json_dumps py_str sender workflow kw = Ok packet
           /\ wp_additional_data (workflow_packet packet) = Some text
     | Raise e =>
         convert_to_message json_dumps py_str sender workflow kw = Raise e
     end.
Proof.
  intros Hwf. unfold convert_to_message. rewrite !decide_True by done.
  split; [done|]. unfold convert_workflow_to_proto. res_simpl.
  destruct (json_dumps (data_of kw)) as [text|e]; cbn; [|done].
  by eexists.
Qed.

Lemma workflow_event_packet_ignores_sender_witness :
  convert_to_message Sample.json_dumps Sample.py_str
    (SenderWorkflow Sample.workflow_a) Sample.workflow_a
    (sample_kwargs WorkflowExecutionStart (Some (PyInt 3)))
  = convert_to_message Sample.json_dumps Sample.py_str
      (SenderAction Sample.an_action) Sample.workflow_a
      (sample_kwargs WorkflowExecutionStart (Some (PyInt 3))).
Proof.
  apply (workflow_event_packet_ignores_sender Sample.json_dumps Sample.py_str
           (SenderWorkflow Sample.workflow_a) (SenderAction Sample.an_action)
           Sample.workflow_a
           (sample_kwargs WorkflowExecutionStart (Some (PyInt 3)))).
  reflexivity.
Defined.

(** X5. The packet of a [SendMessage] event. A message without a body
    raises [KeyError], and a failure of [json.dumps] on the body
    propagates. Otherwise the users and the roles passed with the signal
    are appended to integer fields: when all of them are in the range of
    their field, the packet holds the message's subject or the empty
    string, the JSON text of the body, and the users, the roles and the
    re-authentication flag exactly when they were passed; when one of
    them is out of range, the conversion ends in [ValueError]. *)
Theorem send_message_packet_defaults `{!data_pb2}
    (json_dumps : pyval -> res string) (py_str : pyval -> string)
    (message : UserMessage) (workflow : Workflow) (kw : kwargs) :
  kw_event kw = SendMessage ->
  let users := default [] (kw_users kw) in
  let roles := default [] (kw_roles kw) in
  let result :=
    convert_to_message json_dumps py_str (SenderMessage message) workflow kw in
  (um_body message = None -> result = Raise KeyError)
  /\ (forall body e,
        um_body message = Some body -> json_dumps body = Raise e ->
        result = Raise e)
  /\ (forall body text,
        um_body message = Some body -> json_dumps body = Ok text ->
        forallb (in_range users_type) users = true ->
        forallb (in_range roles_type) roles = true ->
        exists packet,
          result = Ok packet
          /\ mp_subject (message_packet packet)
             = Some (default "" (um_subject message))
          /\ mp_body (message_packet packet) = Some text
          /\ mp_users (message_packet packet) = users
          /\ mp_roles (message_packet packet) = roles
          /\ mp_requires_reauth (message_packet packet)
             = kw_requires_reauth kw)
  /\ (forall body text,
        um_body message = Some body -> json_dumps body = Ok text ->
        forallb (in_range users_type) users = false
        \/ forallb (in_range roles_type) roles = false ->
        result = Raise ValueError).
Proof.
  intros Hevent users roles result. subst users roles result.
  unfold convert_to_message.
  rewrite Hevent. cbn [event_type SendMessage].
  rewrite decide_False, decide_True, decide_False, decide_True by done.
  unfold convert_send_message_to_protobuf, extend. res_simpl.
  split_and!.
  - by intros ->.
  - intros body e -> Hjson. by rewrite Hjson.
  - intros body text -> Hjson Husers Hroles. rewrite Hjson.
    destruct (kw_users kw) as [users|], (kw_roles kw) as [roles|];
      cbn in Husers, Hroles |- *; rewrite ?Husers, ?Hroles;
      (eexists; split; [done|]); cbn;
      split_and!; try done; by destruct (kw_requires_reauth kw).
  - intros body text -> Hjson Hout. rewrite Hjson.
    destruct (kw_users kw) as [users|], (kw_roles kw) as [roles|];
      cbn in Hout |- *; destruct Hout as [Hout|Hout]; try done;
      rewrite ?Hout; try done.
    by destruct (forallb _ users).
Qed.

Lemma send_message_packet_defaults_witness :
  convert_to_message Sample.json_dumps Sample.py_str
    (SenderMessage {| um_subject := Some "hello"; um_body := None |})
    Sample.workflow_a (sample_kwargs SendMessage None)
  = Raise KeyError
  /\ convert_to_message Sample.json_dumps Sample.py_str
       (SenderMessage {| um_subject := None; um_body := Some (PyInt 1) |})
       Sample.workflow_a
       {| kw_event := SendMessage; kw_data := None; kw_level := None;
          kw_message := None; kw_users := Some [1; 2 ^ 31]%Z;
          kw_roles := None; kw_requires_reauth := None |}
     = Raise ValueError.
Proof.
  split.
  - apply (send_message_packet_defaults Sample.json_dumps Sample.py_str
             {| um_subject := Some "hello"; um_body := None |}
             Sample.workflow_a (sample_kwargs SendMessage None));
      reflexivity.
  - refine (proj2 (proj2 (proj2
              (send_message_packet_defaults Sample.json_dumps Sample.py_str
                 {| um_subject := None; um_body := Some (PyInt 1) |}
                 Sample.workflow_a
                 {| kw_event := SendMessage; kw_data := None;
                    kw_level := None; kw_message := None;
                    kw_users := Some [1; 2 ^ 31]%Z;
                    kw_roles := None; kw_requires_reauth := None |}
                 eq_refl))) (PyInt 1) "1" eq_refl eq_refl _).
    left. reflexivity.
Defined.

(** ** [handle_event]: console logs and snapshots *)

(** X6. A [ConsoleLog] event is attributed to the action that the
    workflow is executing, whatever object sent the signal: the outcome
    does not depend on the sender, the case log entry carries the id of
    the executing action, and a signal that lacks the [level] or the
    [message] keyword raises [KeyError] with nothing logged or sent. *)
Theorem console_log_is_attributed_to_the_executing_action `{!data_pb2}
    (json_dumps : pyval -> res string) (py_str : pyval -> string)
    (SerializeToString : Message -> bytes) (env : Collaborators)
    (workflow : Workflow) (sender : Sender) (kw : kwargs)
    (h : WorkflowResultsHandler) :
  kw_event kw = ConsoleLog ->
  let run sender :=
    handle_event json_dumps py_str SerializeToString env workflow sender kw h in
  run sender = run (SenderAction (executing_action workflow))
  /\ (kw_level kw = None \/ kw_message kw = None ->
      run sender = (Raise KeyError, h))
  /\ (forall h',
        run sender = (Ok (), h') ->
        case_logger h'
        = case_logger h
          ++ [(ConsoleLog, act_id (executing_action workflow), kw_data kw)]).
Proof.
  intros Hevent run. subst run. cbv beta.
  rewrite !handle_event_unfold. cbv zeta. unfold effective_sender.
  rewrite Hevent. rewrite !decide_False, !decide_True by (done || by intros Hin; event_cases).
  split_and!; [done | |].
  - intros Hmissing. unfold convert_to_protobuf, convert_to_message.
    rewrite Hevent. cbn [event_type ConsoleLog].
    rewrite decide_False, !decide_True by done.
    unfold convert_log_message_to_protobuf. res_simpl.
    destruct Hmissing as [-> | ->]; [done|]. by destruct (kw_level kw).
  - intros h'. cbn [sender_id].
    destruct (convert_to_protobuf _ _ _ _ _ _); [|done].
    destruct (log_raises env _ _ _); [done|].
    destruct (send_raises env _); [done|]. by intros [= <-].
Qed.

Lemma console_log_is_attributed_to_the_executing_action_witness :
  handle_event Sample.json_dumps Sample.py_str Sample.SerializeToString
    Sample.reliable Sample.workflow_a (SenderWorkflow Sample.workflow_a)
    (sample_kwargs ConsoleLog None) new_handler
  = (Raise KeyError, new_handler).
Proof.
  destruct (console_log_is_attributed_to_the_executing_action
              Sample.json_dumps Sample.py_str Sample.SerializeToString
              Sample.reliable Sample.workflow_a
              (SenderWorkflow Sample.workflow_a)
              (sample_kwargs ConsoleLog None) new_handler eq_refl)
    as (_ & Hmissing & _).
  apply Hmissing. by left.
Defined.

Lemma handle_event_saved_rows `{!data_pb2}
    (json_dumps : pyval -> res string) (py_str : pyval -> string)
    (SerializeToString : Message -> bytes) (env : Collaborators)
    (workflow : Workflow) (sender : Sender) (kw : kwargs)
    (h : WorkflowResultsHandler) :
  let h' :=
    (handle_event json_dumps py_str SerializeToString env
       workflow sender kw h).2 in
  db_workflows (execution_db h') = db_workflows (execution_db h)
  /\ (kw_event kw ∈ [TriggerActionAwaitingData; WorkflowPaused] ->
      commit_raises env (from_workflow workflow) = None ->
      db_saved_workflows (execution_db h')
      = db_saved_workflows (execution_db h) ++ [from_workflow workflow])
  /\ (kw_event kw ∉ [TriggerActionAwaitingData; WorkflowPaused] ->
      db_saved_workflows (execution_db h')
      = db_saved_workflows (execution_db h)).
Proof.
  intros h'. subst h'. split; [apply handle_event_db_workflows|].
  rewrite handle_event_unfold. cbv zeta.
  split.
  - intros Hin Hcommit. rewrite !decide_True, Hcommit by done.
    repeat (case_match; try done).
  - intros Hnotin. rewrite !decide_False by done.
    repeat (case_match; try done).
Qed.

(** X7. [handle_event] never changes the [Workflow] rows of the
    database. It adds a [SavedWorkflow] row exactly for the events
    [TriggerActionAwaitingData] and [WorkflowPaused]: when the commit
    succeeds the snapshot of the workflow is appended, before the event
    is encoded and whether or not the later steps fail; for every other
    event the saved rows are left as they were. *)
Theorem handle_event_snapshots_pausing_events `{!data_pb2}
    (json_dumps : pyval -> res string) (py_str : pyval -> string)
    (SerializeToString : Message -> bytes) (env : Collaborators)
    (workflow : Workflow) (sender : Sender) (kw : kwargs)
    (h : WorkflowResultsHandler) :
  let h' :=
    (handle_event json_dumps py_str SerializeToString env
       workflow sender kw h).2 in
  db_workflows (execution_db h') = db_workflows (execution_db h)
  /\ (kw_event kw ∈ [TriggerActionAwaitingData; WorkflowPaused] ->
      commit_raises env (from_workflow workflow) = None ->
      db_saved_workflows (execution_db h')
      = db_saved_workflows (execution_db h) ++ [from_workflow workflow])
  /\ (kw_event kw ∉ [TriggerActionAwaitingData; WorkflowPaused] ->
      db_saved_workflows (execution_db h')
      = db_saved_workflows (execution_db h)).
Proof. apply handle_event_saved_rows. Qed.

Lemma handle_event_snapshots_pausing_events_witness :
  db_saved_workflows
    (execution_db
       (handle_event Sample.json_dumps Sample.py_str Sample.SerializeToString
          log_fails bound_workflow (SenderWorkflow bound_workflow)
          (sample_kwargs WorkflowPaused None) new_handler).2)
  = [from_workflow bound_workflow].
Proof.
  destruct (handle_event_snapshots_pausing_events
              Sample.json_dumps Sample.py_str Sample.SerializeToString
              log_fails bound_workflow (SenderWorkflow bound_workflow)
              (sample_kwargs WorkflowPaused None) new_handler)
    as (_ & Hsaved & _).
  apply Hsaved; [|reflexivity].
  apply list_elem_of_further, list_elem_of_here.
Defined.

(** ** Pausing and resuming *)

Lemma find_app_None {A} (f : A -> bool) (l : list A) (x : A) :
  List.find f l = None -> f x = true -> List.find f (l ++ [x]) = Some x.
Proof.
  induction l as [|a l IH]; cbn; intros Hfind Hx.
  - by rewrite Hx.
  - destruct (f a); [done|]. by apply IH.
Qed.

(** The request that resumes execution [id] of workflow [wid]. *)
Definition resume_request (wid id : string) : ExecuteRequest :=
  {| workflow_id := wid; workflow_execution_id := id; start := "";
     start_arguments := []; resume := true |}.

(** X8. Pause, then resume. When a pausing event of a workflow has been
    handled and its snapshot committed, and the database held no earlier
    snapshot for that execution id, a later request with [resume] set
    for that execution id loads the workflow row and restores the
    snapshot: the accumulator and the app instances are those of the
    paused workflow, every branch whose id is in the accumulator gets its
    counter from it, and the execution id is set. *)
Theorem resume_restores_the_paused_state `{!data_pb2}
    (json_dumps : pyval -> res string) (py_str : pyval -> string)
    (SerializeToString : Message -> bytes) (env : Collaborators)
    (workflow row : Workflow) (sender : Sender) (kw : kwargs)
    (h : WorkflowResultsHandler) (wid id : string) :
  kw_event kw ∈ [TriggerActionAwaitingData; WorkflowPaused] ->
  commit_raises env (from_workflow workflow) = None ->
  get_execution_id workflow = Some id ->
  query_saved_workflow (execution_db h) id = None ->
  query_workflow (execution_db h) wid = Some row ->
  let h' :=
    (handle_event json_dumps py_str SerializeToString env
       workflow sender kw h).2 in
  exists resumed,
    load_workflow (execution_db h') (resume_request wid id) = Ok resumed
    /\ get_execution_id resumed = Some id
    /\ _accumulator resumed = _accumulator workflow
    /\ _instance_repo resumed = _instance_repo workflow
    /\ branch_counters resumed
       = restore_counters (_accumulator workflow) (branch_counters row)
    /\ wf_id resumed = wf_id row /\ wf_name resumed = wf_name row
    /\ wf_start resumed = wf_start row.
Proof.
  intros Hevent Hcommit Hid Hfresh Hrow h'.
  destruct (handle_event_saved_rows json_dumps py_str
              SerializeToString env workflow sender kw h)
    as (Hrows & Hsaved & _).
  specialize (Hsaved Hevent Hcommit). fold h' in Hrows, Hsaved.
  unfold load_workflow, query_workflow, query_saved_workflow in *.
  cbn [workflow_id workflow_execution_id resume resume_request].
  rewrite Hrows, Hrow, Hsaved.
  rewrite (find_app_None _ _ (from_workflow workflow) Hfresh).
  - eexists. split; [done|]. by cbn.
  - apply bool_decide_eq_true. by cbn.
Qed.

(** A handler whose database holds the row of workflow [a] and no
    snapshot; [paused_workflow] is that workflow in execution [e2] with a
    counter for branch [b1] in its accumulator. *)
Definition paused_workflow : Workflow :=
  {| wf_name := "wf-a"; wf_id := "a"; _execution_id := Some "e2";
     wf_start := "n1"; executing_action := Sample.an_action;
     _accumulator := [("b1", PyInt 3)]; branch_counters := [("b1", PyInt 3)];
     _instance_repo := PyNone |}.

Lemma resume_restores_the_paused_state_witness :
  exists resumed,
    load_workflow
      (execution_db
         (handle_event Sample.json_dumps Sample.py_str
            Sample.SerializeToString Sample.reliable paused_workflow
            (SenderWorkflow paused_workflow)
            (sample_kwargs WorkflowPaused None) new_handler).2)
      (resume_request "a" "e2") = Ok resumed
    /\ _accumulator resumed = [("b1", PyInt 3)].
Proof.
  destruct (resume_restores_the_paused_state
              Sample.json_dumps Sample.py_str Sample.SerializeToString
              Sample.reliable paused_workflow Sample.workflow_a
              (SenderWorkflow paused_workflow)
              (sample_kwargs WorkflowPaused None) new_handler "a" "e2")
    as (resumed & Hload & _ & Hacc & _);
    [apply list_elem_of_further, list_elem_of_here | reflexivity..|].
  exists resumed. split; [exact Hload | exact Hacc].
Defined.

(** X9. A request with [resume] set whose execution id has no snapshot
    in the database makes the dispatch body raise [AttributeError] at
    [saved_state.accumulator], before the registry is touched: nothing is
    bound, executed or released. *)
Theorem execute_workflow_worker_raises_without_snapshot
    (workflow_execute :
       Workflow -> string -> list Argument -> bool -> res exit_path)
    (t : thread_name) (request : ExecuteRequest) (self : Worker) :
  resume request = true ->
  query_saved_workflow (execution_db (workflow_results_sender self))
    (workflow_execution_id request) = None ->
  execute_workflow_worker workflow_execute t request self
  = (Raise AttributeError, self).
Proof.
  intros Hresume Hsaved. unfold execute_workflow_worker, load_workflow.
  py_simpl. rewrite Hresume, Hsaved.
  by destruct (query_workflow _ _).
Qed.

Lemma execute_workflow_worker_raises_without_snapshot_witness :
  execute_workflow_worker execute_aborted "t1" (resume_request "a" "e2")
    new_worker
  = (Raise AttributeError, new_worker).
Proof.
  apply (execute_workflow_worker_raises_without_snapshot
           execute_aborted "t1" (resume_request "a" "e2") new_worker);
    reflexivity.
Defined.

(** ** The scheduler loop *)

Section scheduler_facts.

Variable box_decrypt : bytes -> res bytes.
Variable ParseFromString : bytes -> res ExecuteWorkflowMessage.
Variable Argument_init : ArgumentProto -> res Argument.

#[local] Abbreviation decode3 :=
  (decode_request box_decrypt ParseFromString Argument_init).
#[local] Abbreviation iteration :=
  (receive_workflows_iteration box_decrypt ParseFromString Argument_init).

Lemma rpop_snoc queue frame : rpop (queue ++ [frame]) = (Some frame, queue).
Proof. unfold rpop. by rewrite reverse_snoc, reverse_involutive. Qed.

Lemma rpop_inv queue :
  match rpop queue with
  | (Some frame, queue') => queue = queue' ++ [frame]
  | (None, queue') => queue = [] /\ queue' = []
  end.
Proof.
  unfold rpop. destruct (reverse queue) as [|frame rest] eqn:Hrev.
  - apply (f_equal reverse) in Hrev. rewrite reverse_involutive in Hrev.
    by subst queue.
  - apply (f_equal reverse) in Hrev. rewrite reverse_involutive in Hrev.
    by rewrite Hrev, reverse_cons.
Qed.

(** The frames on the request queue, and the requests waiting in the
    work queue of the pool. *)
Definition request_queue (s : System) : list bytes :=
  cache (workflow_receiver (worker s)).

Lemma iteration_at_capacity s :
  __is_pool_at_capacity (worker s) = true -> iteration s = s.
Proof. intros Hfull. unfold receive_workflows_iteration. by rewrite Hfull. Qed.

Lemma iteration_effect s :
  exists popped submitted,
    request_queue s = request_queue (iteration s) ++ popped
    /\ work_queue (iteration s) = work_queue s ++ submitted
    /\ length submitted <= length popped <= 1
    /\ workflows (worker (iteration s)) = workflows (worker s)
    /\ pool (iteration s) = pool s.
Proof.
  unfold receive_workflows_iteration, request_queue.
  destruct (__is_pool_at_capacity (worker s)).
  { exists [], []. rewrite !app_nil_r. split_and!; try done; cbn; lia. }
  unfold receive_workflows_next.
  destruct (finished (workflow_receiver (worker s))).
  { exists [], []. cbn. rewrite !app_nil_r. split_and!; try done; lia. }
  destruct (exit (workflow_receiver (worker s))).
  { exists [], []. cbn. rewrite !app_nil_r. split_and!; try done; lia. }
  pose proof (rpop_inv (cache (workflow_receiver (worker s)))) as Hpop.
  destruct (rpop (cache (workflow_receiver (worker s)))) as [[frame|] queue].
  - destruct (decode3 frame) as [request|e].
    + exists [frame], [request]. cbn. split_and!; try done; lia.
    + exists [frame], []. cbn. rewrite app_nil_r. split_and!; try done; lia.
  - destruct Hpop as [Hq ->]. exists [], []. cbn.
    rewrite Hq, !app_nil_r. split_and!; try done; lia.
Qed.

End scheduler_facts.

(** X10. Back-pressure of the scheduler loop. One iteration of
    [Worker.receive_workflows] pops at most one frame, from the tail of
    the request queue, and submits at most one request to the pool; it
    never touches the registry. While the registry holds [capacity]
    entries or more, the iteration pops nothing and changes nothing. *)
Theorem scheduler_iteration_pops_at_most_one_frame
    (box_decrypt : bytes -> res bytes)
    (ParseFromString : bytes -> res ExecuteWorkflowMessage)
    (Argument_init : ArgumentProto -> res Argument) (s : System) :
  let s' :=
    receive_workflows_iteration box_decrypt ParseFromString Argument_init s in
  (exists popped submitted,
     request_queue s = request_queue s' ++ popped
     /\ work_queue s' = work_queue s ++ submitted
     /\ length submitted <= length popped <= 1)
  /\ workflows (worker s') = workflows (worker s)
  /\ (capacity (worker s) <= PyDict.len (workflows (worker s)) -> s' = s).
Proof.
  intros s'. subst s'.
  destruct (iteration_effect box_decrypt ParseFromString Argument_init s)
    as (popped & submitted & Hq & Hw & Hlen & Hreg & _).
  split_and!; [by exists popped, submitted | done |].
  intros Hfull. apply iteration_at_capacity.
  unfold __is_pool_at_capacity. by apply bool_decide_eq_true.
Qed.

(** A worker of capacity 1 on which thread [t1] has bound a workflow,
    with three frames waiting. *)
Definition full_system : System :=
  set_worker
    (registry_bind "t1" bound_workflow (worker (init 1 Sample.db three_frames)))
    (init 1 Sample.db three_frames).

Lemma scheduler_iteration_pops_at_most_one_frame_witness :
  receive_workflows_iteration Sample.box_decrypt Sample.ParseFromString
    Sample.Argument_init full_system
  = full_system.
Proof.
  apply (scheduler_iteration_pops_at_most_one_frame
           Sample.box_decrypt Sample.ParseFromString Sample.Argument_init
           full_system).
  cbn. lia.
Defined.

Section admission_facts.

Context `{!data_pb2}.
Variable json_dumps : pyval -> res string.
Variable py_str : pyval -> string.
Variable SerializeToString : Message -> bytes.
Variable env : Collaborators.
Variable box_decrypt : bytes -> res bytes.
Variable ParseFromString : bytes -> res ExecuteWorkflowMessage.
Variable Argument_init : ArgumentProto -> res Argument.

#[local] Abbreviation decode4 :=
  (decode_request box_decrypt ParseFromString Argument_init).
#[local] Abbreviation step4 :=
  (step json_dumps py_str SerializeToString env
     box_decrypt ParseFromString Argument_init).
#[local] Abbreviation run4 :=
  (run json_dumps py_str SerializeToString env
     box_decrypt ParseFromString Argument_init).

(** A state in which the scheduler runs, nothing is bound, and the queue
    will pop [batch] in order. *)
Definition admitting (capacity : nat) (db : ExecutionDatabase)
    (batch : list bytes) (submitted : list ExecuteRequest) : System :=
  set_work_queue submitted (init capacity db (reverse batch)).

Lemma scheduler_admits capacity db frame batch submitted request :
  0 < capacity ->
  decode4 frame = Ok request ->
  step4 Scheduler (admitting capacity db (frame :: batch) submitted)
  = Some (admitting capacity db batch (submitted ++ [request])).
Proof.
  intros Hcap Hdec. cbn [step]. unfold admitting, init. sys_simpl.
  cbn [thread_exit negb andb].
  unfold receive_workflows_iteration, __is_pool_at_capacity. sys_simpl.
  rewrite bool_decide_eq_false_2 by (cbn; lia).
  unfold receive_workflows_next. cbn [finished exit cache].
  by rewrite rpop_reverse_cons, Hdec.
Qed.

Lemma scheduler_admits_all capacity db batch tail requests submitted :
  0 < capacity ->
  Forall2 (fun f r => decode4 f = Ok r) batch requests ->
  run4 (replicate (length batch) Scheduler)
    (admitting capacity db (batch ++ tail) submitted)
  = Some (admitting capacity db tail (submitted ++ requests)).
Proof.
  intros Hcap Hall. revert submitted.
  induction Hall as [|frame request batch requests Hdec _ IH];
    intros submitted.
  - by rewrite app_nil_r.
  - cbn [length replicate run app].
    rewrite (scheduler_admits _ _ _ _ _ _ Hcap Hdec), IH.
    by rewrite <- app_assoc.
Qed.

Lemma scheduler_poisoned capacity db frame batch submitted e :
  0 < capacity ->
  decode4 frame = Raise e ->
  step4 Scheduler (admitting capacity db (frame :: batch) submitted)
  = Some (set_scheduler_dead
            (set_worker
               (set_workflow_receiver (receiver_on batch true)
                  (worker (admitting capacity db batch submitted)))
               (admitting capacity db batch submitted))).
Proof.
  intros Hcap Hdec. cbn [step]. unfold admitting, init. sys_simpl.
  cbn [thread_exit negb andb].
  unfold receive_workflows_iteration, __is_pool_at_capacity. sys_simpl.
  rewrite bool_decide_eq_false_2 by (cbn; lia).
  unfold receive_workflows_next. cbn [finished exit cache].
  by rewrite rpop_reverse_cons, Hdec.
Qed.

Lemma dead_step a s s' :
  scheduler_alive s = false ->
  step4 a s = Some s' ->
  scheduler_alive s' = false
  /\ request_queue s' = enqueued [a] ++ request_queue s
  /\ work_queue s' `suffix_of` work_queue s.
Proof.
  intros Hdead Hstep. unfold request_queue.
  destruct a as [frame| |t|t|t|t|t|t|t|message|t sender kw];
    cbn in Hstep; rewrite ?Hdead in Hstep;
    repeat case_match; simplify_eq; sys_simpl; try done.
  - split_and!; [done..|]. by apply suffix_cons_r.
  - by rewrite registry_release_receiver.
  - by destruct (control_frame message (worker s)) as (_ & _ & _ & ->).
  - by destruct (on_data_sent_frame json_dumps py_str SerializeToString env
                   t sender kw (worker s)) as (_ & _ & _ & ->).
Qed.

Lemma dead_run schedule s s' :
  scheduler_alive s = false ->
  run4 schedule s = Some s' ->
  scheduler_alive s' = false
  /\ request_queue s' = reverse (enqueued schedule) ++ request_queue s
  /\ work_queue s' `suffix_of` work_queue s.
Proof.
  revert s. induction schedule as [|a schedule IH]; intros s Hdead; cbn [run].
  - by intros [= <-].
  - destruct (step4 a s) as [s1|] eqn:Hstep; [|done]. intros Hrun.
    destruct (dead_step _ _ _ Hdead Hstep) as (Hd1 & Hq1 & Hw1).
    destruct (IH _ Hd1 Hrun) as (Hd & Hq & Hw).
    split_and!; [done | | by etrans].
    rewrite Hq, Hq1.
    change (a :: schedule) with ([a] ++ schedule).
    unfold enqueued. rewrite omap_app, reverse_app, <- app_assoc.
    f_equal. f_equal. by destruct a.
Qed.

End admission_facts.

Lemma run_app `{!data_pb2}
    (json_dumps : pyval -> res string) (py_str : pyval -> string)
    (SerializeToString : Message -> bytes) (env : Collaborators)
    (box_decrypt : bytes -> res bytes)
    (ParseFromString : bytes -> res ExecuteWorkflowMessage)
    (Argument_init : ArgumentProto -> res Argument)
    (schedule1 schedule2 : list action) (s : System) :
  run json_dumps py_str SerializeToString env
    box_decrypt ParseFromString Argument_init (schedule1 ++ schedule2) s
  = match run json_dumps py_str SerializeToString env
            box_decrypt ParseFromString Argument_init schedule1 s with
    | Some s1 =>
        run json_dumps py_str SerializeToString env
          box_decrypt ParseFromString Argument_init schedule2 s1
    | None => None
    end.
Proof.
  revert s. induction schedule1 as [|a schedule1 IH]; intros s; cbn; [done|].
  by destruct (step _ _ _ _ _ _ _ a s).
Qed.

(** X11. The capacity check of the scheduler loop counts bound workflows
    only. As long as no pool thread has bound a workflow, every iteration
    admits a request: from a fresh worker of any capacity of at least 1,
    as many iterations as there are frames move the whole batch, in pop
    order, into the work queue of the pool, and the registry is still
    empty. *)
Theorem scheduler_admits_a_whole_batch_before_any_bind `{!data_pb2}
    (json_dumps : pyval -> res string) (py_str : pyval -> string)
    (SerializeToString : Message -> bytes) (env : Collaborators)
    (box_decrypt : bytes -> res bytes)
    (ParseFromString : bytes -> res ExecuteWorkflowMessage)
    (Argument_init : ArgumentProto -> res Argument)
    (capacity : nat) (db : ExecutionDatabase)
    (batch : list bytes) (requests : list ExecuteRequest) :
  0 < capacity ->
  Forall2
    (fun f r =>
       decode_request box_decrypt ParseFromString Argument_init f = Ok r)
    batch requests ->
  exists s,
    run json_dumps py_str SerializeToString env
      box_decrypt ParseFromString Argument_init
      (replicate (length batch) Scheduler)
      (init capacity db (reverse batch)) = Some s
    /\ work_queue s = requests
    /\ request_queue s = []
    /\ workflows (worker s) = PyDict.empty.
Proof.
  intros Hcap Hall.
  pose proof (scheduler_admits_all json_dumps py_str SerializeToString env
                box_decrypt ParseFromString Argument_init
                capacity db batch [] requests [] Hcap Hall) as Hrun.
  rewrite app_nil_r in Hrun.
  eexists. split; [exact Hrun|]. done.
Qed.

Lemma scheduler_admits_a_whole_batch_before_any_bind_witness :
  exists s,
    sample_run [Scheduler; Scheduler; Scheduler]
      (init 1 Sample.db three_frames) = Some s
    /\ length (work_queue s) = 3
    /\ workflows (worker s) = PyDict.empty.
Proof.
  destruct (scheduler_admits_a_whole_batch_before_any_bind
              Sample.json_dumps Sample.py_str Sample.SerializeToString
              Sample.reliable Sample.box_decrypt Sample.ParseFromString
              Sample.Argument_init 1 Sample.db
              [Sample.sealed Byte.x61 "e1"; Sample.sealed Byte.x61 "e2";
               Sample.sealed Byte.x61 "e3"]
              [request_a "e1"; request_a "e2"; request_a "e3"])
    as (s & Hrun & Hqueue & _ & Hreg); [lia | by repeat constructor |].
  exists s. split_and!; [exact Hrun | by rewrite Hqueue | exact Hreg].
Defined.

(** X12. A frame that fails to decode ends the admission for good. The
    exception leaves the loop of [Worker.receive_workflows], which has no
    handler: after the requests of the frames before the bad one have
    been admitted, whatever the pool threads, the communication thread
    and the clients do later, no further request is submitted and the
    frames behind the bad one are never popped; later frames only pile up
    on the queue. *)
Theorem poisoned_frame_ends_admission `{!data_pb2}
    (json_dumps : pyval -> res string) (py_str : pyval -> string)
    (SerializeToString : Message -> bytes) (env : Collaborators)
    (box_decrypt : bytes -> res bytes)
    (ParseFromString : bytes -> res ExecuteWorkflowMessage)
    (Argument_init : ArgumentProto -> res Argument)
    (capacity : nat) (db : ExecutionDatabase)
    (good : list bytes) (bad : bytes) (rest : list bytes)
    (requests : list ExecuteRequest) (e : exn)
    (schedule : list action) (s : System) :
  0 < capacity ->
  Forall2
    (fun f r =>
       decode_request box_decrypt ParseFromString Argument_init f = Ok r)
    good requests ->
  decode_request box_decrypt ParseFromString Argument_init bad = Raise e ->
  run json_dumps py_str SerializeToString env
    box_decrypt ParseFromString Argument_init
    (replicate (S (length good)) Scheduler ++ schedule)
    (init capacity db (reverse (good ++ bad :: rest))) = Some s ->
  scheduler_alive s = false
  /\ (Scheduler ∉ schedule)
  /\ request_queue s = reverse (enqueued schedule) ++ reverse rest
  /\ work_queue s `suffix_of` requests.
Proof.
  intros Hcap Hgood Hbad Hrun.
  rewrite replicate_S_end, <- app_assoc, run_app in Hrun.
  change (init capacity db (reverse (good ++ bad :: rest)))
    with (admitting capacity db (good ++ bad :: rest) []) in Hrun.
  rewrite (scheduler_admits_all json_dumps py_str SerializeToString env
             box_decrypt ParseFromString Argument_init
             capacity db good (bad :: rest) requests [] Hcap Hgood) in Hrun.
  cbn [app run] in Hrun.
  rewrite (scheduler_poisoned json_dumps py_str SerializeToString env
             box_decrypt ParseFromString Argument_init
             capacity db bad rest _ e Hcap Hbad) in Hrun.
  assert (Hnot : Scheduler ∉ schedule).
  { intros (l1 & l2 & ->)%list_elem_of_split. rewrite run_app in Hrun.
    destruct (run _ _ _ _ _ _ _ l1 _) as [s1|] eqn:Hl1; [|done].
    apply dead_run in Hl1 as (Hdead & _); [|done].
    cbn [run step] in Hrun. by rewrite Hdead in Hrun. }
  apply dead_run in Hrun as (Hdead & Hqueue & Hwork); [|done].
  split_and!; done.
Qed.

Lemma poisoned_frame_ends_admission_witness :
  exists s,
    sample_run [Scheduler; Scheduler; Spawn "t1"; Take "t1"; Load "t1";
                Enqueue (Sample.sealed Byte.x61 "e4")]
      (init 2 Sample.db (reverse poisoned_batch)) = Some s
    /\ scheduler_alive s = false
    /\ request_queue s
       = [Sample.sealed Byte.x61 "e4"; Sample.sealed Byte.x61 "e2"].
Proof.
  destruct (sample_run [Scheduler; Scheduler; Spawn "t1"; Take "t1";
                        Load "t1"; Enqueue (Sample.sealed Byte.x61 "e4")]
              (init 2 Sample.db (reverse poisoned_batch)))
    as [s|] eqn:Hrun; [|vm_compute in Hrun; discriminate Hrun].
  destruct (poisoned_frame_ends_admission
              Sample.json_dumps Sample.py_str Sample.SerializeToString
              Sample.reliable Sample.box_decrypt Sample.ParseFromString
              Sample.Argument_init 2 Sample.db
              [Sample.sealed Byte.x61 "e1"] Sample.garbage
              [Sample.sealed Byte.x61 "e2"] [request_a "e1"] CryptoError
              [Spawn "t1"; Take "t1"; Load "t1";
               Enqueue (Sample.sealed Byte.x61 "e4")] s)
    as (Hdead & _ & Hqueue & _);
    [lia | by repeat constructor | reflexivity | exact Hrun |].
  exists s. split_and!; [reflexivity | exact Hdead | exact Hqueue].
Defined.

(** ** The registry while a workflow runs *)

Lemma get_remove_ne {K V} `{EqDecision K} (k k' : K) (d : PyDict.t K V) :
  k <> k' -> PyDict.get k' (PyDict.remove k d) = PyDict.get k' d.
Proof.
  intros Hne. unfold PyDict.remove.
  induction d as [|[k0 v0] d IH]; [done|].
  rewrite filter_cons. cbn [fst PyDict.get].
  destruct (decide (k0 <> k)) as [Hk|Hk]; cbn [PyDict.get].
  - by rewrite IH.
  - apply dec_stable in Hk. subst k0. by rewrite decide_False.
Qed.

(** A thread that is inside [workflow.execute], or between its return
    and the release, has an entry in the registry. *)
Definition running_threads_bound (s : System) : Prop :=
  forall t,
    PyDict.get t (pool s) = Some Executing
    \/ PyDict.get t (pool s) = Some Releasing ->
    is_Some (PyDict.get t (workflows (worker s))).

Lemma running_threads_bound_set_thread t st s :
  (st = Executing \/ st = Releasing ->
   is_Some (PyDict.get t (workflows (worker s)))) ->
  running_threads_bound s ->
  running_threads_bound (set_thread t st s).
Proof.
  intros Hst Hinv t'. unfold set_thread. sys_simpl.
  destruct (decide (t = t')) as [<-|Hne].
  - rewrite get_set_eq. intros [[= ->]|[= ->]]; apply Hst; auto.
  - rewrite get_set_ne by done. apply Hinv.
Qed.

Lemma running_threads_bound_frame s s' :
  pool s' = pool s ->
  workflows (worker s') = workflows (worker s) ->
  running_threads_bound s -> running_threads_bound s'.
Proof. unfold running_threads_bound. by intros -> ->. Qed.

Section running_facts.

Context `{!data_pb2}.
Variable json_dumps : pyval -> res string.
Variable py_str : pyval -> string.
Variable SerializeToString : Message -> bytes.
Variable env : Collaborators.
Variable box_decrypt : bytes -> res bytes.
Variable ParseFromString : bytes -> res ExecuteWorkflowMessage.
Variable Argument_init : ArgumentProto -> res Argument.

#[local] Abbreviation step5 :=
  (step json_dumps py_str SerializeToString env
     box_decrypt ParseFromString Argument_init).
#[local] Abbreviation run5 :=
  (run json_dumps py_str SerializeToString env
     box_decrypt ParseFromString Argument_init).

Lemma step_running_threads_bound a s s' :
  step5 a s = Some s' -> running_threads_bound s -> running_threads_bound s'.
Proof.
  intros Hstep Hinv.
  destruct a as [frame| |t|t|t|t|t|t|t|message|t sender kw]; cbn in Hstep.
  - injection Hstep as <-. by eapply (running_threads_bound_frame s).
  - destruct (_ && _); [|done]. injection Hstep as <-.
    destruct (receive_workflows_iteration_frame box_decrypt ParseFromString
                Argument_init s) as (Hp & _ & Hw & _).
    by eapply (running_threads_bound_frame s).
  - case_decide; [|done]. injection Hstep as <-.
    apply running_threads_bound_set_thread; [by intros [|]|done].
  - destruct (PyDict.get t (pool s)) as [[]|] eqn:Hget; try done.
    destruct (work_queue s) as [|request rest]; [done|].
    injection Hstep as <-.
    apply (running_threads_bound_set_thread t _ (set_work_queue rest s));
      [by intros [|]|done].
  - destruct (PyDict.get t (pool s)) as [[]|] eqn:Hget; try done.
    destruct (load_workflow _ _); injection Hstep as <-;
      (apply running_threads_bound_set_thread; [by intros [|]|done]).
  - destruct (PyDict.get t (pool s)) as [[| |request w| |]|] eqn:Hget;
      try done.
    injection Hstep as <-.
    apply (running_threads_bound_set_thread t _ (set_worker _ s)).
    + intros _. sys_simpl. rewrite get_set_eq. by eexists.
    + intros t' Ht'. sys_simpl. cbn [pool set_worker] in Ht'.
      destruct (decide (t = t')) as [<-|Hne].
      * rewrite get_set_eq. by eexists.
      * rewrite get_set_ne by done. by apply Hinv.
  - destruct (PyDict.get t (pool s)) as [[]|] eqn:Hget; try done.
    injection Hstep as <-.
    apply running_threads_bound_set_thread; [|done].
    intros _. apply Hinv. by left.
  - destruct (PyDict.get t (pool s)) as [[]|] eqn:Hget; try done.
    injection Hstep as <-.
    apply running_threads_bound_set_thread; [by intros [|]|done].
  - destruct (PyDict.get t (pool s)) as [[]|] eqn:Hget; try done.
    injection Hstep as <-.
    intros t'. unfold set_thread. sys_simpl.
    destruct (decide (t = t')) as [<-|Hne].
    { rewrite get_set_eq. by intros [|]. }
    rewrite get_set_ne by done. intros Ht'.
    destruct (registry_release_workflows t (worker s)) as [-> | ->].
    + by apply Hinv.
    + rewrite get_remove_ne by done. by apply Hinv.
  - injection Hstep as <-.
    destruct (control_frame message (worker s)) as (Hw & _).
    by eapply (running_threads_bound_frame s).
  - injection Hstep as <-.
    destruct (on_data_sent_frame json_dumps py_str SerializeToString env
                t sender kw (worker s)) as (Hw & _).
    by eapply (running_threads_bound_frame s).
Qed.

Lemma run_running_threads_bound schedule s s' :
  run5 schedule s = Some s' ->
  running_threads_bound s -> running_threads_bound s'.
Proof.
  revert s. induction schedule as [|a schedule IH]; intros s; cbn.
  - by intros [= <-].
  - destruct (step5 a s) as [s1|] eqn:Hstep; [|done].
    intros Hrun Hinv. eapply IH; [done|].
    by eapply step_running_threads_bound.
Qed.

End running_facts.

(** X13. The dispatch body establishes what the signal bridge needs.
    Along every schedule from a fresh worker, a pool thread that is inside
    [workflow.execute] has an entry in the registry, so the lookup made by
    [on_data_sent] for a signal sent on that thread returns a workflow
    and does not raise, whatever the other threads do in between. *)
Theorem signals_of_a_running_workflow_find_it `{!data_pb2}
    (json_dumps : pyval -> res string) (py_str : pyval -> string)
    (SerializeToString : Message -> bytes) (env : Collaborators)
    (box_decrypt : bytes -> res bytes)
    (ParseFromString : bytes -> res ExecuteWorkflowMessage)
    (Argument_init : ArgumentProto -> res Argument)
    (capacity : nat) (db : ExecutionDatabase) (queue : list bytes)
    (schedule : list action) (s : System) (t : thread_name) :
  run json_dumps py_str SerializeToString env
    box_decrypt ParseFromString Argument_init
    schedule (init capacity db queue) = Some s ->
  PyDict.get t (pool s) = Some Executing ->
  exists workflow,
    PyDict.get t (workflows (worker s)) = Some workflow
    /\ _get_current_workflow t (worker s) = (Ok workflow, worker s).
Proof.
  intros Hrun Hexec.
  assert (Hinit : running_threads_bound (init capacity db queue))
    by (by intros t' [|]).
  pose proof (run_running_threads_bound _ _ _ _ _ _ _ _ _ _ Hrun Hinit t
                (or_introl Hexec)) as [workflow Hget].
  exists workflow. split; [done|].
  unfold _get_current_workflow. by rewrite Hget.
Qed.

Lemma signals_of_a_running_workflow_find_it_witness :
  exists s workflow,
    sample_run busy_schedule (init 2 Sample.db three_frames) = Some s
    /\ _get_current_workflow "t2" (worker s) = (Ok workflow, worker s)
    /\ get_execution_id workflow = Some "e2".
Proof.
  destruct (sample_run busy_schedule (init 2 Sample.db three_frames))
    as [s|] eqn:Hrun; [|vm_compute in Hrun; discriminate Hrun].
  destruct (signals_of_a_running_workflow_find_it
              Sample.json_dumps Sample.py_str Sample.SerializeToString
              Sample.reliable Sample.box_decrypt Sample.ParseFromString
              Sample.Argument_init 2 Sample.db three_frames busy_schedule
              s "t2" Hrun) as (workflow & Hget & Hcurrent).
  - vm_compute in Hrun. injection Hrun as <-. reflexivity.
  - exists s, workflow. split_and!; [reflexivity | exact Hcurrent |].
    vm_compute in Hrun. injection Hrun as <-.
    vm_compute in Hget. injection Hget as <-. reflexivity.
Defined.

(** ** Binding, looking up and releasing *)

Lemma find_values_set {V} (f : V -> bool) (t : thread_name) (v : V)
    (d : PyDict.t thread_name V) :
  (forall v0, v0 ∈ PyDict.values d -> f v0 = false) ->
  f v = true ->
  List.find f (PyDict.values (PyDict.set t v d)) = Some v.
Proof.
  unfold PyDict.values. intros Hnone Hv.
  induction d as [|[k v0] d IH]; csimpl.
  - by rewrite Hv.
  - destruct (decide (k = t)); csimpl.
    + by rewrite Hv.
    + rewrite (Hnone v0) by (csimpl; left).
      apply IH. intros v1 Hv1. apply Hnone. csimpl. by right.
Qed.

Lemma remove_set {V} (t : thread_name) (v : V) (d : PyDict.t thread_name V) :
  PyDict.remove t (PyDict.set t v d) = PyDict.remove t d.
Proof.
  unfold PyDict.remove. induction d as [|[k v0] d IH]; csimpl.
  - rewrite filter_cons. cbn. by rewrite decide_False by auto.
  - destruct (decide (k = t)) as [->|Hne]; rewrite !filter_cons; cbn.
    + by rewrite !decide_False by auto.
    + rewrite !decide_True by done. by rewrite IH.
Qed.

Lemma find_none_sublist {A} (f : A -> bool) (l k : list A) :
  l `sublist_of` k -> List.find f k = None -> List.find f l = None.
Proof.
  intros Hsub Hk. destruct (List.find f l) as [x|] eqn:Hl; [|done].
  apply List.find_some in Hl as [Hin Hx].
  apply list_elem_of_In in Hin.
  pose proof (List.find_none _ _ Hk x) as Hfalse.
  rewrite Hfalse in Hx; [done|].
  apply list_elem_of_In. by eapply elem_of_sublist.
Qed.

(** X14. Bind, look up, release. After a thread has bound a workflow
    whose execution id no other entry carries, the lookup by that
    execution id returns this workflow and so does the lookup by the
    thread's name; after the release the thread has no entry, the lookup
    by execution id finds nothing, and the entries of the other threads
    are as they were before the bind. *)
Theorem bind_lookup_release_round_trip
    (t : thread_name) (workflow : Workflow) (id : string) (self : Worker) :
  get_execution_id workflow = Some id ->
  (forall w, w ∈ PyDict.values (workflows self) ->
             get_execution_id w <> Some id) ->
  let bound := registry_bind t workflow self in
  let released := (registry_release t bound).2 in
  __get_workflow_by_execution_id bound id = Some workflow
  /\ _get_current_workflow t bound = (Ok workflow, bound)
  /\ (registry_release t bound).1 = Ok ()
  /\ workflows released = PyDict.remove t (workflows self)
  /\ PyDict.get t (workflows released) = None
  /\ __get_workflow_by_execution_id released id = None
  /\ forall t', t' <> t ->
       PyDict.get t' (workflows released) = PyDict.get t' (workflows self).
Proof.
  intros Hid Hfresh bound released.
  assert (Hreleased :
    registry_release t bound
    = (Ok (),
       record_call (Release t)
         (set_workflows (PyDict.remove t (workflows self)) bound))).
  { subst bound. unfold registry_release, PyDict.pop, registry_bind.
    sys_simpl. by rewrite get_set_eq, remove_set. }
  subst released. rewrite Hreleased. sys_simpl.
  assert (Hnone :
    List.find (fun w => bool_decide (get_execution_id w = Some id))
      (PyDict.values (workflows self)) = None).
  { destruct (List.find _ _) as [w|] eqn:Hfind; [|done].
    apply List.find_some in Hfind as [Hin Hw].
    apply bool_decide_eq_true in Hw.
    by destruct (Hfresh w (proj2 (list_elem_of_In _ _) Hin)). }
  split_and!; try done.
  - subst bound. unfold __get_workflow_by_execution_id, registry_bind.
    sys_simpl. apply find_values_set.
    + intros w Hw. apply bool_decide_eq_false. by apply Hfresh.
    + by apply bool_decide_eq_true.
  - subst bound. unfold _get_current_workflow, registry_bind. sys_simpl.
    by rewrite get_set_eq.
  - apply get_remove_eq.
  - unfold __get_workflow_by_execution_id. sys_simpl.
    eapply find_none_sublist; [apply values_remove_sublist | exact Hnone].
  - intros t' Hne. by apply get_remove_ne.
Qed.

Lemma bind_lookup_release_round_trip_witness :
  __get_workflow_by_execution_id worker_running_e2 "e2" = Some bound_workflow
  /\ __get_workflow_by_execution_id
       (registry_release "t1" worker_running_e2).2 "e2" = None.
Proof.
  destruct (bind_lookup_release_round_trip "t1" bound_workflow "e2" new_worker)
    as (Hfound & _ & _ & _ & _ & Hgone & _).
  - reflexivity.
  - intros w Hw. vm_compute in Hw. by apply elem_of_nil in Hw.
  - split; [exact Hfound | exact Hgone].
Defined.

(** ** Shutting the receiver down *)

(** X15. [WorkflowReceiver.shutdown] stops the intake without draining
    the queue: once [exit] is set, every [next()] raises [StopIteration],
    no frame is popped and no request is yielded, however many frames are
    waiting. *)
Theorem shutdown_stops_the_intake
    (box_decrypt : bytes -> res bytes)
    (ParseFromString : bytes -> res ExecuteWorkflowMessage)
    (Argument_init : ArgumentProto -> res Argument)
    (self : WorkflowReceiver) (n : nat) :
  let '(requests, r, self') :=
    take_requests box_decrypt ParseFromString Argument_init (S n)
      (shutdown self) in
  requests = [] /\ r = Raise StopIteration
  /\ cache self' = cache self /\ exit self' = true.
Proof.
  cbn [take_requests]. unfold receive_workflows_next, shutdown.
  cbn [finished exit cache].
  by destruct (finished self).
Qed.

(** * The control channel *)

(** ** [WorkflowCommunicationReceiver] *)

(** The messages of the control channel, from [data.proto]. *)
Inductive CommunicationPacket_Type := WORKFLOW | CASE | EXIT.
Inductive WorkflowControl_Type := PAUSE | ABORT.
Inductive CaseControl_Type := CREATE | UPDATE | DELETE.

Record SubscriptionProto := {
  sp_id : string;
  sp_events : list string
}.

Record WorkflowControl := {
  wcp_type : WorkflowControl_Type;
  wcp_workflow_execution_id : string
}.

Record CaseControl := {
  ccp_type : CaseControl_Type;
  ccp_id : Z;
  ccp_subscriptions : list SubscriptionProto
}.

Record CommunicationPacket := {
  cp_type : CommunicationPacket_Type;
  workflow_control_message : WorkflowControl;
  case_control_message : CaseControl
}.

(** [walkoff.case.subscription.Subscription(id, events)] *)
Record Subscription := {
  sub_id : string;
  sub_events : list string
}.

Inductive CaseCommunicationMessageType := create | update | delete.

Record CaseCommunicationMessageData := {
  cm_type : CaseCommunicationMessageType;
  cm_case_id : Z;
  cm_subscriptions : option (list Subscription)
}.

(** [WorkerCommunicationMessageData(type, data)]: the type [workflow]
    comes with workflow data and the type [case] with case data; the
    generator yields no message of type [exit]. *)
Inductive WorkerCommunicationMessageData :=
| workflow_message (data : WorkflowCommunicationMessageData)
| case_message (data : CaseCommunicationMessageData).

Definition _format_workflow_message_data (message : WorkflowControl)
  : WorkflowCommunicationMessageData :=
  let workflow_execution_id := wcp_workflow_execution_id message in
  match wcp_type message with
  | PAUSE =>
      {| wc_type := pause; wc_workflow_execution_id := workflow_execution_id |}
  | ABORT =>
      {| wc_type := abort; wc_workflow_execution_id := workflow_execution_id |}
  end.

(** [[Subscription(sub.id, sub.events) for sub in message.subscriptions]] *)
Definition make_subscriptions (subs : list SubscriptionProto)
  : list Subscription :=
  (fun sub => {| sub_id := sp_id sub; sub_events := sp_events sub |}) <$> subs.

Definition _format_case_message_data (message : CaseControl)
  : CaseCommunicationMessageData :=
  match ccp_type message with
  | CREATE =>
      {| cm_type := create; cm_case_id := ccp_id message;
         cm_subscriptions :=
           Some (make_subscriptions (ccp_subscriptions message)) |}
  | UPDATE =>
      {| cm_type := update; cm_case_id := ccp_id message;
         cm_subscriptions :=
           Some (make_subscriptions (ccp_subscriptions message)) |}
  | DELETE =>
      {| cm_type := delete; cm_case_id := ccp_id message;
         cm_subscriptions := None |}
  end.

(** What [self.comm_sock.recv()] does next: it returns a frame, or it
    raises [zmq.ZMQError]. *)
Inductive recv_event :=
| Received (message_bytes : bytes)
| Interrupted.

(** The receiver: [self.exit] and what the socket will deliver. *)
Record WorkflowCommunicationReceiver := {
  comm_exit : bool;
  comm_sock : list recv_event
}.

(** What a [next()] on a generator comes to: a yielded value, the end of
    the generator, an exception out of its body, or a [recv] that waits
    for a frame that has not arrived. *)
Inductive generated (A : Type) :=
| Yield (a : A)
| Return
| Throw (e : exn)
| Blocked.
Arguments Yield {A} a.
Arguments Return {A}.
Arguments Throw {A} e.
Arguments Blocked {A}.

Section communication_receiver.

(** [CommunicationPacket.ParseFromString], from protobuf. *)
Variable ParseCommunicationPacket : bytes -> res CommunicationPacket.

(** [raise StopIteration] in the body of a generator. Since Python 3.7
    (PEP 479) the exception does not end the generator silently: it is
    replaced by a [RuntimeError], which the [next()] of the consumer
    raises. *)
Definition raise_StopIteration {A} : generated A := Throw RuntimeError.

(** The loop of [receive_communications] from its test to the next
    [yield], on the frames the socket delivers. A [ZMQError] of [recv]
    continues the loop. An [EXIT] packet breaks out of it, and a set
    [exit] flag ends it: both reach the [raise StopIteration] that follows
    the loop. *)
Fixpoint receive_communications_loop (exit : bool) (sock : list recv_event)
  : generated WorkerCommunicationMessageData * list recv_event :=
  if exit then (raise_StopIteration, sock)
  else
    match sock with
    | [] => (Blocked, [])
    | Interrupted :: sock' => receive_communications_loop exit sock'
    | Received message_bytes :: sock' =>
        match ParseCommunicationPacket message_bytes with
        | Raise e => (Throw e, sock')
        | Ok message =>
            match cp_type message with
            | WORKFLOW =>
                (Yield (workflow_message
                          (_format_workflow_message_data
                             (workflow_control_message message))),
                 sock')
            | CASE =>
                (Yield (case_message
                          (_format_case_message_data
                             (case_control_message message))),
                 sock')
            | EXIT => (raise_StopIteration, sock')
            end
        end
    end.

(** One [next()] on the generator of [receive_communications]. *)
Definition receive_communications_next (self : WorkflowCommunicationReceiver)
  : generated WorkerCommunicationMessageData * WorkflowCommunicationReceiver :=
  let '(r, sock) :=
    receive_communications_loop (comm_exit self) (comm_sock self) in
  (r, {| comm_exit := comm_exit self; comm_sock := sock |}).

End communication_receiver.

(** ** [Worker.receive_communications] *)

(** The calls made on [self.subscription_cache]. *)
Inductive cache_call :=
| add_subscriptions (case_id : Z) (subscriptions : option (list Subscription))
| update_subscriptions (case_id : Z)
    (subscriptions : option (list Subscription))
| delete_case (case_id : Z).

(** The communication thread works on the worker, on the subscription
    cache (kept as the calls made on it) and on the receiver. *)
Record CommunicationThread := {
  ct_worker : Worker;
  subscription_cache : list cache_call;
  workflow_communication_receiver : WorkflowCommunicationReceiver
}.

Definition _handle_case_control_communication
    (message : CaseCommunicationMessageData) : cache_call :=
  match cm_type message with
  | create => add_subscriptions (cm_case_id message) (cm_subscriptions message)
  | update =>
      update_subscriptions (cm_case_id message) (cm_subscriptions message)
  | delete => delete_case (cm_case_id message)
  end.

(** The body of the [for] loop of [Worker.receive_communications]. *)
Definition handle_communication (message : WorkerCommunicationMessageData)
    (self : CommunicationThread) : CommunicationThread :=
  match message with
  | workflow_message data =>
      {| ct_worker :=
           (_handle_workflow_control_communication data (ct_worker self)).2;
         subscription_cache := subscription_cache self;
         workflow_communication_receiver :=
           workflow_communication_receiver self |}
  | case_message data =>
      {| ct_worker := ct_worker self;
         subscription_cache :=
           subscription_cache self ++ [_handle_case_control_communication data];
         workflow_communication_receiver :=
           workflow_communication_receiver self |}
  end.

Definition set_communication_receiver (r : WorkflowCommunicationReceiver)
    (self : CommunicationThread) : CommunicationThread :=
  {| ct_worker := ct_worker self;
     subscription_cache := subscription_cache self;
     workflow_communication_receiver := r |}.

(** How the communication thread stands after a run: its generator has
    ended, an exception has ended the thread, it waits in [recv], or the
    run was cut short. *)
Inductive thread_outcome :=
| Finished
| Died (e : exn)
| Waiting
| OutOfFuel.

Section worker_communications.

Variable ParseCommunicationPacket : bytes -> res CommunicationPacket.

(** [for message in self.workflow_communication_receiver
    .receive_communications(): ...], for at most [fuel] messages. *)
Fixpoint Worker_receive_communications (fuel : nat)
    (self : CommunicationThread) : thread_outcome * CommunicationThread :=
  match fuel with
  | 0 => (OutOfFuel, self)
  | S fuel' =>
      let '(r, receiver) :=
        receive_communications_next ParseCommunicationPacket
          (workflow_communication_receiver self) in
      let self := set_communication_receiver receiver self in
      match r with
      | Yield message =>
          Worker_receive_communications fuel'
            (handle_communication message self)
      | Return => (Finished, self)
      | Throw e => (Died e, self)
      | Blocked => (Waiting, self)
      end
  end.

End worker_communications.

(** ** Properties of the control channel *)

Section communication_facts.

Variable ParseCommunicationPacket : bytes -> res CommunicationPacket.

#[local] Abbreviation comm_loop :=
  (receive_communications_loop ParseCommunicationPacket).
#[local] Abbreviation comm_run :=
  (Worker_receive_communications ParseCommunicationPacket).

(** The message that a socket event makes the generator yield, if any. *)
Definition yielded (event : recv_event)
  : option WorkerCommunicationMessageData :=
  match event with
  | Interrupted => None
  | Received message_bytes =>
      match ParseCommunicationPacket message_bytes with
      | Ok message =>
          match cp_type message with
          | WORKFLOW =>
              Some (workflow_message
                      (_format_workflow_message_data
                         (workflow_control_message message)))
          | CASE =>
              Some (case_message
                      (_format_case_message_data
                         (case_control_message message)))
          | EXIT => None
          end
      | Raise _ => None
      end
  end.

(** A socket event that neither ends the stream nor fails to parse: a
    failed [recv], or a workflow or case packet. *)
Definition passes (event : recv_event) : Prop :=
  match event with
  | Interrupted => True
  | Received message_bytes =>
      exists message,
        ParseCommunicationPacket message_bytes = Ok message
        /\ cp_type message <> EXIT
  end.

(** The thread with its receiver listening on [sock]. *)
Definition listening (sock : list recv_event) (self : CommunicationThread)
  : CommunicationThread :=
  set_communication_receiver {| comm_exit := false; comm_sock := sock |} self.

(** Handling messages one after the other. *)
Definition handle_all (messages : list WorkerCommunicationMessageData)
    (self : CommunicationThread) : CommunicationThread :=
  foldl (fun self message => handle_communication message self) self messages.

Lemma handle_communication_listening message sock self :
  handle_communication message (listening sock self)
  = listening sock (handle_communication message self).
Proof. by destruct message. Qed.

Lemma listening_listening sock sock' self :
  listening sock (listening sock' self) = listening sock self.
Proof. done. Qed.

Lemma comm_run_step fuel sock self :
  comm_run (S fuel) (listening sock self)
  = match comm_loop false sock with
    | (Yield message, sock') =>
        comm_run fuel (handle_communication message (listening sock' self))
    | (Return, sock') => (Finished, listening sock' self)
    | (Throw e, sock') => (Died e, listening sock' self)
    | (Blocked, sock') => (Waiting, listening sock' self)
    end.
Proof.
  cbn [Worker_receive_communications].
  unfold receive_communications_next, listening.
  cbn [workflow_communication_receiver set_communication_receiver
         comm_exit comm_sock].
  by destruct (comm_loop false sock) as [[]?].
Qed.

Lemma comm_run_passes before rest fuel self :
  Forall passes before ->
  comm_run (length (omap yielded before) + S fuel)
    (listening (before ++ rest) self)
  = comm_run (S fuel) (listening rest (handle_all (omap yielded before) self)).
Proof.
  intros Hpass. revert self.
  induction Hpass as [|event before Hevent _ IH]; intros self; [done|].
  destruct event as [message_bytes|].
  - destruct Hevent as (message & Hparse & Htype).
    assert (Hy : exists m, yielded (Received message_bytes) = Some m
                           /\ comm_loop false
                                (Received message_bytes :: before ++ rest)
                              = (Yield m, before ++ rest)).
    { cbn. rewrite Hparse. destruct (cp_type message); by eauto. }
    destruct Hy as (m & Hm & Hloop).
    cbn [omap list_omap app]. rewrite Hm. cbn [length plus].
    rewrite (comm_run_step _ (Received message_bytes :: before ++ rest)).
    rewrite Hloop, handle_communication_listening. apply IH.
  - cbn [omap list_omap app yielded].
    rewrite <- IH, !Nat.add_succ_r.
    rewrite (comm_run_step _ (Interrupted :: before ++ rest)).
    rewrite (comm_run_step _ (before ++ rest)).
    done.
Qed.

Lemma omap_yielded_length events :
  length (omap yielded events) <= length events.
Proof.
  induction events as [|event events IH]; cbn; [done|].
  destruct (yielded event); cbn; lia.
Qed.

Lemma comm_run_passes_fuel before rest fuel self :
  Forall passes before ->
  length before < fuel ->
  exists fuel',
    comm_run fuel (listening (before ++ rest) self)
    = comm_run (S fuel')
        (listening rest (handle_all (omap yielded before) self)).
Proof.
  intros Hpass Hfuel.
  pose proof (omap_yielded_length before) as Hlen.
  exists (fuel - length (omap yielded before) - 1).
  rewrite <- comm_run_passes by done. f_equal. lia.
Qed.

End communication_facts.

(** Stand-ins for the control channel: a frame is a tag byte followed by
    an execution id; tag 01 pauses, 02 aborts, 03 is the exit packet, 04
    deletes case 7, and anything else does not parse. *)
Module SampleControl.

Definition control (kind : WorkflowControl_Type) (id : string)
  : CommunicationPacket :=
  {| cp_type := WORKFLOW;
     workflow_control_message :=
       {| wcp_type := kind; wcp_workflow_execution_id := id |};
     case_control_message :=
       {| ccp_type := DELETE; ccp_id := 0; ccp_subscriptions := [] |} |}.

Definition ParseFromString (frame : bytes) : res CommunicationPacket :=
  match frame with
  | Byte.x01 :: id => Ok (control PAUSE (String.string_of_list_byte id))
  | Byte.x02 :: id => Ok (control ABORT (String.string_of_list_byte id))
  | Byte.x03 :: _ =>
      Ok {| cp_type := EXIT;
            workflow_control_message :=
              {| wcp_type := PAUSE; wcp_workflow_execution_id := "" |};
            case_control_message :=
              {| ccp_type := DELETE; ccp_id := 0; ccp_subscriptions := [] |} |}
  | Byte.x04 :: _ =>
      Ok {| cp_type := CASE;
            workflow_control_message :=
              {| wcp_type := PAUSE; wcp_workflow_execution_id := "" |};
            case_control_message :=
              {| ccp_type := DELETE; ccp_id := 7; ccp_subscriptions := [] |} |}
  | _ => Raise DecodeError
  end.

Definition abort_frame (id : string) : recv_event :=
  Received (Byte.x02 :: String.list_byte_of_string id).
Definition exit_frame : recv_event := Received [Byte.x03].
Definition delete_frame : recv_event := Received [Byte.x04].
Definition broken_frame : recv_event := Received [Byte.xff].

(** The communication thread of a worker on which thread [t1] runs
    execution [e2]. *)
Definition thread : CommunicationThread :=
  {| ct_worker := worker_running_e2;
     subscription_cache := [];
     workflow_communication_receiver :=
       {| comm_exit := false; comm_sock := [] |} |}.

End SampleControl.

(** X16. Control messages are handled in the order in which they are
    received, and a [recv] that raises [ZMQError] is skipped without
    losing a message: on a stream of frames that are workflow or case
    packets, with failed receives anywhere in between, the thread handles
    exactly the messages of the frames, in order, and then waits for the
    next frame. *)
Theorem control_messages_are_handled_in_order
    (ParseCommunicationPacket : bytes -> res CommunicationPacket)
    (sock : list recv_event) (fuel : nat) (self : CommunicationThread) :
  Forall (passes ParseCommunicationPacket) sock ->
  length sock < fuel ->
  Worker_receive_communications ParseCommunicationPacket fuel
    (listening sock self)
  = (Waiting,
     listening []
       (handle_all (omap (yielded ParseCommunicationPacket) sock) self)).
Proof.
  intros Hpass Hfuel.
  destruct (comm_run_passes_fuel ParseCommunicationPacket sock [] fuel self
              Hpass Hfuel) as (fuel' & Hrun).
  rewrite app_nil_r in Hrun. rewrite Hrun. by rewrite comm_run_step.
Qed.

Lemma control_messages_are_handled_in_order_witness :
  let result :=
    Worker_receive_communications SampleControl.ParseFromString 4
      (listening [SampleControl.abort_frame "e2"; Interrupted;
                  SampleControl.delete_frame]
         SampleControl.thread) in
  result.1 = Waiting
  /\ calls (ct_worker result.2)
     = calls worker_running_e2 ++ [call_abort bound_workflow]
  /\ subscription_cache result.2 = [delete_case 7].
Proof.
  cbv zeta.
  rewrite (control_messages_are_handled_in_order
             SampleControl.ParseFromString
             [SampleControl.abort_frame "e2"; Interrupted;
              SampleControl.delete_frame] 4 SampleControl.thread).
  - split_and!; reflexivity.
  - repeat constructor; eexists; (split; [reflexivity|discriminate]).
  - cbn. lia.
Defined.

(** X17. An [EXIT] packet ends the control stream, and with it the
    communication thread. The messages received before it are handled, in
    order; the [raise StopIteration] that the packet leads to then leaves
    the generator as a [RuntimeError], which nothing in
    [Worker.receive_communications] catches: the thread dies of it, and
    every frame behind the [EXIT] packet stays unread, so that no pause
    or abort sent afterwards reaches a workflow. *)
Theorem exit_packet_ends_the_control_stream
    (ParseCommunicationPacket : bytes -> res CommunicationPacket)
    (before after : list recv_event) (message_bytes : bytes)
    (message : CommunicationPacket)
    (fuel : nat) (self : CommunicationThread) :
  Forall (passes ParseCommunicationPacket) before ->
  ParseCommunicationPacket message_bytes = Ok message ->
  cp_type message = EXIT ->
  length before < fuel ->
  Worker_receive_communications ParseCommunicationPacket fuel
    (listening (before ++ Received message_bytes :: after) self)
  = (Died RuntimeError,
     listening after
       (handle_all (omap (yielded ParseCommunicationPacket) before) self)).
Proof.
  intros Hpass Hparse Hexit Hfuel.
  destruct (comm_run_passes_fuel ParseCommunicationPacket before
              (Received message_bytes :: after) fuel self Hpass Hfuel)
    as (fuel' & ->).
  rewrite comm_run_step. cbn [receive_communications_loop].
  by rewrite Hparse, Hexit.
Qed.

Lemma exit_packet_ends_the_control_stream_witness :
  let result :=
    Worker_receive_communications SampleControl.ParseFromString 5
      (listening [SampleControl.exit_frame; SampleControl.abort_frame "e2"]
         SampleControl.thread) in
  result.1 = Died RuntimeError
  /\ calls (ct_worker result.2) = calls worker_running_e2
  /\ comm_sock (workflow_communication_receiver result.2)
     = [SampleControl.abort_frame "e2"].
Proof.
  cbv zeta.
  pose proof (exit_packet_ends_the_control_stream
                SampleControl.ParseFromString
                [] [SampleControl.abort_frame "e2"] [Byte.x03]
                {| cp_type := EXIT;
                   workflow_control_message :=
                     {| wcp_type := PAUSE; wcp_workflow_execution_id := "" |};
                   case_control_message :=
                     {| ccp_type := DELETE; ccp_id := 0;
                        ccp_subscriptions := [] |} |}
                5 SampleControl.thread) as Hexit.
  cbn [app] in Hexit. unfold SampleControl.exit_frame.
  rewrite Hexit; [by split_and! | constructor | reflexivity | reflexivity
                 | cbn; lia].
Defined.

(** X18. A control frame that does not parse ends the communication
    thread. [ParseFromString] is called outside the [try] that guards
    [recv], so its exception leaves the generator and the loop of
    [Worker.receive_communications]: the messages received before the
    frame have been handled, and no frame behind it is ever read. *)
Theorem malformed_control_frame_ends_the_thread
    (ParseCommunicationPacket : bytes -> res CommunicationPacket)
    (before after : list recv_event) (message_bytes : bytes) (e : exn)
    (fuel : nat) (self : CommunicationThread) :
  Forall (passes ParseCommunicationPacket) before ->
  ParseCommunicationPacket message_bytes = Raise e ->
  length before < fuel ->
  Worker_receive_communications ParseCommunicationPacket fuel
    (listening (before ++ Received message_bytes :: after) self)
  = (Died e,
     listening after
       (handle_all (omap (yielded ParseCommunicationPacket) before) self)).
Proof.
  intros Hpass Hparse Hfuel.
  destruct (comm_run_passes_fuel ParseCommunicationPacket before
              (Received message_bytes :: after) fuel self Hpass Hfuel)
    as (fuel' & ->).
  rewrite comm_run_step. cbn [receive_communications_loop].
  by rewrite Hparse.
Qed.

Lemma malformed_control_frame_ends_the_thread_witness :
  let result :=
    Worker_receive_communications SampleControl.ParseFromString 5
      (listening [SampleControl.broken_frame; SampleControl.abort_frame "e2"]
         SampleControl.thread) in
  result.1 = Died DecodeError
  /\ calls (ct_worker result.2) = calls worker_running_e2.
Proof.
  cbv zeta.
  pose proof (malformed_control_frame_ends_the_thread
                SampleControl.ParseFromString
                [] [SampleControl.abort_frame "e2"] [Byte.xff] DecodeError
                5 SampleControl.thread) as Hbroken.
  cbn [app] in Hbroken. unfold SampleControl.broken_frame.
  rewrite Hbroken; [by split_and! | constructor | reflexivity | cbn; lia].
Defined.

Lemma control_binds message self :
  let self' := (_handle_workflow_control_communication message self).2 in
  binds self' = binds self /\ releases self' = releases self.
Proof.
  unfold _handle_workflow_control_communication.
  destruct (__get_workflow_by_execution_id _ _); [|done].
  destruct (wc_type message); cbn [snd];
    rewrite binds_record_call, releases_record_call; cbn; lia.
Qed.

(** X19. The communication thread never binds or releases a workflow.
    Whatever it receives and however long it runs, the registry, the
    capacity, the request queue and the results handler of the worker are
    as they were, and so are the numbers of binds and of releases. *)
Theorem communication_thread_leaves_the_registry_alone
    (ParseCommunicationPacket : bytes -> res CommunicationPacket)
    (fuel : nat) (self : CommunicationThread) :
  let self' :=
    (Worker_receive_communications ParseCommunicationPacket fuel self).2 in
  workflows (ct_worker self') = workflows (ct_worker self)
  /\ capacity (ct_worker self') = capacity (ct_worker self)
  /\ workflow_receiver (ct_worker self') = workflow_receiver (ct_worker self)
  /\ workflow_results_sender (ct_worker self')
     = workflow_results_sender (ct_worker self)
  /\ binds (ct_worker self') = binds (ct_worker self)
  /\ releases (ct_worker self') = releases (ct_worker self).
Proof.
  cbv zeta. revert self.
  induction fuel as [|fuel IH]; intros self; [done|].
  cbn [Worker_receive_communications].
  destruct (receive_communications_next _ _) as [[message| |e|] receiver];
    try done.
  destruct (IH (handle_communication message
                  (set_communication_receiver receiver self)))
    as (-> & -> & -> & -> & -> & ->).
  destruct message as [data|data]; [|done]. cbn.
  destruct (control_frame data (ct_worker self)) as (-> & -> & -> & ->).
  destruct (control_binds data (ct_worker self)) as (-> & ->).
  done.
Qed.

(** ** Entries that are never released *)

(** A worker that cannot admit any more: the registry is at capacity,
    the pool has nothing to run and every pool thread is idle. *)
Definition wedged (s : System) : Prop :=
  capacity (worker s) <= PyDict.len (workflows (worker s))
  /\ work_queue s = []
  /\ Forall (fun e : thread_name * thread_state => e.2 = Idle) (pool s).

Lemma idle_pool_get t st (p : PyDict.t thread_name thread_state) :
  Forall (fun e : thread_name * thread_state => e.2 = Idle) p ->
  PyDict.get t p = Some st -> st = Idle.
Proof.
  induction 1 as [|[k v] p Hv _ IH]; cbn; [done|].
  destruct (decide (k = t)); [|done]. cbn in Hv. by intros [= <-].
Qed.

Lemma idle_pool_set t (p : PyDict.t thread_name thread_state) :
  Forall (fun e : thread_name * thread_state => e.2 = Idle) p ->
  Forall (fun e : thread_name * thread_state => e.2 = Idle)
    (PyDict.set t Idle p).
Proof.
  induction 1 as [|[k v] p Hv Hp IH]; cbn.
  - by repeat constructor.
  - destruct (decide (k = t)); by constructor.
Qed.

Section wedged_facts.

Context `{!data_pb2}.
Variable json_dumps : pyval -> res string.
Variable py_str : pyval -> string.
Variable SerializeToString : Message -> bytes.
Variable env : Collaborators.
Variable box_decrypt : bytes -> res bytes.
Variable ParseFromString : bytes -> res ExecuteWorkflowMessage.
Variable Argument_init : ArgumentProto -> res Argument.

#[local] Abbreviation step6 :=
  (step json_dumps py_str SerializeToString env
     box_decrypt ParseFromString Argument_init).
#[local] Abbreviation run6 :=
  (run json_dumps py_str SerializeToString env
     box_decrypt ParseFromString Argument_init).

Lemma wedged_step a s s' :
  wedged s -> step6 a s = Some s' ->
  wedged s'
  /\ workflows (worker s') = workflows (worker s)
  /\ request_queue s' = enqueued [a] ++ request_queue s.
Proof.
  intros (Hfull & Hqueue & Hidle) Hstep. unfold wedged, request_queue.
  destruct a as [frame| |t|t|t|t|t|t|t|message|t sender kw]; cbn in Hstep.
  - by injection Hstep as <-.
  - destruct (_ && _); [|done]. injection Hstep as <-.
    rewrite iteration_at_capacity; [done|].
    unfold __is_pool_at_capacity. by apply bool_decide_eq_true.
  - case_decide; [|done]. injection Hstep as <-. sys_simpl.
    split_and!; try done. by apply idle_pool_set.
  - destruct (PyDict.get t (pool s)) as [[]|]; try done.
    by rewrite Hqueue in Hstep.
  - destruct (PyDict.get t (pool s)) as [st|] eqn:Hget; [|done].
    by rewrite (idle_pool_get _ _ _ Hidle Hget) in Hstep.
  - destruct (PyDict.get t (pool s)) as [st|] eqn:Hget; [|done].
    by rewrite (idle_pool_get _ _ _ Hidle Hget) in Hstep.
  - destruct (PyDict.get t (pool s)) as [st|] eqn:Hget; [|done].
    by rewrite (idle_pool_get _ _ _ Hidle Hget) in Hstep.
  - destruct (PyDict.get t (pool s)) as [st|] eqn:Hget; [|done].
    by rewrite (idle_pool_get _ _ _ Hidle Hget) in Hstep.
  - destruct (PyDict.get t (pool s)) as [st|] eqn:Hget; [|done].
    by rewrite (idle_pool_get _ _ _ Hidle Hget) in Hstep.
  - injection Hstep as <-. sys_simpl.
    by destruct (control_frame message (worker s)) as (-> & -> & _ & ->).
  - injection Hstep as <-. sys_simpl.
    by destruct (on_data_sent_frame json_dumps py_str SerializeToString env
                   t sender kw (worker s)) as (-> & -> & _ & ->).
Qed.

Lemma wedged_run schedule s s' :
  wedged s -> run6 schedule s = Some s' ->
  wedged s'
  /\ workflows (worker s') = workflows (worker s)
  /\ request_queue s' = reverse (enqueued schedule) ++ request_queue s.
Proof.
  revert s. induction schedule as [|a schedule IH]; intros s Hw; cbn [run].
  - by intros [= <-].
  - destruct (step6 a s) as [s1|] eqn:Hstep; [|done]. intros Hrun.
    destruct (wedged_step _ _ _ Hw Hstep) as (Hw1 & Hr1 & Hq1).
    destruct (IH _ Hw1 Hrun) as (Hw' & Hr & Hq).
    split_and!; [done | congruence |].
    rewrite Hq, Hq1.
    change (a :: schedule) with ([a] ++ schedule).
    unfold enqueued. rewrite omap_app, reverse_app, <- app_assoc.
    f_equal. f_equal. by destruct a.
Qed.

End wedged_facts.

(** X20. Entries that are never released can stop the worker for good.
    When the registry holds [capacity] entries while every pool thread is
    idle and no submitted request is waiting (as after calls of
    [workflow.execute] that raised), the state can no longer change:
    along every schedule the registry stays as it is, the scheduler loop
    admits nothing, and the frames that clients push only pile up on the
    request queue. *)
Theorem leaked_entries_stop_admission `{!data_pb2}
    (json_dumps : pyval -> res string) (py_str : pyval -> string)
    (SerializeToString : Message -> bytes) (env : Collaborators)
    (box_decrypt : bytes -> res bytes)
    (ParseFromString : bytes -> res ExecuteWorkflowMessage)
    (Argument_init : ArgumentProto -> res Argument)
    (schedule : list action) (s s' : System) :
  wedged s ->
  run json_dumps py_str SerializeToString env
    box_decrypt ParseFromString Argument_init schedule s = Some s' ->
  wedged s'
  /\ workflows (worker s') = workflows (worker s)
  /\ request_queue s' = reverse (enqueued schedule) ++ request_queue s.
Proof. apply wedged_run. Qed.

(** A worker of capacity 1 whose only dispatch raised, and what it does
    with a frame pushed afterwards. *)
Definition raising_schedule : list action :=
  [Scheduler; Spawn "t1"; Take "t1"; Load "t1"; DoBind "t1";
   ExecuteRaises "t1"].

Lemma leaked_entries_stop_admission_witness :
  exists s s',
    sample_run raising_schedule
      (init 1 Sample.db [Sample.sealed Byte.x61 "e1"]) = Some s
    /\ wedged s
    /\ sample_run [Enqueue (Sample.sealed Byte.x61 "e2"); Scheduler; Scheduler]
         s = Some s'
    /\ request_queue s' = [Sample.sealed Byte.x61 "e2"]
    /\ work_queue s' = [].
Proof.
  destruct (sample_run raising_schedule
              (init 1 Sample.db [Sample.sealed Byte.x61 "e1"]))
    as [s|] eqn:Hrun; [|vm_compute in Hrun; discriminate Hrun].
  assert (Hwedged : wedged s).
  { vm_compute in Hrun. injection Hrun as <-.
    split_and!; [cbn; lia | reflexivity | by repeat constructor]. }
  destruct (sample_run
              [Enqueue (Sample.sealed Byte.x61 "e2"); Scheduler; Scheduler] s)
    as [s'|] eqn:Hlater.
  2:{ vm_compute in Hrun. injection Hrun as <-.
      vm_compute in Hlater. discriminate Hlater. }
  destruct (leaked_entries_stop_admission _ _ _ _ _ _ _ _ _ _ Hwedged Hlater)
    as ((_ & Hwork & _) & _ & Hqueue).
  exists s, s'. split_and!; [reflexivity | exact Hwedged | exact Hlater | |
                             exact Hwork].
  rewrite Hqueue. vm_compute in Hrun. injection Hrun as <-. reflexivity.
Defined.
